(** * Backtesting engine of the sports-prediction repository

    A shallow embedding of [src/python/backtesting/backtest_engine.py]
    (class [BacktestEngine]) and the properties its specification states.

    Numbers.  The engine is embedded twice.  In the main development
    Python [float] values are idealised as exact rationals ([Q], compared
    with [==]): it is about the arithmetic the program writes down, and
    its statements are those that rounding in the last digits does not
    disturb.  Division by zero follows [Qdiv] (the quotient is [0]);
    every division the theorems go through is guarded by the source or
    named in the statement.  Where rounding, an infinity or NaN decides
    which branch the program takes (the Kelly fraction, the entry floor,
    the guards of the Sharpe and Sortino ratios), module [Binary64] gives
    the same functions over IEEE 754 binary64, the arithmetic the program
    runs in.

    Tables.  A pandas [DataFrame] is the list of its rows, in row order;
    a missing cell (None / NaN under [pd.notna]) is [None], and a cell
    read with [Series.get] is a [Cell], which tells an absent column
    from a NaN.  The [open_positions] dict is an insertion-ordered
    association list with unique keys, since the order of its items
    decides the order in which trades are appended. *)

From Stdlib Require Import QArith Qabs Qminmax Lqa ZArith Lia.
From Stdlib Require Floats.
From stdpp Require Import base list strings gmap sorting.

Local Open Scope Q_scope.

(** ** Python and NumPy primitives *)

Module Py.

(** [a < b] on floats. *)
Definition ltb (a b : Q) : bool := negb (Qle_bool b a).

(** [a <= b] on floats. *)
Definition leb (a b : Q) : bool := Qle_bool a b.

(** [a < b] where [a] may be NaN ([None]): an ordered comparison with
    NaN is [False]. *)
Definition nan_ltb (a : option Q) (b : Q) : bool :=
  match a with
  | Some x => ltb x b
  | None => false
  end.

(** Built-in [min(a, b)]: the first argument unless the second is
    strictly smaller. *)
Definition min (a b : Q) : Q := if ltb b a then b else a.

(** Built-in [max(a, b)]: the first argument unless the second is
    strictly larger. *)
Definition max (a b : Q) : Q := if ltb a b then b else a.

(** Built-in [sum(xs)]: a left fold that starts from [0]. *)
Definition sum (xs : list Q) : Q := fold_left Qplus xs 0.

(** Built-in [abs]. *)
Definition abs (a : Q) : Q := Qabs a.

(** Rounding of an exact rational to the nearest integer, ties to the
    even one, as [round] does. *)
Definition round_half_even (q : Q) : Z :=
  let n := Qnum q in
  let d := Z.pos (Qden q) in
  let fl := (n / d)%Z in
  let r := (n mod d)%Z in
  match (2 * r ?= d)%Z with
  | Lt => fl
  | Gt => (fl + 1)%Z
  | Eq => if Z.even fl then fl else (fl + 1)%Z
  end.

(** [round(x, 2)]. *)
Definition round2 (x : Q) : Q := inject_Z (round_half_even (x * 100)) / 100.

End Py.

(** ** Data model *)

(** [BacktestConfig]. *)
Record BacktestConfig := {
  starting_capital : Q;
  max_position_size_pct : Q;
  daily_drawdown_limit_pct : Q;
  min_liquidity : Q;
  slippage_pct : Q;
  gas_cost_per_trade : Q;
  execution_latency_ms : Z;
  kelly_fraction : Q
}.

(** The dataclass defaults. *)
Definition default_config : BacktestConfig := {|
  starting_capital := 50000;
  max_position_size_pct := 2;
  daily_drawdown_limit_pct := 8;
  min_liquidity := 2000;
  slippage_pct := 0.02;
  gas_cost_per_trade := 0.15;
  execution_latency_ms := 500;
  kelly_fraction := 0.5
|}.

(** A row of [historical_data]. *)
Record MarketRow := {
  mkt_timestamp : Z;
  mkt_market_id : string;
  mkt_yes_price : Q;
  mkt_no_price : Q;
  mkt_liquidity : Q;
  mkt_resolution : option string
}.

(** What a row holds under a key that [Series.get] looks up: the table
    has no such column, or the row's cell in it is missing (NaN), or it
    is a number. *)
Inductive Cell :=
  | NoColumn
  | NaN
  | Number (value : Q).

(** [row.get(key, default)]: the default when the column is absent,
    otherwise the cell itself, NaN ([None]) included. *)
Definition Series_get (cell : Cell) (default : Q) : option Q :=
  match cell with
  | NoColumn => Some default
  | NaN => None
  | Number value => Some value
  end.

(** A row of [strategy_signals].  [sig_liquidity] is the cell that
    [signal.get('liquidity', 0)] reads: the column is not part of the
    documented signal schema, so it may be absent. *)
Record Signal := {
  sig_timestamp : Z;
  sig_market_id : string;
  sig_signal_type : string;
  sig_confidence : Q;
  sig_edge_size : Q;
  sig_entry_price : Q;
  sig_fair_value : Q;
  sig_strategy : string;
  sig_liquidity : Cell
}.

(** The dict returned by [_enter_position]. *)
Record Position := {
  pos_entry_time : Z;
  pos_market_id : string;
  pos_strategy : string;
  pos_position : string;
  pos_entry_price : Q;
  pos_quantity : Q;
  pos_cost_basis : Q;
  pos_slippage : Q
}.

(** [Trade]. *)
Record Trade := {
  entry_time : Z;
  exit_time : Z;
  market_id : string;
  strategy : string;
  position : string;
  entry_price : Q;
  exit_price : Q;
  quantity : Q;
  pnl : Q;
  pnl_pct : Q;
  gas_cost : Q;
  slippage : Q
}.

(** An entry of [portfolio_value_history]. *)
Record Snapshot := {
  snap_timestamp : Z;
  snap_portfolio_value : Q;
  snap_capital : Q;
  snap_unrealized_pnl : Q;
  snap_open_positions : nat
}.

(** ** Position sizing *)

(** [_calculate_kelly(edge, win_prob)].  Over exact rationals the
    numerator [b * win_prob - q] cancels; what rounding leaves of it is
    in [Binary64._calculate_kelly]. *)
Definition _calculate_kelly (edge win_prob : Q) : Q :=
  if Py.leb win_prob 0 || Py.leb 1 win_prob then 0
  else
    let odds := 1 / win_prob in
    let b := odds - 1 in
    let q := 1 - win_prob in
    if Py.leb b 0 then 0
    else
      let kelly := ((b * win_prob) - q) / b in
      Py.max 0 (Py.min 0.25 kelly).

(** ** The [open_positions] dict *)

Module Dict.
Section Ops.
Context {V : Type}.

(** [d[k] = v]: an existing key keeps its place, a new key goes last. *)
Fixpoint set (k : string) (v : V) (d : list (string * V)) : list (string * V) :=
  match d with
  | [] => [(k, v)]
  | (k', v') :: d' =>
      if String.eqb k' k then (k, v) :: d' else (k', v') :: set k v d'
  end.

(** [del d[k]]. *)
Fixpoint del (k : string) (d : list (string * V)) : list (string * V) :=
  match d with
  | [] => []
  | (k', v') :: d' =>
      if String.eqb k' k then d' else (k', v') :: del k d'
  end.

(** [d.values()]. *)
Definition values (d : list (string * V)) : list V := map snd d.
End Ops.
End Dict.

(** ** Engine state *)

(** The fields of [self] that a run resets and mutates, together with
    the local [open_positions] of [run_backtest]. *)
Record State := {
  trades : list Trade;
  portfolio_value_history : list Snapshot;
  capital : Q;
  open_positions : list (string * Position)
}.

(** [Series.unique()]: the distinct values, in order of first appearance. *)
Fixpoint unique_from (seen l : list Z) : list Z :=
  match l with
  | [] => []
  | x :: l' =>
      if bool_decide (x ∈ seen) then unique_from seen l'
      else x :: unique_from (x :: seen) l'
  end.

Definition unique (l : list Z) : list Z := unique_from [] l.

(** Built-in [sorted] on timestamps. *)
Definition sorted (l : list Z) : list Z := merge_sort Z.le l.

(** [df[df['timestamp'] == t]]. *)
Definition rows_at (timestamp : Z) (df : list MarketRow) : list MarketRow :=
  List.filter (fun r => Z.eqb (mkt_timestamp r) timestamp) df.

(** [strategy_signals[strategy_signals['timestamp'] == t]]. *)
Definition signals_at (timestamp : Z) (df : list Signal) : list Signal :=
  List.filter (fun s => Z.eqb (sig_timestamp s) timestamp) df.

(** The inclusive date-range filter at the top of [run_backtest]; a bound
    that is [None] (or falsy) leaves the table as it is. *)
Definition filter_dates {A : Type} (ts : A -> Z) (start_date end_date : option Z)
    (df : list A) : list A :=
  let df1 :=
    match start_date with
    | Some s => List.filter (fun r => Z.leb s (ts r)) df
    | None => df
    end in
  match end_date with
  | Some e => List.filter (fun r => Z.leb (ts r) e) df1
  | None => df1
  end.

Section Engine.

(** The method [self._calculate_kelly] that [_enter_position] calls;
    [BacktestEngine] below binds it to [_calculate_kelly]. *)
Variable kelly_rule : Q -> Q -> Q.

Variable config : BacktestConfig.

(** [_can_enter_trade(signal)], reading [self.capital]. *)
Definition _can_enter_trade (capital : Q) (signal : Signal) : bool :=
  if Py.nan_ltb (Series_get (sig_liquidity signal) 0) (min_liquidity config)
  then false
  else
    let max_position := capital * (max_position_size_pct config / 100) in
    if Py.ltb max_position 100 then false else true.

(** [_enter_position(signal, timestamp)], reading [self.capital]. *)
Definition _enter_position (capital : Q) (signal : Signal) (timestamp : Z)
    : option Position :=
  let edge := sig_edge_size signal in
  let win_prob := sig_fair_value signal in
  let kelly := kelly_rule edge win_prob in
  let kelly_position := capital * kelly * kelly_fraction config in
  let max_position := capital * (max_position_size_pct config / 100) in
  let position_size := Py.min kelly_position max_position in
  if Py.ltb position_size 100 then None
  else
    let entry_price := sig_entry_price signal in
    let slippage := entry_price * slippage_pct config in
    let actual_entry := entry_price + slippage in
    let quantity := position_size / actual_entry in
    Some {| pos_entry_time := timestamp;
            pos_market_id := sig_market_id signal;
            pos_strategy := sig_strategy signal;
            pos_position := sig_signal_type signal;
            pos_entry_price := actual_entry;
            pos_quantity := quantity;
            pos_cost_basis := position_size;
            pos_slippage := slippage |}.

(** The pre-slippage exit price chosen by the [if]/[elif]/[else] at the
    head of [_close_position]. *)
Definition exit_reference (position : Position) (resolution : string) : Q :=
  if String.eqb resolution "yes" then 1
  else if String.eqb resolution "no" then 0
  else pos_entry_price position.

(** [_close_position(position, resolution, exit_time)]: the trade it
    returns and the value of [self.capital] after [self.capital += net_pnl]. *)
Definition _close_position (capital : Q) (position : Position)
    (resolution : string) (exit_time : Z) : Trade * Q :=
  let exit_price := exit_reference position resolution in
  let exit_slippage := exit_price * slippage_pct config in
  let actual_exit := Py.max 0 (exit_price - exit_slippage) in
  let proceeds := pos_quantity position * actual_exit in
  let cost := pos_cost_basis position in
  let gross_pnl := proceeds - cost in
  let net_pnl := gross_pnl - gas_cost_per_trade config in
  let pnl_pct := if Py.ltb 0 cost then net_pnl / cost * 100 else 0 in
  ({| entry_time := pos_entry_time position;
      exit_time := exit_time;
      market_id := pos_market_id position;
      strategy := pos_strategy position;
      position := pos_position position;
      entry_price := pos_entry_price position;
      exit_price := actual_exit;
      quantity := pos_quantity position;
      pnl := net_pnl;
      pnl_pct := pnl_pct;
      gas_cost := gas_cost_per_trade config;
      slippage := pos_slippage position + exit_slippage |},
   capital + net_pnl).

(** [_calculate_unrealized_pnl(position, market_data, timestamp)]. *)
Definition _calculate_unrealized_pnl (position : Position)
    (market_data : list MarketRow) (timestamp : Z) : Q :=
  let market_row :=
    List.filter
      (fun r => String.eqb (mkt_market_id r) (pos_market_id position)
                && Z.eqb (mkt_timestamp r) timestamp)
      market_data in
  match market_row with
  | [] => 0
  | row :: _ =>
      let current_price := mkt_yes_price row in
      let current_value := pos_quantity position * current_price in
      let unrealized := current_value - pos_cost_basis position in
      unrealized
  end.

(** The body of [for _, signal in signals.iterrows()]. *)
Definition enter_signal (timestamp : Z) (st : State) (signal : Signal) : State :=
  if _can_enter_trade (capital st) signal then
    match _enter_position (capital st) signal timestamp with
    | Some trade =>
        {| trades := trades st;
           portfolio_value_history := portfolio_value_history st;
           capital := capital st;
           open_positions :=
             Dict.set (sig_market_id signal) trade (open_positions st) |}
    | None => st
    end
  else st.

(** The body of [for market_id, position in list(open_positions.items())]. *)
Definition update_position (market_data : list MarketRow) (timestamp : Z)
    (st : State) (item : string * Position) : State :=
  let '(market_id, position) := item in
  let market_row :=
    List.filter (fun r => String.eqb (mkt_market_id r) market_id) market_data in
  match market_row with
  | [] => st
  | row :: _ =>
      match mkt_resolution row with
      | Some resolution =>
          let '(trade, capital') :=
            _close_position (capital st) position resolution timestamp in
          {| trades := trades st ++ [trade];
             portfolio_value_history := portfolio_value_history st;
             capital := capital';
             open_positions := Dict.del market_id (open_positions st) |}
      | None => st
      end
  end.

(** The "Record portfolio value" block. *)
Definition record_snapshot (historical_data : list MarketRow) (timestamp : Z)
    (st : State) : State :=
  let unrealized_pnl :=
    Py.sum (map (fun pos => _calculate_unrealized_pnl pos historical_data timestamp)
                (Dict.values (open_positions st))) in
  let total_value := capital st + unrealized_pnl in
  {| trades := trades st;
     portfolio_value_history :=
       portfolio_value_history st ++
       [{| snap_timestamp := timestamp;
           snap_portfolio_value := total_value;
           snap_capital := capital st;
           snap_unrealized_pnl := unrealized_pnl;
           snap_open_positions := length (open_positions st) |}];
     capital := capital st;
     open_positions := open_positions st |}.

(** The entry phase of one timestamp. *)
Definition entry_phase (strategy_signals : list Signal) (timestamp : Z)
    (st : State) : State :=
  if existsb (fun s => Z.eqb (sig_timestamp s) timestamp) strategy_signals then
    fold_left (enter_signal timestamp) (signals_at timestamp strategy_signals) st
  else st.

(** The update phase of one timestamp. *)
Definition update_phase (historical_data : list MarketRow) (timestamp : Z)
    (st : State) : State :=
  let market_data := rows_at timestamp historical_data in
  fold_left (update_position market_data timestamp) (open_positions st) st.

(** One iteration of [for timestamp in sorted(...unique())]. *)
Definition step (historical_data : list MarketRow) (strategy_signals : list Signal)
    (st : State) (timestamp : Z) : State :=
  record_snapshot historical_data timestamp
    (update_phase historical_data timestamp
       (entry_phase strategy_signals timestamp st)).

(** The "Reset state" block. *)
Definition reset : State :=
  {| trades := [];
     portfolio_value_history := [];
     capital := starting_capital config;
     open_positions := [] |}.

(** The timestamps the main loop visits. *)
Definition timeline (historical_data : list MarketRow) : list Z :=
  sorted (unique (map mkt_timestamp historical_data)).

(** [run_backtest] up to the end of the main loop: the state of the
    engine when the metrics are computed. *)
Definition simulate (historical_data : list MarketRow)
    (strategy_signals : list Signal) (start_date end_date : option Z) : State :=
  let historical_data := filter_dates mkt_timestamp start_date end_date historical_data in
  let strategy_signals := filter_dates sig_timestamp start_date end_date strategy_signals in
  fold_left (step historical_data strategy_signals) (timeline historical_data) reset.

End Engine.

(** ** Metrics *)

Section Metrics.

(** [np.sqrt], [**] on floats and [timedelta.days] have no exact
    counterpart on rationals; the metrics are stated over any choice
    of them. *)
Variable sqrtQ : Q -> Q.
Variable powQ : Q -> Q -> Q.
Variable elapsed_days : Z -> Z -> Z.

(** [len(xs)] as a float. *)
Definition len (A : Type) (xs : list A) : Q := inject_Z (Z.of_nat (length xs)).
Arguments len {A} xs.

(** [np.mean]. *)
Definition np_mean (xs : list Q) : Q := Py.sum xs / len xs.

(** The population variance under [np.std] (ddof = 0). *)
Definition np_var (xs : list Q) : Q :=
  let m := np_mean xs in
  np_mean (map (fun x => (x - m) * (x - m)) xs).

(** [np.std], as the root of the exact variance: a constant array has
    deviation [sqrtQ 0] here, while NumPy's rounded mean can leave a
    positive residue ([Binary64.np_std]). *)
Definition np_std (xs : list Q) : Q := sqrtQ (np_var xs).

(** [returns - (risk_free_rate / 252)]. *)
Definition excess_of (risk_free_rate : Q) (returns : list Q) : list Q :=
  map (fun r => r - risk_free_rate / 252) returns.

(** [_calculate_sharpe(returns, risk_free_rate)]. *)
Definition _calculate_sharpe (returns : list Q) (risk_free_rate : Q) : Q :=
  match returns with
  | [] => 0
  | _ =>
      let excess_returns := excess_of risk_free_rate returns in
      if Py.ltb 0 (np_std returns)
      then np_mean excess_returns / np_std excess_returns * sqrtQ 252
      else 0
  end.

(** [_calculate_sortino(returns, risk_free_rate)]. *)
Definition _calculate_sortino (returns : list Q) (risk_free_rate : Q) : Q :=
  match returns with
  | [] => 0
  | _ =>
      let excess_returns := excess_of risk_free_rate returns in
      let downside_returns := List.filter (fun e => Py.ltb e 0) excess_returns in
      let downside_std :=
        match downside_returns with
        | [] => 0
        | _ => np_std downside_returns
        end in
      if Py.ltb 0 downside_std
      then np_mean excess_returns / downside_std * sqrtQ 252
      else 0
  end.

(** The loop of [_calculate_max_drawdown] over [(peak, max_dd)]. *)
Definition drawdown_step (acc : Q * Q) (value : Q) : Q * Q :=
  let '(peak, max_dd) := acc in
  let peak := if Py.ltb peak value then value else peak in
  let dd := (peak - value) / peak in
  (peak, if Py.ltb max_dd dd then dd else max_dd).

(** [_calculate_max_drawdown()]. *)
Definition _calculate_max_drawdown (history : list Snapshot) : Q :=
  match map snap_portfolio_value history with
  | [] => 0
  | (peak :: _) as values => snd (fold_left drawdown_step values (peak, 0))
  end.

(** The default [risk_free_rate] of the two ratio methods. *)
Definition risk_free_rate_default : Q := 0.04.

(** [_calculate_metrics()]: the dict it returns. *)
Definition _calculate_metrics (config : BacktestConfig) (st : State)
    : gmap string Q :=
  match trades st with
  | [] => ∅
  | _ =>
      let trades_df := trades st in
      let total_trades := len trades_df in
      let winners := List.filter (fun t => Py.ltb 0 (pnl t)) trades_df in
      let losers := List.filter (fun t => Py.ltb (pnl t) 0) trades_df in
      let winning_trades := len winners in
      let losing_trades := len losers in
      let win_rate :=
        if Py.ltb 0 total_trades then winning_trades / total_trades else 0 in
      let total_pnl := Py.sum (map pnl trades_df) in
      let total_return_pct := (total_pnl / starting_capital config) * 100 in
      let annualized_return :=
        match portfolio_value_history st with
        | [] => 0
        | (first :: _) as history =>
            let days :=
              elapsed_days (snap_timestamp (List.last history first))
                           (snap_timestamp first) in
            if (0 <? days)%Z then
              (powQ (capital st / starting_capital config)
                    (365 / inject_Z (Z.max days 1)) - 1) * 100
            else 0
        end in
      let returns := map pnl_pct trades_df in
      let sharpe_ratio := _calculate_sharpe returns risk_free_rate_default in
      let sortino_ratio := _calculate_sortino returns risk_free_rate_default in
      let max_drawdown := _calculate_max_drawdown (portfolio_value_history st) in
      let avg_win :=
        if Py.ltb 0 winning_trades then np_mean (map pnl winners) else 0 in
      let avg_loss :=
        if Py.ltb 0 losing_trades then np_mean (map pnl losers) else 0 in
      let profit_factor :=
        if Py.ltb 0 losing_trades && negb (Qeq_bool avg_loss 0)
        then Py.abs (avg_win * winning_trades / (avg_loss * losing_trades))
        else 0 in
      let total_gas := Py.sum (map gas_cost trades_df) in
      let gas_pct_of_pnl :=
        if negb (Qeq_bool total_pnl 0)
        then (total_gas / Py.abs total_pnl) * 100 else 0 in
      list_to_map
        [ ("total_trades", total_trades);
          ("winning_trades", winning_trades);
          ("losing_trades", losing_trades);
          ("win_rate", Py.round2 (win_rate * 100));
          ("total_pnl", Py.round2 total_pnl);
          ("total_return_pct", Py.round2 total_return_pct);
          ("annualized_return_pct", Py.round2 annualized_return);
          ("sharpe_ratio", Py.round2 sharpe_ratio);
          ("sortino_ratio", Py.round2 sortino_ratio);
          ("max_drawdown_pct", Py.round2 (max_drawdown * 100));
          ("profit_factor", Py.round2 profit_factor);
          ("avg_win", Py.round2 avg_win);
          ("avg_loss", Py.round2 avg_loss);
          ("total_gas_costs", Py.round2 total_gas);
          ("gas_pct_of_pnl", Py.round2 gas_pct_of_pnl);
          ("final_capital", Py.round2 (capital st)) ]
  end.

(** The dict [run_backtest] returns. *)
Record Result := {
  res_config : BacktestConfig;
  res_metrics : gmap string Q;
  res_trades : list Trade;
  res_portfolio_history : list Snapshot
}.

(** [run_backtest(historical_data, strategy_signals, start_date, end_date)]
    for an engine whose sizing method is [kelly_rule]. *)
Definition run_backtest_with (kelly_rule : Q -> Q -> Q) (config : BacktestConfig)
    (historical_data : list MarketRow) (strategy_signals : list Signal)
    (start_date end_date : option Z) : Result :=
  let st := simulate kelly_rule config historical_data strategy_signals
                     start_date end_date in
  {| res_config := config;
     res_metrics := _calculate_metrics config st;
     res_trades := trades st;
     res_portfolio_history := portfolio_value_history st |}.

End Metrics.

Arguments len {A} xs.

(** ** [BacktestEngine]: the engine with its own Kelly method *)

Module BacktestEngine.

(** [_enter_position] as the class has it, sized by [_calculate_kelly]. *)
Definition _enter_position := _enter_position _calculate_kelly.

(** The engine after the main loop of [run_backtest]. *)
Definition simulate := simulate _calculate_kelly.

(** [run_backtest]. *)
Definition run_backtest (sqrtQ : Q -> Q) (powQ : Q -> Q -> Q)
    (elapsed_days : Z -> Z -> Z) :=
  run_backtest_with sqrtQ powQ elapsed_days _calculate_kelly.

End BacktestEngine.

(** ** The sizing, entry, closing and ratio code in binary64

    The functions in which rounding, an infinity or NaN can change the
    branch taken, over IEEE 754 binary64 with rounding to nearest, ties
    to even: Python's [float] and NumPy's [float64].  An ordered
    comparison with NaN is false, and a NumPy division by zero yields an
    infinity or NaN instead of raising. *)

Module Binary64.

Import PrimFloat.
Local Open Scope float_scope.

(** Built-in [min(a, b)] and [max(a, b)]: the first argument unless the
    second is strictly smaller (larger). *)
Definition min (a b : float) : float := if b <? a then b else a.

Definition max (a b : float) : float := if a <? b then b else a.

(** Neither an infinity nor NaN. *)
Definition finite (x : float) : bool :=
  match FloatOps.Prim2SF x with
  | SpecFloat.S754_zero _ | SpecFloat.S754_finite _ _ _ => true
  | SpecFloat.S754_infinity _ | SpecFloat.S754_nan => false
  end.

(** [BacktestConfig] and its dataclass defaults ([0.02] and [0.15] as
    binary64 reads them). *)
Record BacktestConfig := {
  starting_capital : float;
  max_position_size_pct : float;
  daily_drawdown_limit_pct : float;
  min_liquidity : float;
  slippage_pct : float;
  gas_cost_per_trade : float;
  execution_latency_ms : Z;
  kelly_fraction : float
}.

Definition default_config : BacktestConfig := {|
  starting_capital := 50000;
  max_position_size_pct := 2;
  daily_drawdown_limit_pct := 8;
  min_liquidity := 2000;
  slippage_pct := 0x1.47ae147ae147bp-6;
  gas_cost_per_trade := 0x1.3333333333333p-3;
  execution_latency_ms := 500%Z;
  kelly_fraction := 0x1p-1
|}.

(** A row of [strategy_signals]; [sig_liquidity] is [None] when the
    table has no liquidity column, and a missing cell is the float NaN. *)
Record Signal := {
  sig_timestamp : Z;
  sig_market_id : string;
  sig_signal_type : string;
  sig_confidence : float;
  sig_edge_size : float;
  sig_entry_price : float;
  sig_fair_value : float;
  sig_strategy : string;
  sig_liquidity : option float
}.

(** The dict returned by [_enter_position]. *)
Record Position := {
  pos_entry_time : Z;
  pos_market_id : string;
  pos_strategy : string;
  pos_position : string;
  pos_entry_price : float;
  pos_quantity : float;
  pos_cost_basis : float;
  pos_slippage : float
}.

(** [Trade]. *)
Record Trade := {
  entry_time : Z;
  exit_time : Z;
  market_id : string;
  strategy : string;
  position : string;
  entry_price : float;
  exit_price : float;
  quantity : float;
  pnl : float;
  pnl_pct : float;
  gas_cost : float;
  slippage : float
}.

(** [_calculate_kelly(edge, win_prob)]. *)
Definition _calculate_kelly (edge win_prob : float) : float :=
  if (win_prob <=? 0) || (1 <=? win_prob) then 0
  else
    let odds := 1 / win_prob in
    let b := odds - 1 in
    let q := 1 - win_prob in
    if b <=? 0 then 0
    else
      let kelly := ((b * win_prob) - q) / b in
      max 0 (min 0x1p-2 kelly).

Section Engine.

Variable config : BacktestConfig.

(** [_can_enter_trade(signal)], reading [self.capital]. *)
Definition _can_enter_trade (capital : float) (signal : Signal) : bool :=
  if default 0 (sig_liquidity signal) <? min_liquidity config then false
  else
    let max_position := capital * (max_position_size_pct config / 100) in
    if max_position <? 100 then false else true.

(** [_enter_position(signal, timestamp)], reading [self.capital]. *)
Definition _enter_position (capital : float) (signal : Signal) (timestamp : Z)
    : option Position :=
  let edge := sig_edge_size signal in
  let win_prob := sig_fair_value signal in
  let kelly := _calculate_kelly edge win_prob in
  let kelly_position := capital * kelly * kelly_fraction config in
  let max_position := capital * (max_position_size_pct config / 100) in
  let position_size := min kelly_position max_position in
  if position_size <? 100 then None
  else
    let entry_price := sig_entry_price signal in
    let slippage := entry_price * slippage_pct config in
    let actual_entry := entry_price + slippage in
    let quantity := position_size / actual_entry in
    Some {| pos_entry_time := timestamp;
            pos_market_id := sig_market_id signal;
            pos_strategy := sig_strategy signal;
            pos_position := sig_signal_type signal;
            pos_entry_price := actual_entry;
            pos_quantity := quantity;
            pos_cost_basis := position_size;
            pos_slippage := slippage |}.

(** [_close_position(position, resolution, exit_time)]: the trade, and
    [self.capital] after [self.capital += net_pnl]. *)
Definition _close_position (capital : float) (position : Position)
    (resolution : string) (exit_time : Z) : Trade * float :=
  let exit_price :=
    if String.eqb resolution "yes" then 1
    else if String.eqb resolution "no" then 0
    else pos_entry_price position in
  let exit_slippage := exit_price * slippage_pct config in
  let actual_exit := max 0 (exit_price - exit_slippage) in
  let proceeds := pos_quantity position * actual_exit in
  let cost := pos_cost_basis position in
  let gross_pnl := proceeds - cost in
  let net_pnl := gross_pnl - gas_cost_per_trade config in
  let pnl_pct := if 0 <? cost then net_pnl / cost * 100 else 0 in
  ({| entry_time := pos_entry_time position;
      exit_time := exit_time;
      market_id := pos_market_id position;
      strategy := pos_strategy position;
      position := pos_position position;
      entry_price := pos_entry_price position;
      exit_price := actual_exit;
      quantity := pos_quantity position;
      pnl := net_pnl;
      pnl_pct := pnl_pct;
      gas_cost := gas_cost_per_trade config;
      slippage := pos_slippage position + exit_slippage |},
   capital + net_pnl).

End Engine.

(** [len(xs)] as a float. *)
Fixpoint float_of_nat (n : nat) : float :=
  match n with
  | O => 0
  | S n' => float_of_nat n' + 1
  end.

(** NumPy's [add.reduce] on a float64 array of fewer than eight
    elements: the elements are added in order, starting from zero
    (longer arrays are summed pairwise, which this model does not cover). *)
Definition np_sum (xs : list float) : float := fold_left add xs 0.

(** [np.mean]: the sum divided by the count. *)
Definition np_mean (xs : list float) : float :=
  np_sum xs / float_of_nat (length xs).

(** [np.std] with its default [ddof=0]: the deviations from the mean
    are squared, summed, divided by the count, and the root is taken. *)
Definition np_std (xs : list float) : float :=
  let arrmean := np_mean xs in
  let x := map (fun v => v - arrmean) xs in
  sqrt (np_sum (map (fun d => d * d) x) / float_of_nat (length xs)).

(** [returns - (risk_free_rate / 252)]. *)
Definition excess_of (risk_free_rate : float) (returns : list float) : list float :=
  map (fun r => r - risk_free_rate / 252) returns.

(** [_calculate_sharpe(returns, risk_free_rate)]. *)
Definition _calculate_sharpe (returns : list float) (risk_free_rate : float)
    : float :=
  match returns with
  | [] => 0
  | _ =>
      let excess_returns := excess_of risk_free_rate returns in
      if 0 <? np_std returns
      then np_mean excess_returns / np_std excess_returns * sqrt 252
      else 0
  end.

(** [_calculate_sortino(returns, risk_free_rate)]. *)
Definition _calculate_sortino (returns : list float) (risk_free_rate : float)
    : float :=
  match returns with
  | [] => 0
  | _ =>
      let excess_returns := excess_of risk_free_rate returns in
      let downside_returns := List.filter (fun e => e <? 0) excess_returns in
      let downside_std :=
        match downside_returns with
        | [] => 0
        | _ => np_std downside_returns
        end in
      if 0 <? downside_std
      then np_mean excess_returns / downside_std * sqrt 252
      else 0
  end.

(** The default [risk_free_rate=0.04]. *)
Definition risk_free_rate_default : float := 0x1.47ae147ae147bp-5.

End Binary64.

(** * Sentiment analysis

    [src/python/sentiment/sentiment_analyzer.py].  The VADER analyzer,
    the BERT model with its tokenizer and the regular expressions of
    [_clean_text] (whose classes are Unicode-aware) are libraries outside
    the repository: they are parameters of the model.  Floats are exact
    rationals as above, and a division of Python floats by zero raises. *)

(** What a call may raise. *)
Inductive exception := ZeroDivisionError.

(** The result of a call that may raise. *)
Inductive outcome (A : Type) :=
| Returned (value : A)
| Raised (e : exception).

Arguments Returned {A} value.
Arguments Raised {A} e.

(** The dict of [SentimentIntensityAnalyzer.polarity_scores]. *)
Record VaderScores := {
  pos : Q;
  neg : Q;
  neu : Q;
  compound : Q
}.

(** The dict [analyze_text] returns; the BERT keys are present when the
    analyzer uses BERT. *)
Record Sentiment := {
  vader_positive : Q;
  vader_negative : Q;
  vader_neutral : Q;
  vader_compound : Q;
  bert_positive : option Q;
  bert_neutral : option Q;
  bert_negative : option Q;
  combined_positive : Q;
  combined_negative : Q;
  net_sentiment : Q
}.

(** [sentiment_to_probability(sentiment_score, baseline_prob)]. *)
Definition sentiment_to_probability (sentiment_score baseline_prob : Q) : Q :=
  let adjustment := sentiment_score * 0.2 in
  let implied_prob := baseline_prob + adjustment in
  Py.max 0.05 (Py.min 0.95 implied_prob).

(** The default [baseline_prob]. *)
Definition baseline_prob_default : Q := 0.5.

Section SentimentAnalyzer.

(** [self.vader.polarity_scores]. *)
Variable polarity_scores : string -> VaderScores.

(** [self._bert_sentiment], the (negative, neutral, positive) scores of
    the model; present exactly when [self.use_bert]. *)
Variable bert : option (string -> Q * Q * Q).

(** [self._clean_text]. *)
Variable _clean_text : string -> string.

(** [x ** 0.5]. *)
Variable sqrtQ : Q -> Q.

(** [analyze_text(text)]. *)
Definition analyze_text (text : string) : Sentiment :=
  let cleaned_text := _clean_text text in
  let vader_scores := polarity_scores cleaned_text in
  match bert with
  | Some _bert_sentiment =>
      let '(bert_neg, bert_neu, bert_pos) := _bert_sentiment cleaned_text in
      let combined_positive := 0.4 * pos vader_scores + 0.6 * bert_pos in
      let combined_negative := 0.4 * neg vader_scores + 0.6 * bert_neg in
      {| vader_positive := pos vader_scores;
         vader_negative := neg vader_scores;
         vader_neutral := neu vader_scores;
         vader_compound := compound vader_scores;
         bert_positive := Some bert_pos;
         bert_neutral := Some bert_neu;
         bert_negative := Some bert_neg;
         combined_positive := combined_positive;
         combined_negative := combined_negative;
         net_sentiment := combined_positive - combined_negative |}
  | None =>
      {| vader_positive := pos vader_scores;
         vader_negative := neg vader_scores;
         vader_neutral := neu vader_scores;
         vader_compound := compound vader_scores;
         bert_positive := None;
         bert_neutral := None;
         bert_negative := None;
         combined_positive := pos vader_scores;
         combined_negative := neg vader_scores;
         net_sentiment := pos vader_scores - neg vader_scores |}
  end.

(** [analyze_batch(texts)]. *)
Definition analyze_batch (texts : list string) : list Sentiment :=
  map analyze_text texts.

(** [_std_dev(values)]. *)
Definition _std_dev (values : list Q) : Q :=
  if (length values <=? 1)%nat then 0
  else
    let mean := Py.sum values / len values in
    let variance :=
      Py.sum (map (fun x => (x - mean) ^ 2) values) / len values in
    sqrtQ variance.

(** [aggregate_sentiment(texts, weights)]. *)
Definition aggregate_sentiment (texts : list string) (weights : option (list Q))
    : outcome (gmap string Q) :=
  match texts with
  | [] => Returned (list_to_map [("net_sentiment", 0); ("confidence", 0)])
  | _ =>
      let sentiments := analyze_batch texts in
      let weights :=
        match weights with
        | None => repeat 1 (length texts)
        | Some weights => weights
        end in
      let total_weight := Py.sum weights in
      if Qeq_bool total_weight 0 then Raised ZeroDivisionError
      else
        let avg_positive :=
          Py.sum (map (fun sw => combined_positive (fst sw) * snd sw)
                      (combine sentiments weights)) / total_weight in
        let avg_negative :=
          Py.sum (map (fun sw => combined_negative (fst sw) * snd sw)
                      (combine sentiments weights)) / total_weight in
        let net_sentiment' := avg_positive - avg_negative in
        let sentiments_list := map net_sentiment sentiments in
        let std_dev := _std_dev sentiments_list in
        let confidence := Py.max 0 (1 - std_dev) in
        Returned
          (list_to_map
             [ ("avg_positive", avg_positive);
               ("avg_negative", avg_negative);
               ("net_sentiment", net_sentiment');
               ("confidence", confidence);
               ("sample_size", len texts) ])
  end.

End SentimentAnalyzer.

(** ** [SportsNewsClassifier] *)

(** [kw in text]: [kw] occurs in [text] as a substring. *)
Fixpoint contains (kw text : string) : bool :=
  match text with
  | EmptyString => String.prefix kw text
  | String _ rest => String.prefix kw text || contains kw rest
  end.

(** The class attribute [KEYWORDS], in the order of the dict. *)
Definition KEYWORDS : list (string * list string) :=
  [ ("injury", ["injured"; "injury"; "hurt"; "questionable"; "doubtful"; "out"]);
    ("lineup", ["starting"; "lineup"; "benched"; "scratched"]);
    ("performance", ["mvp"; "career-high"; "record"; "milestone"]);
    ("roster", ["traded"; "signed"; "released"; "waived"]) ].

(** [PLAYER_IMPORTANCE.get(player_importance, 1.0)]. *)
Definition importance_multiplier (player_importance : string) : Q :=
  if String.eqb player_importance "star" then 3
  else if String.eqb player_importance "starter" then 2
  else if String.eqb player_importance "rotation" then 1
  else if String.eqb player_importance "bench" then 0.3
  else 1.

(** [category_impact.get(category, 0.2)]. *)
Definition category_impact (category : string) : Q :=
  if String.eqb category "injury" then 0.8
  else if String.eqb category "lineup" then 0.6
  else if String.eqb category "roster" then 0.7
  else if String.eqb category "performance" then 0.4
  else if String.eqb category "other" then 0.2
  else 0.2.

(** The loop that detects the news category: the first entry of
    [KEYWORDS] with a keyword in the text, else "other". *)
Fixpoint detect_category (table : list (string * list string)) (text_lower : string)
    : string :=
  match table with
  | [] => "other"
  | (cat, keywords) :: table' =>
      if existsb (fun kw => contains kw text_lower) keywords then cat
      else detect_category table' text_lower
  end.

(** The dict [classify_news_importance] returns. *)
Record Classification := {
  cls_category : string;
  cls_player_name : option string;
  cls_player_importance : string;
  cls_impact_score : Q;
  cls_sentiment : Q;
  cls_urgency : string;
  cls_expected_price_impact : Q
}.

Section SportsNewsClassifier.

(** The VADER analyzer and [_clean_text] of the classifier's own
    [SentimentAnalyzer(use_bert=False)], and [str.lower]. *)
Variable polarity_scores : string -> VaderScores.
Variable _clean_text : string -> string.
Variable str_lower : string -> string.

(** [classify_news_importance(news_text, player_name, player_importance)]. *)
Definition classify_news_importance (news_text : string)
    (player_name : option string) (player_importance : string) : Classification :=
  let text_lower := str_lower news_text in
  let category := detect_category KEYWORDS text_lower in
  let importance_mult := importance_multiplier player_importance in
  let base_impact := category_impact category in
  let impact_score := base_impact * importance_mult in
  let sentiment := analyze_text polarity_scores None _clean_text news_text in
  let urgency :=
    if String.eqb category "injury" || String.eqb category "lineup"
    then "high" else "medium" in
  {| cls_category := category;
     cls_player_name := player_name;
     cls_player_importance := player_importance;
     cls_impact_score := Py.min 1 impact_score;
     cls_sentiment := net_sentiment sentiment;
     cls_urgency := urgency;
     cls_expected_price_impact := impact_score * 0.1 |}.

End SportsNewsClassifier.

(** The default [player_importance]. *)
Definition player_importance_default : string := "rotation".

(** * Vocabulary of the specification

    Definitions the statements below are written with: what the
    specification calls things, the instances it evaluates, and the
    stand-ins needed to evaluate them. *)

(** ** Kelly sizing *)

(** The clamp of the specification: [x] limited to [[lo, hi]]. *)
Definition clamp (lo hi x : Q) : Q := Qmax lo (Qmin hi x).

(** The unclamped fraction [(b·p − (1 − p)) / b] with [b = 1/p − 1]. *)
Definition kelly_raw (p : Q) : Q :=
  let b := 1 / p - 1 in (b * p - (1 - p)) / b.

(** The cases in which the specification fixes the fraction to [0]. *)
Definition kelly_degenerate (p : Q) : Prop :=
  p <= 0 \/ 1 <= p \/ 1 / p - 1 <= 0.

(** A sizing rule that always stakes the capped quarter, used to exercise
    the paths on which a position is opened. *)
Definition quarter_kelly (edge win_prob : Q) : Q := 0.25.

(** The notional [position_size] that [_enter_position] computes: the
    Kelly notional capped at the maximum position size. *)
Definition notional (kelly_rule : Q -> Q -> Q) (config : BacktestConfig)
    (capital : Q) (signal : Signal) : Q :=
  Py.min
    (capital * kelly_rule (sig_edge_size signal) (sig_fair_value signal)
       * kelly_fraction config)
    (capital * (max_position_size_pct config / 100)).

(** Every open position committed at least the floor of 100. *)
Definition above_floor (d : list (string * Position)) : Prop :=
  Forall (fun kv => 100 <= pos_cost_basis (snd kv)) d.

(** ** Ledger and states *)

(** Engine states in which nothing is open, nothing has been closed and
    the capital is the starting capital. *)
Definition idle (config : BacktestConfig) (st : State) : Prop :=
  trades st = [] /\ open_positions st = [] /\ capital st = starting_capital config.

(** Realized cash net of the pnl of the trades closed so far. *)
Definition ledger (st : State) : Q := capital st - Py.sum (map pnl (trades st)).

(** ** Unrealized pnl and snapshots *)

(** The first row of the table for the position's market at [timestamp]. *)
Definition row_for (p : Position) (market_data : list MarketRow) (timestamp : Z)
    : option MarketRow :=
  List.find
    (fun r => String.eqb (mkt_market_id r) (pos_market_id p)
              && Z.eqb (mkt_timestamp r) timestamp)
    market_data.

(** Marking a position to the yes price of its row; [0] without a row. *)
Definition yes_mark (p : Position) (market_data : list MarketRow) (timestamp : Z) : Q :=
  match row_for p market_data timestamp with
  | Some row => pos_quantity p * mkt_yes_price row - pos_cost_basis p
  | None => 0
  end.

(** The same position on another side. *)
Definition on_side (side : string) (p : Position) : Position :=
  {| pos_entry_time := pos_entry_time p;
     pos_market_id := pos_market_id p;
     pos_strategy := pos_strategy p;
     pos_position := side;
     pos_entry_price := pos_entry_price p;
     pos_quantity := pos_quantity p;
     pos_cost_basis := pos_cost_basis p;
     pos_slippage := pos_slippage p |}.

(** The snapshot that [record_snapshot] appends. *)
Definition last_snapshot (st : State) : option Snapshot :=
  List.last (map Some (portfolio_value_history st)) None.

(** The snapshot the specification expects at [timestamp] for an engine
    in state [st]: total value is capital plus the unrealized pnl of the
    open positions. *)
Definition expected_snapshot (historical_data : list MarketRow) (timestamp : Z)
    (st : State) : Snapshot :=
  let unrealized :=
    Py.sum (map (fun p => _calculate_unrealized_pnl p historical_data timestamp)
                (Dict.values (open_positions st))) in
  {| snap_timestamp := timestamp;
     snap_portfolio_value := capital st + unrealized;
     snap_capital := capital st;
     snap_unrealized_pnl := unrealized;
     snap_open_positions := length (open_positions st) |}.

(** The engine at [timestamp] once the entry and update phases are done,
    which is when the snapshot is taken. *)
Definition after_phases (kelly_rule : Q -> Q -> Q) (config : BacktestConfig)
    (historical_data : list MarketRow) (strategy_signals : list Signal)
    (st : State) (timestamp : Z) : State :=
  update_phase config historical_data timestamp
    (entry_phase kelly_rule config strategy_signals timestamp st).

(** The snapshots appended while the loop visits [ts] from state [st]. *)
Fixpoint snapshots_from (kelly_rule : Q -> Q -> Q) (config : BacktestConfig)
    (hist : list MarketRow) (sigs : list Signal) (ts : list Z) (st : State)
    : list Snapshot :=
  match ts with
  | [] => []
  | t :: ts' =>
      expected_snapshot hist t (after_phases kelly_rule config hist sigs st t)
      :: snapshots_from kelly_rule config hist sigs ts'
           (step kelly_rule config hist sigs st t)
  end.

(** A snapshot worth [value], for series given by their values alone. *)
Definition snapshot_worth (value : Q) : Snapshot :=
  {| snap_timestamp := 0;
     snap_portfolio_value := value;
     snap_capital := value;
     snap_unrealized_pnl := 0;
     snap_open_positions := 0 |}.

(** A series that never falls below the value before it, from [prev] on. *)
Fixpoint nondecreasing (prev : Q) (values : list Q) : Prop :=
  match values with
  | [] => True
  | v :: values' => prev <= v /\ nondecreasing v values'
  end.

(** ** Evaluation stand-ins and instances *)

(** A stand-in for [np.sqrt] on which the metrics can be evaluated: the
    square root truncated to six decimals. *)
Definition sqrt_approx (x : Q) : Q :=
  inject_Z (Z.sqrt (Qnum x * 10 ^ 12 / Z.pos (Qden x))) / inject_Z (10 ^ 6).

(** A stand-in for [**]: the power with its exponent truncated to an
    integer. *)
Definition pow_trunc (x y : Q) : Q := Qpower x (Qnum y / Z.pos (Qden y)).

(** A stand-in for [timedelta.days] on timestamps counted in seconds. *)
Definition days_apart (last first : Z) : Z := ((last - first) / 86400)%Z.

(** One signal at [t0 = 0] for market [m1]: fair value 0.6, entry price
    0.5, liquidity 5000. *)
Definition scenario_signal : Signal := {|
  sig_timestamp := 0;
  sig_market_id := "m1";
  sig_signal_type := "yes";
  sig_confidence := 0.8;
  sig_edge_size := 0.1;
  sig_entry_price := 0.5;
  sig_fair_value := 0.6;
  sig_strategy := "value";
  sig_liquidity := Number 5000
|}.

(** The market is quoted at [t0 = 0] and resolves "yes" at [t1 = 1]. *)
Definition scenario_market : list MarketRow := [
  {| mkt_timestamp := 0; mkt_market_id := "m1"; mkt_yes_price := 0.5;
     mkt_no_price := 0.5; mkt_liquidity := 5000; mkt_resolution := None |};
  {| mkt_timestamp := 1; mkt_market_id := "m1"; mkt_yes_price := 1;
     mkt_no_price := 0; mkt_liquidity := 5000; mkt_resolution := Some "yes" |}
].

(** The scenario's signal without a liquidity field. *)
Definition unlisted_signal : Signal := {|
  sig_timestamp := sig_timestamp scenario_signal;
  sig_market_id := sig_market_id scenario_signal;
  sig_signal_type := sig_signal_type scenario_signal;
  sig_confidence := sig_confidence scenario_signal;
  sig_edge_size := sig_edge_size scenario_signal;
  sig_entry_price := sig_entry_price scenario_signal;
  sig_fair_value := sig_fair_value scenario_signal;
  sig_strategy := sig_strategy scenario_signal;
  sig_liquidity := NoColumn
|}.

(** A "no" position of 100 contracts bought for 40. *)
Definition no_position : Position := {|
  pos_entry_time := 0;
  pos_market_id := "m1";
  pos_strategy := "value";
  pos_position := "no";
  pos_entry_price := 0.4;
  pos_quantity := 100;
  pos_cost_basis := 40;
  pos_slippage := 0.008
|}.

(** Its market, quoted at 0.7 for yes and 0.3 for no. *)
Definition quoted_row : MarketRow := {|
  mkt_timestamp := 0; mkt_market_id := "m1"; mkt_yes_price := 0.7;
  mkt_no_price := 0.3; mkt_liquidity := 5000; mkt_resolution := None
|}.

(** ** Open positions and settlement *)

(** The keys of [open_positions], in dict order. *)
Definition keys (d : list (string * Position)) : list string := map fst d.

(** The resolution carried by the first row of [market_data] for
    [market_id], as the update loop reads it. *)
Definition resolution_at (market_data : list MarketRow) (market_id : string)
    : option string :=
  match List.filter (fun r => String.eqb (mkt_market_id r) market_id) market_data with
  | [] => None
  | row :: _ => mkt_resolution row
  end.

(** The trade [_close_position] returns; the capital it is given only
    feeds the updated capital. *)
Definition closing_trade (config : BacktestConfig) (p : Position)
    (resolution : string) (exit_time : Z) : Trade :=
  fst (_close_position config 0 p resolution exit_time).

(** The trades the update loop appends at [timestamp] for the items of
    [open_positions], in dict order. *)
Definition settlements (config : BacktestConfig) (market_data : list MarketRow)
    (timestamp : Z) (items : list (string * Position)) : list Trade :=
  flat_map
    (fun kv =>
       match resolution_at market_data (fst kv) with
       | Some resolution => [closing_trade config (snd kv) resolution timestamp]
       | None => []
       end)
    items.

(** The items the update loop leaves open. *)
Definition unsettled (market_data : list MarketRow)
    (items : list (string * Position)) : list (string * Position) :=
  List.filter
    (fun kv => match resolution_at market_data (fst kv) with
               | Some _ => false
               | None => true
               end)
    items.

(** ** Times *)

(** A timestamp inside the optional inclusive bounds of a run. *)
Definition within_dates (start_date end_date : option Z) (t : Z) : Prop :=
  (forall s : Z, start_date = Some s -> (s <= t)%Z) /\
  (forall e : Z, end_date = Some e -> (t <= e)%Z).

(** A position entered no later than [bound], at one of [visited]. *)
Definition entered_by (visited : list Z) (bound : Z) (kv : string * Position) : Prop :=
  (pos_entry_time (snd kv) <= bound)%Z /\ pos_entry_time (snd kv) ∈ visited.

(** A trade that exits no earlier than it enters, both at one of
    [visited]. *)
Definition well_timed (visited : list Z) (tr : Trade) : Prop :=
  (entry_time tr <= exit_time tr)%Z /\
  entry_time tr ∈ visited /\ exit_time tr ∈ visited.

(** ** The metrics report *)

(** The keys of the dict [_calculate_metrics] builds from a non-empty
    trade list. *)
Definition metric_keys : list string :=
  [ "total_trades"; "winning_trades"; "losing_trades"; "win_rate"; "total_pnl";
    "total_return_pct"; "annualized_return_pct"; "sharpe_ratio"; "sortino_ratio";
    "max_drawdown_pct"; "profit_factor"; "avg_win"; "avg_loss"; "total_gas_costs";
    "gas_pct_of_pnl"; "final_capital" ].

(** Trades with a positive, a negative and a zero [pnl]. *)
Definition winners_of (ts : list Trade) : list Trade :=
  List.filter (fun t => Py.ltb 0 (pnl t)) ts.

Definition losers_of (ts : list Trade) : list Trade :=
  List.filter (fun t => Py.ltb (pnl t) 0) ts.

Definition flat_of (ts : list Trade) : list Trade :=
  List.filter (fun t => Qeq_bool (pnl t) 0) ts.

(** ** Sentiment *)

(** [kw] occurs somewhere in [text]. *)
Definition mentions (kw text : string) : Prop :=
  exists before after : string, text = String.append before (String.append kw after).

(** [text] mentions one of [keywords]. *)
Definition mentions_any (keywords : list string) (text : string) : Prop :=
  exists kw : string, In kw keywords /\ mentions kw text.

(** The keywords of a category of [KEYWORDS]. *)
Definition keywords_of (category : string) : list string :=
  match List.find (fun entry => String.eqb (fst entry) category) KEYWORDS with
  | Some entry => snd entry
  | None => []
  end.

(** A score in [[0, 1]]. *)
Definition unit_score (x : Q) : Prop := 0 <= x /\ x <= 1.

(** Library scores that are proportions, as VADER's pos/neg/neu and a
    softmax are. *)
Definition unit_vader (polarity_scores : string -> VaderScores) : Prop :=
  forall text : string,
    unit_score (pos (polarity_scores text)) /\ unit_score (neg (polarity_scores text)).

Definition unit_bert (bert : option (string -> Q * Q * Q)) : Prop :=
  forall (model : string -> Q * Q * Q) (text : string),
    bert = Some model ->
    unit_score (fst (fst (model text))) /\
    unit_score (snd (fst (model text))) /\
    unit_score (snd (model text)).

(** Stand-ins for the libraries: VADER and BERT scores that do not look
    at the text, and identity text functions. *)
Definition vader_fixed (text : string) : VaderScores :=
  {| pos := 0.5; neg := 0.1; neu := 0.4; compound := 0.6 |}.

Definition bert_fixed (text : string) : Q * Q * Q := (0.2, 0.3, 0.5).

Definition text_id (text : string) : string := text.

(** ** Runs that open nothing *)

(** A signal that the engine turns away while its capital is the
    starting capital: [_can_enter_trade] refuses it, or the notional
    that [_enter_position] computes is below the floor of 100. *)
Definition turned_away (kelly_rule : Q -> Q -> Q) (config : BacktestConfig)
    (signal : Signal) : Prop :=
  _can_enter_trade config (starting_capital config) signal = false \/
  notional kelly_rule config (starting_capital config) signal < 100.

(** The liquidity [_can_enter_trade] compares with [min_liquidity]: the
    number [signal.get('liquidity', 0)] returns, when it is one. *)
Definition carried_liquidity (signal : Signal) (l : Q) : Prop :=
  Series_get (sig_liquidity signal) 0 = Some l.

(** The scenario's market with a liquidity of 10 in every row. *)
Definition thin_market : list MarketRow := [
  {| mkt_timestamp := 0; mkt_market_id := "m1"; mkt_yes_price := 0.5;
     mkt_no_price := 0.5; mkt_liquidity := 10; mkt_resolution := None |};
  {| mkt_timestamp := 1; mkt_market_id := "m1"; mkt_yes_price := 1;
     mkt_no_price := 0; mkt_liquidity := 10; mkt_resolution := Some "yes" |}
].

(** The scenario's signal with a missing (NaN) liquidity cell. *)
Definition nan_liquidity_signal : Signal := {|
  sig_timestamp := sig_timestamp scenario_signal;
  sig_market_id := sig_market_id scenario_signal;
  sig_signal_type := sig_signal_type scenario_signal;
  sig_confidence := sig_confidence scenario_signal;
  sig_edge_size := sig_edge_size scenario_signal;
  sig_entry_price := sig_entry_price scenario_signal;
  sig_fair_value := sig_fair_value scenario_signal;
  sig_strategy := sig_strategy scenario_signal;
  sig_liquidity := NaN
|}.

(** ** Binary64 inputs and values *)

Module Binary64Inputs.

Import PrimFloat.
Local Open Scope float_scope.

(** [0.25], the cap of the Kelly fraction. *)
Definition quarter : float := 0x1p-2.

(** The branches of [_calculate_kelly] that return [0.0] outright:
    [win_prob <= 0], [win_prob >= 1] and [b <= 0]. *)
Definition kelly_degenerate (p : float) : bool :=
  (p <=? 0) || (1 <=? p) || (1 / p - 1 <=? 0).

(** The notional of a position at the cap, [1000.0]. *)
Definition thousand : float := 1000.

(** The floor of 100 on a position. *)
Definition floor : float := 100.

(** The default starting capital, [50000.0]. *)
Definition fifty_thousand : float := 50000.

(** [0.9999999999999999], the largest binary64 number below [1]. *)
Definition almost_one : float := 0x1.fffffffffffffp-1.

(** The scenario's signal (edge 0.1, entry price 0.5, liquidity 5000)
    with the fair value [0.9999999999999999]. *)
Definition near_certain_signal : Binary64.Signal := {|
  Binary64.sig_timestamp := 0%Z;
  Binary64.sig_market_id := "m1";
  Binary64.sig_signal_type := "yes";
  Binary64.sig_confidence := 0x1.999999999999ap-1;
  Binary64.sig_edge_size := 0x1.999999999999ap-4;
  Binary64.sig_entry_price := 0x1p-1;
  Binary64.sig_fair_value := almost_one;
  Binary64.sig_strategy := "value";
  Binary64.sig_liquidity := Some 5000
|}.

(** The scenario's signal as it is, with the fair value [0.6]. *)
Definition even_signal : Binary64.Signal := {|
  Binary64.sig_timestamp := 0%Z;
  Binary64.sig_market_id := "m1";
  Binary64.sig_signal_type := "yes";
  Binary64.sig_confidence := 0x1.999999999999ap-1;
  Binary64.sig_edge_size := 0x1.999999999999ap-4;
  Binary64.sig_entry_price := 0x1p-1;
  Binary64.sig_fair_value := 0x1.3333333333333p-1;
  Binary64.sig_strategy := "value";
  Binary64.sig_liquidity := Some 5000
|}.

(** The signal [near_certain_signal] with a missing (NaN) liquidity
    cell. *)
Definition nan_liquidity_signal : Binary64.Signal := {|
  Binary64.sig_timestamp := 0%Z;
  Binary64.sig_market_id := "m1";
  Binary64.sig_signal_type := "yes";
  Binary64.sig_confidence := 0x1.999999999999ap-1;
  Binary64.sig_edge_size := 0x1.999999999999ap-4;
  Binary64.sig_entry_price := 0x1p-1;
  Binary64.sig_fair_value := almost_one;
  Binary64.sig_strategy := "value";
  Binary64.sig_liquidity := Some nan
|}.

(** The position [_enter_position] returns for [near_certain_signal] at
    the default configuration: 1000 committed at 0.51. *)
Definition opened_position : Binary64.Position := {|
  Binary64.pos_entry_time := 0%Z;
  Binary64.pos_market_id := "m1";
  Binary64.pos_strategy := "value";
  Binary64.pos_position := "yes";
  Binary64.pos_entry_price := 0x1p-1 + 0x1p-1 * 0x1.47ae147ae147bp-6;
  Binary64.pos_quantity := 1000 / (0x1p-1 + 0x1p-1 * 0x1.47ae147ae147bp-6);
  Binary64.pos_cost_basis := 1000;
  Binary64.pos_slippage := 0x1p-1 * 0x1.47ae147ae147bp-6
|}.

(** [921.4186274509804] and [50921.41862745098]: the pnl of closing
    [opened_position] on a "yes" resolution, and the capital after it. *)
Definition winning_pnl : float := 0x1.ccb5959595959p+9.

Definition capital_after_win : float := 0x1.8dd2d65656565p+15.

(** Three trades that each return [0.1] per cent, and three that each
    return [0.0001]. *)
Definition constant_returns : list float :=
  [0x1.999999999999ap-4; 0x1.999999999999ap-4; 0x1.999999999999ap-4].

Definition small_constant_returns : list float :=
  [0x1.a36e2eb1c432dp-14; 0x1.a36e2eb1c432dp-14; 0x1.a36e2eb1c432dp-14].

(** [2^-56], about [1.39e-17]: what [np.std] returns for
    [constant_returns]. *)
Definition rounding_residue : float := 0x1p-56.

(** [2^-67], about [6.8e-21]: what [np.std] returns for the excess
    returns of [small_constant_returns]. *)
Definition downside_residue : float := 0x1p-67.

(** About [-1.376e17]. *)
Definition runaway_sortino : float := -0x1.e8ccd8ffbdd31p+56.

End Binary64Inputs.

(** * Properties *)

(** ** Comparisons, [min], [max] and [sum] *)

Module PyFacts.

Lemma ltb_lt a b : Py.ltb a b = true <-> a < b.
Proof.
  unfold Py.ltb. rewrite negb_true_iff, <- not_true_iff_false, Qle_bool_iff.
  split; [apply Qnot_le_lt | apply Qlt_not_le].
Qed.

Lemma ltb_ge a b : Py.ltb a b = false <-> b <= a.
Proof. unfold Py.ltb. rewrite negb_false_iff. apply Qle_bool_iff. Qed.

Lemma leb_le a b : Py.leb a b = true <-> a <= b.
Proof. apply Qle_bool_iff. Qed.

Lemma leb_gt a b : Py.leb a b = false <-> b < a.
Proof.
  unfold Py.leb. rewrite <- not_true_iff_false, Qle_bool_iff.
  split; [apply Qnot_le_lt | apply Qlt_not_le].
Qed.

(** Case analysis on a comparison, leaving the order fact in the context. *)
Ltac case_ltb a b :=
  let H := fresh "Hcmp" in
  destruct (Py.ltb a b) eqn:H;
  [apply ltb_lt in H | apply ltb_ge in H].

Ltac case_leb a b :=
  let H := fresh "Hcmp" in
  destruct (Py.leb a b) eqn:H;
  [apply leb_le in H | apply leb_gt in H].

Lemma min_spec a b : Py.min a b == Qmin a b.
Proof.
  unfold Py.min. case_ltb b a.
  - symmetry. apply Q.min_r. lra.
  - symmetry. apply Q.min_l. lra.
Qed.

Lemma max_spec a b : Py.max a b == Qmax a b.
Proof.
  unfold Py.max. case_ltb a b.
  - symmetry. apply Q.max_r. lra.
  - symmetry. apply Q.max_l. lra.
Qed.

Lemma min_le_l a b : Py.min a b <= a.
Proof. unfold Py.min. case_ltb b a; lra. Qed.

Lemma min_le_r a b : Py.min a b <= b.
Proof. unfold Py.min. case_ltb b a; lra. Qed.

Lemma fold_plus_shift (xs : list Q) (a : Q) :
  fold_left Qplus xs a == a + Py.sum xs.
Proof.
  unfold Py.sum. revert a.
  induction xs as [|x xs IH]; intros a; simpl.
  - lra.
  - rewrite (IH (a + x)), (IH (0 + x)). lra.
Qed.

Lemma sum_nil : Py.sum [] == 0.
Proof. reflexivity. Qed.

Lemma sum_cons x xs : Py.sum (x :: xs) == x + Py.sum xs.
Proof. unfold Py.sum at 1. simpl. rewrite fold_plus_shift. lra. Qed.

Lemma sum_snoc xs x : Py.sum (xs ++ [x]) == Py.sum xs + x.
Proof.
  unfold Py.sum. rewrite fold_left_app. simpl. reflexivity.
Qed.

End PyFacts.

(** ** Kelly sizing *)

Section KellyFacts.

Import PyFacts.

Lemma kelly_numerator_vanishes (p : Q) :
  ~ p == 0 -> (1 / p - 1) * p - (1 - p) == 0.
Proof. intros Hp. field. exact Hp. Qed.

Lemma kelly_raw_zero (p : Q) : ~ p == 0 -> kelly_raw p == 0.
Proof.
  intros Hp. unfold kelly_raw. cbv zeta.
  rewrite kelly_numerator_vanishes by exact Hp.
  unfold Qdiv. ring.
Qed.

Lemma kelly_unfold_regular (edge p : Q) :
  0 < p -> p < 1 ->
  _calculate_kelly edge p = Py.max 0 (Py.min 0.25 (kelly_raw p)).
Proof.
  intros H0 H1. unfold _calculate_kelly, kelly_raw.
  case_leb p 0; [lra|]. case_leb 1 p; [lra|]. simpl.
  case_leb (1 / p - 1) 0; [|reflexivity].
  exfalso.
  assert (Hp : ~ p == 0) by lra.
  assert (Hb : 0 < 1 / p - 1).
  { assert (E : 1 / p - 1 == (1 - p) / p) by (field; exact Hp).
    rewrite E. apply Qlt_shift_div_l; lra. }
  lra.
Qed.

(** Over exact rationals the fraction vanishes for every probability;
    binary64 rounding leaves a residue at some. *)
Lemma kelly_always_zero (edge p : Q) : _calculate_kelly edge p = 0.
Proof.
  destruct (Qlt_le_dec 0 p) as [H0|H0]; [destruct (Qlt_le_dec p 1) as [H1|H1]|].
  - rewrite kelly_unfold_regular by assumption.
    assert (Hk : kelly_raw p == 0) by (apply kelly_raw_zero; lra).
    unfold Py.min. case_ltb (kelly_raw p) 0.25; [|lra].
    unfold Py.max. case_ltb 0 (kelly_raw p); [lra|reflexivity].
  - unfold _calculate_kelly. case_leb p 0; [reflexivity|].
    case_leb 1 p; [reflexivity|lra].
  - unfold _calculate_kelly. case_leb p 0; [reflexivity|lra].
Qed.

End KellyFacts.

Section ClampFacts.

Import PyFacts.

Lemma py_clamp_spec (k : Q) :
  Py.max 0 (Py.min 0.25 k) == clamp 0 0.25 k.
Proof.
  unfold clamp. rewrite max_spec.
  apply Q.max_compat; [reflexivity | apply min_spec].
Qed.

Lemma py_clamp_bounds (k : Q) :
  0 <= Py.max 0 (Py.min 0.25 k) /\ Py.max 0 (Py.min 0.25 k) <= 0.25.
Proof.
  unfold Py.max, Py.min.
  case_ltb k 0.25.
  - case_ltb 0 k; lra.
  - case_ltb 0 0.25; lra.
Qed.

Lemma kelly_degenerate_zero (edge p : Q) :
  kelly_degenerate p -> _calculate_kelly edge p = 0.
Proof.
  intros Hdeg. unfold _calculate_kelly.
  case_leb p 0; [reflexivity|]. case_leb 1 p; [reflexivity|]. simpl.
  case_leb (1 / p - 1) 0; [reflexivity|].
  destruct Hdeg as [H|[H|H]]; lra.
Qed.

Lemma kelly_regular_clamped (edge p : Q) :
  ~ kelly_degenerate p ->
  _calculate_kelly edge p == clamp 0 0.25 (kelly_raw p).
Proof.
  intros Hreg.
  assert (H0 : 0 < p).
  { apply Qnot_le_lt. intros H. apply Hreg. left. exact H. }
  assert (H1 : p < 1).
  { apply Qnot_le_lt. intros H. apply Hreg. right. left. exact H. }
  rewrite kelly_unfold_regular by assumption.
  apply py_clamp_spec.
Qed.

Lemma kelly_in_range (edge p : Q) :
  0 <= _calculate_kelly edge p /\ _calculate_kelly edge p <= 0.25.
Proof.
  unfold _calculate_kelly.
  destruct (Py.leb p 0 || Py.leb 1 p); [lra|].
  cbv zeta. destruct (Py.leb (1 / p - 1) 0); [lra|].
  apply py_clamp_bounds.
Qed.

End ClampFacts.

(** C3.  The Kelly fraction is exactly [0] when [p ≤ 0], when [p ≥ 1] or
    when the implied odds [b = 1/p − 1] are not positive; in every other
    case it is [(b·p − (1 − p)) / b] clamped to [[0, 0.25]]; and it always
    lies in [[0, 0.25]].  The [edge] argument plays no part. *)
Theorem kelly_fraction_characterised (edge p : Q) :
  (kelly_degenerate p -> _calculate_kelly edge p = 0) /\
  (~ kelly_degenerate p ->
     _calculate_kelly edge p == clamp 0 0.25 (kelly_raw p)) /\
  0 <= _calculate_kelly edge p /\ _calculate_kelly edge p <= 0.25.
Proof.
  split; [apply kelly_degenerate_zero|].
  split; [apply kelly_regular_clamped|].
  apply kelly_in_range.
Qed.

(** ** The capital ledger *)

Section Ledger.

Import PyFacts.

Variable kelly_rule : Q -> Q -> Q.
Variable config : BacktestConfig.

Lemma close_position_capital (c : Q) (p : Position) (resolution : string) (t : Z) :
  snd (_close_position config c p resolution t)
  = c + pnl (fst (_close_position config c p resolution t)).
Proof. reflexivity. Qed.

Lemma enter_signal_cash (t : Z) (st : State) (signal : Signal) :
  capital (enter_signal kelly_rule config t st signal) = capital st /\
  trades (enter_signal kelly_rule config t st signal) = trades st /\
  portfolio_value_history (enter_signal kelly_rule config t st signal)
    = portfolio_value_history st.
Proof.
  unfold enter_signal.
  destruct (_can_enter_trade config (capital st) signal); [|auto].
  destruct (_enter_position kelly_rule config (capital st) signal t); simpl; auto.
Qed.

Lemma entry_phase_cash (sigs : list Signal) (t : Z) (st : State) :
  capital (entry_phase kelly_rule config sigs t st) = capital st /\
  trades (entry_phase kelly_rule config sigs t st) = trades st /\
  portfolio_value_history (entry_phase kelly_rule config sigs t st)
    = portfolio_value_history st.
Proof.
  unfold entry_phase. destruct (existsb _ sigs); [|auto].
  generalize (signals_at t sigs). intros l. revert st.
  induction l as [|s l IH]; intros st; simpl; [auto|].
  destruct (IH (enter_signal kelly_rule config t st s)) as (Hc & Ht & Hh).
  destruct (enter_signal_cash t st s) as (Hc' & Ht' & Hh').
  rewrite Hc, Ht, Hh. auto.
Qed.

(** What one iteration of the update loop can do to the ledger. *)
Lemma update_position_cases (md : list MarketRow) (t : Z) (st : State)
    (item : string * Position) :
  update_position config md t st item = st \/
  exists tr : Trade,
    trades (update_position config md t st item) = trades st ++ [tr] /\
    capital (update_position config md t st item) = capital st + pnl tr.
Proof.
  destruct item as [market_id p]. unfold update_position.
  destruct (List.filter _ md) as [|row rest]; [left; reflexivity|].
  destruct (mkt_resolution row) as [resolution|]; [|left; reflexivity].
  right. eexists. simpl. split; reflexivity.
Qed.

Lemma update_position_history (md : list MarketRow) (t : Z) (st : State)
    (item : string * Position) :
  portfolio_value_history (update_position config md t st item)
  = portfolio_value_history st.
Proof.
  destruct item as [market_id p]. unfold update_position.
  destruct (List.filter _ md) as [|row rest]; [reflexivity|].
  destruct (mkt_resolution row); reflexivity.
Qed.

Lemma update_position_ledger (md : list MarketRow) (t : Z) (st : State)
    (item : string * Position) :
  ledger (update_position config md t st item) == ledger st.
Proof.
  destruct (update_position_cases md t st item) as [E|(tr & Ht & Hc)].
  - rewrite E. reflexivity.
  - unfold ledger. rewrite Ht, Hc, map_app. simpl.
    rewrite sum_snoc. ring.
Qed.

Lemma update_fold_ledger (md : list MarketRow) (t : Z)
    (items : list (string * Position)) (st : State) :
  ledger (fold_left (update_position config md t) items st) == ledger st.
Proof.
  revert st. induction items as [|item items IH]; intros st; simpl.
  - reflexivity.
  - rewrite IH. apply update_position_ledger.
Qed.

Lemma update_fold_history (md : list MarketRow) (t : Z)
    (items : list (string * Position)) (st : State) :
  portfolio_value_history (fold_left (update_position config md t) items st)
  = portfolio_value_history st.
Proof.
  revert st. induction items as [|item items IH]; intros st; simpl.
  - reflexivity.
  - rewrite IH. apply update_position_history.
Qed.

Lemma record_snapshot_cash (hist : list MarketRow) (t : Z) (st : State) :
  capital (record_snapshot hist t st) = capital st /\
  trades (record_snapshot hist t st) = trades st /\
  open_positions (record_snapshot hist t st) = open_positions st.
Proof. unfold record_snapshot. simpl. auto. Qed.

Lemma step_ledger (hist : list MarketRow) (sigs : list Signal) (st : State) (t : Z) :
  ledger (step kelly_rule config hist sigs st t) == ledger st.
Proof.
  unfold step.
  transitivity (ledger (update_phase config hist t
                          (entry_phase kelly_rule config sigs t st))).
  - unfold ledger.
    destruct (record_snapshot_cash hist t
                (update_phase config hist t
                   (entry_phase kelly_rule config sigs t st))) as (Hc & Ht & _).
    rewrite Hc, Ht. reflexivity.
  - unfold update_phase. rewrite update_fold_ledger.
    unfold ledger.
    destruct (entry_phase_cash sigs t st) as (Hc & Ht & _).
    rewrite Hc, Ht. reflexivity.
Qed.

Lemma steps_ledger (hist : list MarketRow) (sigs : list Signal) (ts : list Z)
    (st : State) :
  ledger (fold_left (step kelly_rule config hist sigs) ts st) == ledger st.
Proof.
  revert st. induction ts as [|t ts IH]; intros st; simpl.
  - reflexivity.
  - rewrite IH. apply step_ledger.
Qed.

End Ledger.

(** C2.  Capital conservation.  After any run the capital is the
    starting capital plus the pnl of the closed trades; from any engine
    state on, processing any timestamps moves capital by exactly the pnl
    of the trades appended meanwhile; and capital is written in one place
    only: the entry phase and the snapshot leave it as it is, and an
    iteration of the update loop either changes nothing or appends one
    trade and adds that trade's net pnl. *)
Theorem capital_conservation
    (kelly_rule : Q -> Q -> Q) (config : BacktestConfig)
    (hist : list MarketRow) (sigs : list Signal) (start_date end_date : option Z) :
  capital (simulate kelly_rule config hist sigs start_date end_date)
    == starting_capital config
       + Py.sum (map pnl (trades (simulate kelly_rule config hist sigs
                                    start_date end_date))) /\
  (forall (st : State) (ts : list Z),
      capital (fold_left (step kelly_rule config hist sigs) ts st)
        - Py.sum (map pnl (trades (fold_left (step kelly_rule config hist sigs) ts st)))
      == capital st - Py.sum (map pnl (trades st))) /\
  (forall (st : State) (t : Z),
      capital (entry_phase kelly_rule config sigs t st) = capital st /\
      trades (entry_phase kelly_rule config sigs t st) = trades st) /\
  (forall (st : State) (t : Z),
      capital (record_snapshot hist t st) = capital st /\
      trades (record_snapshot hist t st) = trades st) /\
  (forall (md : list MarketRow) (t : Z) (st : State) (item : string * Position),
      update_position config md t st item = st \/
      exists tr : Trade,
        trades (update_position config md t st item) = trades st ++ [tr] /\
        capital (update_position config md t st item) = capital st + pnl tr).
Proof.
  split; [|split; [|split; [|split]]].
  - pose proof (steps_ledger kelly_rule config
                  (filter_dates mkt_timestamp start_date end_date hist)
                  (filter_dates sig_timestamp start_date end_date sigs)
                  (timeline (filter_dates mkt_timestamp start_date end_date hist))
                  (reset config)) as H.
    unfold simulate. unfold ledger in H.
    change (capital (reset config)) with (starting_capital config) in H.
    change (trades (reset config)) with (@nil Trade) in H.
    simpl (Py.sum (map pnl [])) in H.
    rewrite PyFacts.sum_nil in H.
    lra.
  - intros st ts. apply (steps_ledger kelly_rule config hist sigs ts st).
  - intros st t. destruct (entry_phase_cash kelly_rule config sigs t st) as (Hc & Ht & _).
    auto.
  - intros st t. destruct (record_snapshot_cash hist t st) as (Hc & Ht & _).
    auto.
  - apply update_position_cases.
Qed.

(** ** Entry eligibility *)

Section Eligibility.

Import PyFacts.

Variable kelly_rule : Q -> Q -> Q.
Variable config : BacktestConfig.

Lemma enter_position_below_floor (c : Q) (signal : Signal) (t : Z) :
  notional kelly_rule config c signal < 100 ->
  _enter_position kelly_rule config c signal t = None.
Proof.
  intros H. unfold _enter_position. cbv zeta. fold (notional kelly_rule config c signal).
  apply ltb_lt in H. rewrite H. reflexivity.
Qed.

Lemma enter_position_opened (c : Q) (signal : Signal) (t : Z) (p : Position) :
  _enter_position kelly_rule config c signal t = Some p ->
  pos_cost_basis p = notional kelly_rule config c signal /\
  100 <= pos_cost_basis p /\
  pos_entry_price p
    = sig_entry_price signal + sig_entry_price signal * slippage_pct config /\
  pos_slippage p = sig_entry_price signal * slippage_pct config /\
  pos_quantity p = pos_cost_basis p / pos_entry_price p /\
  pos_market_id p = sig_market_id signal /\
  pos_position p = sig_signal_type signal.
Proof.
  unfold _enter_position. cbv zeta. fold (notional kelly_rule config c signal).
  case_ltb (notional kelly_rule config c signal) 100; [discriminate|].
  intros E. injection E as <-. simpl. repeat split. exact Hcmp.
Qed.

Lemma can_enter_low_liquidity (c : Q) (signal : Signal) (l : Q) :
  carried_liquidity signal l -> l < min_liquidity config ->
  _can_enter_trade config c signal = false.
Proof.
  unfold carried_liquidity. intros E H. unfold _can_enter_trade. rewrite E.
  simpl. apply ltb_lt in H. rewrite H. reflexivity.
Qed.

Lemma can_enter_nan_liquidity (c : Q) (signal : Signal) :
  sig_liquidity signal = NaN ->
  _can_enter_trade config c signal
  = negb (Py.ltb (c * (max_position_size_pct config / 100)) 100).
Proof.
  intros E. unfold _can_enter_trade. rewrite E. simpl.
  destruct (Py.ltb _ 100); reflexivity.
Qed.

Lemma can_enter_low_capital (c : Q) (signal : Signal) :
  c * (max_position_size_pct config / 100) < 100 ->
  _can_enter_trade config c signal = false.
Proof.
  intros H. unfold _can_enter_trade. apply ltb_lt in H. cbv zeta. rewrite H.
  destruct (Py.nan_ltb _ (min_liquidity config)); reflexivity.
Qed.

Lemma enter_signal_rejects (t : Z) (st : State) (signal : Signal) :
  (exists l : Q, carried_liquidity signal l /\ l < min_liquidity config) \/
  capital st * (max_position_size_pct config / 100) < 100 \/
  notional kelly_rule config (capital st) signal < 100 ->
  enter_signal kelly_rule config t st signal = st.
Proof.
  intros [(l & E & H)|[H|H]]; unfold enter_signal.
  - rewrite (can_enter_low_liquidity _ _ l E H). reflexivity.
  - rewrite can_enter_low_capital by exact H. reflexivity.
  - rewrite enter_position_below_floor by exact H.
    destruct (_can_enter_trade config (capital st) signal); reflexivity.
Qed.

Lemma dict_set_floor (k : string) (p : Position) (d : list (string * Position)) :
  100 <= pos_cost_basis p -> above_floor d -> above_floor (Dict.set k p d).
Proof.
  intros Hp Hd. unfold above_floor in *.
  induction Hd as [|[k' p'] d Hx Hd IH]; simpl.
  - constructor; [exact Hp | constructor].
  - destruct (String.eqb k' k); constructor; assumption.
Qed.

Lemma dict_del_floor (k : string) (d : list (string * Position)) :
  above_floor d -> above_floor (Dict.del k d).
Proof.
  intros Hd. unfold above_floor in *.
  induction Hd as [|[k' p'] d Hx Hd IH]; simpl.
  - constructor.
  - destruct (String.eqb k' k); [exact Hd | constructor; assumption].
Qed.

Lemma enter_signal_floor (t : Z) (st : State) (signal : Signal) :
  above_floor (open_positions st) ->
  above_floor (open_positions (enter_signal kelly_rule config t st signal)).
Proof.
  intros H. unfold enter_signal.
  destruct (_can_enter_trade config (capital st) signal); [|exact H].
  destruct (_enter_position kelly_rule config (capital st) signal t) as [p|] eqn:E;
    [|exact H].
  simpl. apply dict_set_floor; [|exact H].
  apply (enter_position_opened _ _ _ _ E).
Qed.

Lemma entry_phase_floor (sigs : list Signal) (t : Z) (st : State) :
  above_floor (open_positions st) ->
  above_floor (open_positions (entry_phase kelly_rule config sigs t st)).
Proof.
  unfold entry_phase. destruct (existsb _ sigs); [|auto].
  generalize (signals_at t sigs). intros l. revert st.
  induction l as [|s l IH]; intros st H; simpl; [exact H|].
  apply IH. apply enter_signal_floor. exact H.
Qed.

Lemma update_position_floor (md : list MarketRow) (t : Z) (st : State)
    (item : string * Position) :
  above_floor (open_positions st) ->
  above_floor (open_positions (update_position config md t st item)).
Proof.
  intros H. destruct item as [market_id p]. unfold update_position.
  destruct (List.filter _ md) as [|row rest]; [exact H|].
  destruct (mkt_resolution row); [|exact H].
  simpl. apply dict_del_floor. exact H.
Qed.

Lemma update_fold_floor (md : list MarketRow) (t : Z)
    (items : list (string * Position)) (st : State) :
  above_floor (open_positions st) ->
  above_floor (open_positions (fold_left (update_position config md t) items st)).
Proof.
  revert st. induction items as [|item items IH]; intros st H; simpl; [exact H|].
  apply IH. apply update_position_floor. exact H.
Qed.

Lemma step_floor (hist : list MarketRow) (sigs : list Signal) (st : State) (t : Z) :
  above_floor (open_positions st) ->
  above_floor (open_positions (step kelly_rule config hist sigs st t)).
Proof.
  intros H. unfold step, record_snapshot, update_phase. simpl.
  apply update_fold_floor. apply entry_phase_floor. exact H.
Qed.

Lemma steps_floor (hist : list MarketRow) (sigs : list Signal) (ts : list Z)
    (st : State) :
  above_floor (open_positions st) ->
  above_floor (open_positions (fold_left (step kelly_rule config hist sigs) ts st)).
Proof.
  revert st. induction ts as [|t ts IH]; intros st H; simpl; [exact H|].
  apply IH. apply step_floor. exact H.
Qed.

End Eligibility.

(** C6, amended.  Entry eligibility.  A signal leaves the engine as it was (no
    position is opened, and nothing is raised: the functions are total)
    whenever the liquidity that the signal row itself carries, taken as
    [0] when the signal table has no liquidity column, is below
    [min_liquidity], or the capital-derived maximum position size is
    below 100, or the computed notional is below 100.  Whatever the
    sizing rule and the caps, a position that [_enter_position] opens
    commits the computed notional, which is at least 100, and at every
    point of a run every open position has a cost basis of at least 100;
    in binary64 as well, the cost basis of an opened position is never
    below 100. *)
Theorem entry_eligibility (kelly_rule : Q -> Q -> Q) (config : BacktestConfig) :
  (forall (t : Z) (st : State) (signal : Signal),
      (exists l : Q, carried_liquidity signal l /\ l < min_liquidity config) \/
      capital st * (max_position_size_pct config / 100) < 100 \/
      notional kelly_rule config (capital st) signal < 100 ->
      enter_signal kelly_rule config t st signal = st) /\
  (forall (c : Q) (signal : Signal) (t : Z) (p : Position),
      _enter_position kelly_rule config c signal t = Some p ->
      pos_cost_basis p = notional kelly_rule config c signal /\
      100 <= pos_cost_basis p) /\
  (forall (hist : list MarketRow) (sigs : list Signal) (ts : list Z),
      above_floor
        (open_positions
           (fold_left (step kelly_rule config hist sigs) ts (reset config)))) /\
  (forall (config64 : Binary64.BacktestConfig) (c : PrimFloat.float)
          (signal : Binary64.Signal) (t : Z) (p : Binary64.Position),
      Binary64._enter_position config64 c signal t = Some p ->
      PrimFloat.ltb (Binary64.pos_cost_basis p) Binary64Inputs.floor = false).
Proof.
  split; [|split; [|split]].
  - apply enter_signal_rejects.
  - intros c signal t p E.
    destruct (enter_position_opened kelly_rule config c signal t p E) as (H1 & H2 & _).
    auto.
  - intros hist sigs ts. apply steps_floor. constructor.
  - intros config64 c signal t p. unfold Binary64._enter_position. cbv zeta.
    destruct (PrimFloat.ltb (Binary64.min _ _) _) eqn:E; intros H;
      [discriminate H|].
    injection H as <-. exact E.
Qed.

(** C6, as the claim states it, fails: the liquidity check reads the
    signal row, not the market table.  At the default configuration the
    scenario's signal, which carries a liquidity of 5000, passes
    [_can_enter_trade] and, sized by the quarter rule, opens a position
    of 1000 on a market whose rows all show a liquidity of 10, below
    [min_liquidity = 2000].  A missing
    (NaN) liquidity cell is not taken as [0] either: it passes the check,
    in the rational model and in binary64.  In binary64, with the
    engine's own Kelly method, the signal with the fair value
    [0.9999999999999999] passes the check and opens a position of 1000
    without any market row being looked at. *)
Lemma liquidity_check_reads_the_signal_row :
  Forall (fun row => mkt_market_id row = sig_market_id scenario_signal /\
                     mkt_liquidity row < min_liquidity default_config)
         thin_market /\
  _can_enter_trade default_config 50000 scenario_signal = true /\
  (exists p : Position,
      open_positions
        (step quarter_kelly default_config thin_market [scenario_signal]
           (reset default_config) 0) = [("m1", p)] /\
      pos_cost_basis p == 1000) /\
  _can_enter_trade default_config 50000 nan_liquidity_signal = true /\
  Binary64._can_enter_trade Binary64.default_config Binary64Inputs.fifty_thousand
    Binary64Inputs.nan_liquidity_signal = true /\
  Binary64._can_enter_trade Binary64.default_config Binary64Inputs.fifty_thousand
    Binary64Inputs.near_certain_signal = true /\
  Binary64._enter_position Binary64.default_config Binary64Inputs.fifty_thousand
    Binary64Inputs.near_certain_signal 0 = Some Binary64Inputs.opened_position.
Proof.
  split; [|split; [|split; [|split; [|split; [|split]]]]].
  - repeat constructor; vm_compute; intros; discriminate.
  - vm_compute. reflexivity.
  - eexists. split; vm_compute; reflexivity.
  - vm_compute. reflexivity.
  - vm_compute. reflexivity.
  - vm_compute. reflexivity.
  - vm_compute. reflexivity.
Qed.

(** ** Runs that open nothing *)

Section NoEntry.

Import PyFacts.

Lemma Forall_filter_keep {A : Type} (P : A -> Prop) (f : A -> bool) (xs : list A) :
  Forall P xs -> Forall P (List.filter f xs).
Proof.
  induction 1 as [|x xs Hx _ IH]; simpl; [constructor|].
  destruct (f x); [constructor; assumption | exact IH].
Qed.

Lemma Forall_filter_dates {A : Type} (P : A -> Prop) (ts : A -> Z)
    (start_date end_date : option Z) (df : list A) :
  Forall P df -> Forall P (filter_dates ts start_date end_date df).
Proof.
  intros H. unfold filter_dates.
  destruct start_date, end_date; repeat apply Forall_filter_keep; exact H.
Qed.

Variable kelly_rule : Q -> Q -> Q.
Variable config : BacktestConfig.

Lemma zero_fraction_notional (c : Q) (signal : Signal) :
  kelly_rule (sig_edge_size signal) (sig_fair_value signal) == 0 ->
  c * kelly_rule (sig_edge_size signal) (sig_fair_value signal)
    * kelly_fraction config == 0 /\
  notional kelly_rule config c signal < 100.
Proof.
  intros Hk.
  assert (Hz : c * kelly_rule (sig_edge_size signal) (sig_fair_value signal)
                 * kelly_fraction config == 0) by (rewrite Hk; ring).
  split; [exact Hz|].
  unfold notional.
  pose proof (min_le_l
                (c * kelly_rule (sig_edge_size signal) (sig_fair_value signal)
                   * kelly_fraction config)
                (c * (max_position_size_pct config / 100))).
  lra.
Qed.

Lemma zero_fraction_turned_away (signal : Signal) :
  kelly_rule (sig_edge_size signal) (sig_fair_value signal) == 0 ->
  turned_away kelly_rule config signal.
Proof. intros Hk. right. apply zero_fraction_notional. exact Hk. Qed.

Lemma enter_signal_turned_away (timestamp : Z) (st : State) (signal : Signal) :
  capital st = starting_capital config ->
  turned_away kelly_rule config signal ->
  enter_signal kelly_rule config timestamp st signal = st.
Proof.
  intros Hc [H|H]; unfold enter_signal; rewrite Hc.
  - rewrite H. reflexivity.
  - rewrite enter_position_below_floor by exact H.
    destruct (_can_enter_trade config (starting_capital config) signal); reflexivity.
Qed.

Lemma entry_phase_turned_away (sigs : list Signal) (timestamp : Z) (st : State) :
  capital st = starting_capital config ->
  Forall (turned_away kelly_rule config) sigs ->
  entry_phase kelly_rule config sigs timestamp st = st.
Proof.
  intros Hc Hall. unfold entry_phase.
  destruct (existsb _ sigs); [|reflexivity].
  assert (Hl : Forall (turned_away kelly_rule config) (signals_at timestamp sigs))
    by (apply Forall_filter_keep; exact Hall).
  induction Hl as [|s l Hs _ IH]; simpl; [reflexivity|].
  rewrite enter_signal_turned_away by assumption. exact IH.
Qed.

Lemma step_idle (hist : list MarketRow) (sigs : list Signal) (st : State) (t : Z) :
  Forall (turned_away kelly_rule config) sigs ->
  idle config st -> idle config (step kelly_rule config hist sigs st t).
Proof.
  intros Hall (Ht & Ho & Hc). unfold step.
  rewrite entry_phase_turned_away by assumption.
  unfold update_phase. rewrite Ho. simpl.
  unfold idle, record_snapshot. simpl. auto.
Qed.

Lemma fold_step_idle (hist : list MarketRow) (sigs : list Signal) (ts : list Z)
    (st : State) :
  Forall (turned_away kelly_rule config) sigs ->
  idle config st -> idle config (fold_left (step kelly_rule config hist sigs) ts st).
Proof.
  intros Hall. revert st. induction ts as [|t ts IH]; intros st Hst; simpl; [exact Hst|].
  apply IH. apply step_idle; assumption.
Qed.

Lemma simulate_idle (hist : list MarketRow) (sigs : list Signal)
    (start_date end_date : option Z) :
  Forall (turned_away kelly_rule config) sigs ->
  idle config (simulate kelly_rule config hist sigs start_date end_date).
Proof.
  intros Hall. unfold simulate. apply fold_step_idle.
  - apply Forall_filter_dates. exact Hall.
  - unfold idle, reset. simpl. auto.
Qed.

Lemma steps_idle_history (hist : list MarketRow) (sigs : list Signal)
    (ts : list Z) (st : State) :
  Forall (turned_away kelly_rule config) sigs ->
  idle config st ->
  Forall (fun s => snap_capital s = starting_capital config /\
                   snap_open_positions s = 0%nat)
         (portfolio_value_history st) ->
  Forall (fun s => snap_capital s = starting_capital config /\
                   snap_open_positions s = 0%nat)
         (portfolio_value_history
            (fold_left (step kelly_rule config hist sigs) ts st)).
Proof.
  intros Hsigs.
  revert st. induction ts as [|t ts IH]; intros st Hidle Hall; simpl; [exact Hall|].
  apply IH; [apply step_idle; assumption|].
  destruct Hidle as (Ht & Ho & Hc).
  unfold step. rewrite entry_phase_turned_away by assumption.
  unfold update_phase. rewrite Ho. simpl.
  apply Forall_app. split; [exact Hall|].
  constructor; [|constructor]. simpl. rewrite Ho, Hc. auto.
Qed.

End NoEntry.

(** ** Binary64: the Kelly guards and the entry floor *)

Section Binary64Facts.

Import PrimFloat SpecFloat FloatOps FloatAxioms.

Local Open Scope float_scope.

Lemma binary64_kelly_guards (edge p : float) :
  Binary64Inputs.kelly_degenerate p = true ->
  Binary64._calculate_kelly edge p = 0.
Proof.
  unfold Binary64Inputs.kelly_degenerate, Binary64._calculate_kelly. cbv zeta.
  destruct ((p <=? 0) || (1 <=? p))%bool; [reflexivity|].
  simpl. intros ->. reflexivity.
Qed.

Lemma binary64_kelly_range (edge p : float) :
  Binary64._calculate_kelly edge p = 0 \/
  Binary64._calculate_kelly edge p = Binary64Inputs.quarter \/
  (0 <? Binary64._calculate_kelly edge p) = true /\
  (Binary64._calculate_kelly edge p <? Binary64Inputs.quarter) = true.
Proof.
  unfold Binary64._calculate_kelly. cbv zeta.
  destruct ((p <=? 0) || (1 <=? p))%bool; [left; reflexivity|].
  destruct (1 / p - 1 <=? 0); [left; reflexivity|].
  unfold Binary64.min. change 0x1p-2 with Binary64Inputs.quarter.
  destruct (((1 / p - 1) * p - (1 - p)) / (1 / p - 1) <? Binary64Inputs.quarter) eqn:E1.
  - unfold Binary64.max.
    destruct (0 <? ((1 / p - 1) * p - (1 - p)) / (1 / p - 1)) eqn:E2.
    + right. right. split; assumption.
    + left. reflexivity.
  - right. left. vm_compute. reflexivity.
Qed.

Lemma binary64_zero_product (capital kf : float) :
  Binary64.finite capital = true -> Binary64.finite kf = true ->
  exists s : bool, Prim2SF (capital * 0 * kf) = S754_zero s.
Proof.
  unfold Binary64.finite. intros Hc Hk.
  rewrite mul_spec, mul_spec.
  change (Prim2SF 0) with (S754_zero false).
  destruct (Prim2SF capital) as [sc|sc| |sc mc ec]; try discriminate;
    destruct (Prim2SF kf) as [sk|sk| |sk mk ek]; try discriminate;
    eexists; reflexivity.
Qed.

Lemma binary64_floor : Prim2SF 100 = S754_finite false 7036874417766400 (-46).
Proof. vm_compute. reflexivity. Qed.

Lemma binary64_zero_below_floor (z m : float) (s : bool) :
  Prim2SF z = S754_zero s -> (Binary64.min z m <? 100) = true.
Proof.
  intros Hz. unfold Binary64.min.
  destruct (m <? z) eqn:E.
  - rewrite ltb_spec in E. rewrite Hz in E. rewrite ltb_spec, binary64_floor.
    destruct (Prim2SF m) as [sm|sm| |sm mm em]; try discriminate;
      destruct sm; try discriminate; reflexivity.
  - rewrite ltb_spec, Hz, binary64_floor. reflexivity.
Qed.

Lemma binary64_zero_fraction_opens_nothing (config : Binary64.BacktestConfig)
    (capital : float) (signal : Binary64.Signal) (timestamp : Z) :
  Binary64._calculate_kelly (Binary64.sig_edge_size signal)
    (Binary64.sig_fair_value signal) = 0 ->
  Binary64.finite capital = true ->
  Binary64.finite (Binary64.kelly_fraction config) = true ->
  Binary64._enter_position config capital signal timestamp = None.
Proof.
  intros Hk Hc Hf. unfold Binary64._enter_position. cbv zeta. rewrite Hk.
  destruct (binary64_zero_product capital _ Hc Hf) as [s Hs].
  rewrite (binary64_zero_below_floor _ _ s Hs). reflexivity.
Qed.

End Binary64Facts.

(** X27.  In binary64 the Kelly fraction is [0], or the cap [0.25], or
    strictly between the two, for every [edge] and every [win_prob],
    infinities and NaN included: it is never negative, never above the
    cap and never NaN. *)
Theorem kelly_fraction_range_in_binary64 (edge p : PrimFloat.float) :
  Binary64._calculate_kelly edge p = PrimFloat.zero \/
  Binary64._calculate_kelly edge p = Binary64Inputs.quarter \/
  PrimFloat.ltb PrimFloat.zero (Binary64._calculate_kelly edge p) = true /\
  PrimFloat.ltb (Binary64._calculate_kelly edge p) Binary64Inputs.quarter = true.
Proof. apply binary64_kelly_range. Qed.

(** C1, amended.  The Kelly fraction is exactly [0] in the branches [p ≤ 0],
    [p ≥ 1] and [b ≤ 0], over the rationals and in binary64, and with
    [b = 1/p − 1] its numerator [b·p − (1 − p)] is identically zero in
    exact arithmetic.  For every signal on which the sizing method
    returns [0], the Kelly notional [capital × kelly × kelly_fraction]
    is [0], below the floor of 100, and [_enter_position] returns [None]
    (in binary64: for a finite capital and a finite [kelly_fraction]);
    and a run in which that is so for every signal opens no position,
    closes no trade and ends with the starting capital. *)
Theorem zero_kelly_means_no_trade :
  (forall edge p : Q, kelly_degenerate p -> _calculate_kelly edge p = 0) /\
  (forall edge p : PrimFloat.float,
      Binary64Inputs.kelly_degenerate p = true ->
      Binary64._calculate_kelly edge p = PrimFloat.zero) /\
  (forall p : Q, ~ p == 0 -> (1 / p - 1) * p - (1 - p) == 0) /\
  (forall (kelly_rule : Q -> Q -> Q) (config : BacktestConfig) (capital : Q)
          (signal : Signal) (timestamp : Z),
      kelly_rule (sig_edge_size signal) (sig_fair_value signal) == 0 ->
      capital * kelly_rule (sig_edge_size signal) (sig_fair_value signal)
        * kelly_fraction config == 0 /\
      _enter_position kelly_rule config capital signal timestamp = None) /\
  (forall (config : Binary64.BacktestConfig) (capital : PrimFloat.float)
          (signal : Binary64.Signal) (timestamp : Z),
      Binary64._calculate_kelly (Binary64.sig_edge_size signal)
        (Binary64.sig_fair_value signal) = PrimFloat.zero ->
      Binary64.finite capital = true ->
      Binary64.finite (Binary64.kelly_fraction config) = true ->
      Binary64._enter_position config capital signal timestamp = None) /\
  (forall (sqrtQ : Q -> Q) (powQ : Q -> Q -> Q) (elapsed_days : Z -> Z -> Z)
          (kelly_rule : Q -> Q -> Q) (config : BacktestConfig)
          (hist : list MarketRow) (sigs : list Signal)
          (start_date end_date : option Z),
      Forall (fun signal =>
                kelly_rule (sig_edge_size signal) (sig_fair_value signal) == 0)
             sigs ->
      open_positions (simulate kelly_rule config hist sigs start_date end_date) = [] /\
      trades (simulate kelly_rule config hist sigs start_date end_date) = [] /\
      res_trades (run_backtest_with sqrtQ powQ elapsed_days kelly_rule config
                    hist sigs start_date end_date) = [] /\
      capital (simulate kelly_rule config hist sigs start_date end_date)
        = starting_capital config).
Proof.
  split; [apply kelly_degenerate_zero|].
  split; [apply binary64_kelly_guards|].
  split; [apply kelly_numerator_vanishes|].
  split; [|split].
  - intros kelly_rule config capital signal timestamp Hk.
    destruct (zero_fraction_notional kelly_rule config capital signal Hk) as [Hz Hn].
    split; [exact Hz|]. apply enter_position_below_floor. exact Hn.
  - apply binary64_zero_fraction_opens_nothing.
  - intros sqrtQ powQ elapsed_days kelly_rule config hist sigs start_date end_date Hall.
    assert (Haway : Forall (turned_away kelly_rule config) sigs).
    { eapply Forall_impl; [exact Hall|]. intros signal Hk.
      apply zero_fraction_turned_away. exact Hk. }
    destruct (simulate_idle kelly_rule config hist sigs start_date end_date Haway)
      as (Ht & Ho & Hc).
    repeat split; assumption.
Qed.

(** C1, as the claim states it, fails: in binary64 the fraction is not
    [0] for every win probability.  At [p = 0.9999999999999999] the odds
    round to [1 + 2^-52], so [b = 2^-52], the numerator is about
    [2^-53], half of [b], and the fraction is the cap [0.25]; at NaN
    every guard comparison is false and the fraction is [0.25] again.  The scenario's signal with that fair value passes
    [_can_enter_trade] and [_enter_position] opens a position of 1000
    for it, which a "yes" resolution closes with a pnl of about 921.42. *)
Lemma kelly_fraction_reaches_the_cap :
  Binary64._calculate_kelly (Binary64.sig_edge_size Binary64Inputs.near_certain_signal)
    Binary64Inputs.almost_one = Binary64Inputs.quarter /\
  Binary64._calculate_kelly (Binary64.sig_edge_size Binary64Inputs.near_certain_signal)
    PrimFloat.nan = Binary64Inputs.quarter /\
  PrimFloat.ltb PrimFloat.zero Binary64Inputs.quarter = true /\
  Binary64._can_enter_trade Binary64.default_config Binary64Inputs.fifty_thousand
    Binary64Inputs.near_certain_signal = true /\
  Binary64._enter_position Binary64.default_config Binary64Inputs.fifty_thousand
    Binary64Inputs.near_certain_signal 0 = Some Binary64Inputs.opened_position /\
  Binary64.pos_cost_basis Binary64Inputs.opened_position = Binary64Inputs.thousand /\
  Binary64.pnl
    (fst (Binary64._close_position Binary64.default_config
            Binary64Inputs.fifty_thousand Binary64Inputs.opened_position "yes" 1))
  = Binary64Inputs.winning_pnl /\
  snd (Binary64._close_position Binary64.default_config
         Binary64Inputs.fifty_thousand Binary64Inputs.opened_position "yes" 1)
  = Binary64Inputs.capital_after_win.
Proof. repeat split; vm_compute; reflexivity. Qed.

(** ** The end-to-end scenario of the specification *)

(** ** Closing a position *)

Section Closing.

Import PyFacts.

Lemma exit_reference_yes (p : Position) : exit_reference p "yes" = 1.
Proof. reflexivity. Qed.

Lemma exit_reference_no (p : Position) : exit_reference p "no" = 0.
Proof. reflexivity. Qed.

Lemma exit_reference_other (p : Position) (resolution : string) :
  resolution <> "yes" -> resolution <> "no" ->
  exit_reference p resolution = pos_entry_price p.
Proof.
  intros Hy Hn. unfold exit_reference.
  apply String.eqb_neq in Hy. apply String.eqb_neq in Hn.
  rewrite Hy, Hn. reflexivity.
Qed.

Lemma close_position_exit_price (config : BacktestConfig) (c : Q) (p : Position)
    (resolution : string) (t : Z) :
  exit_price (fst (_close_position config c p resolution t))
  == Qmax 0 (exit_reference p resolution
             - exit_reference p resolution * slippage_pct config).
Proof. unfold _close_position. simpl. apply max_spec. Qed.

End Closing.

(** C5, as the claim states it, fails: for a resolution other than "yes"
    and "no" the reference is the entry price the position records, which
    [_enter_position] stored after slippage (0.51 here), not the signal's
    pre-slippage entry price (0.5). *)
Lemma exit_reference_not_pre_slippage :
  exists p : Position,
    _enter_position quarter_kelly default_config 50000 scenario_signal 0 = Some p /\
    exit_reference p "invalid" == 0.51 /\
    sig_entry_price scenario_signal == 0.5 /\
    ~ exit_reference p "invalid" == sig_entry_price scenario_signal.
Proof.
  eexists. split; [vm_compute; reflexivity|].
  split; [vm_compute; reflexivity|].
  split; [vm_compute; reflexivity|].
  vm_compute. discriminate.
Qed.

(** C5, amended.  The pre-slippage exit reference is exactly [1] for
    "yes", exactly [0] for "no", and for any other resolution exactly the
    entry price recorded in the position, which for a position built by
    [_enter_position] is the post-slippage fill price
    [entry_price + entry_price × slippage_pct]; the realized exit price
    is [max(0, reference − reference × slippage_pct)]. *)
Theorem close_reference_prices (kelly_rule : Q -> Q -> Q) (config : BacktestConfig) :
  (forall p : Position, exit_reference p "yes" = 1 /\ exit_reference p "no" = 0) /\
  (forall (p : Position) (resolution : string),
      resolution <> "yes" -> resolution <> "no" ->
      exit_reference p resolution = pos_entry_price p) /\
  (forall (c : Q) (signal : Signal) (t : Z) (p : Position),
      _enter_position kelly_rule config c signal t = Some p ->
      pos_entry_price p
      = sig_entry_price signal + sig_entry_price signal * slippage_pct config) /\
  (forall (c : Q) (p : Position) (resolution : string) (t : Z),
      exit_price (fst (_close_position config c p resolution t))
      == Qmax 0 (exit_reference p resolution
                 - exit_reference p resolution * slippage_pct config)).
Proof.
  split; [|split; [|split]].
  - intros p. split; reflexivity.
  - apply exit_reference_other.
  - intros c signal t p E.
    apply (enter_position_opened kelly_rule config c signal t p E).
  - apply close_position_exit_price.
Qed.

(** ** Unrealized pnl *)

Section Unrealized.

Lemma filter_head_find {A : Type} (f : A -> bool) (l : list A) :
  match List.filter f l with [] => None | x :: _ => Some x end = List.find f l.
Proof.
  induction l as [|x l IH]; simpl; [reflexivity|].
  destruct (f x); [reflexivity | exact IH].
Qed.

Lemma unrealized_is_yes_mark (p : Position) (md : list MarketRow) (t : Z) :
  _calculate_unrealized_pnl p md t = yes_mark p md t.
Proof.
  unfold _calculate_unrealized_pnl, yes_mark, row_for. cbv zeta.
  rewrite <- filter_head_find.
  destruct (List.filter _ md); reflexivity.
Qed.

Lemma unrealized_without_row (p : Position) (md : list MarketRow) (t : Z) :
  row_for p md t = None -> _calculate_unrealized_pnl p md t = 0.
Proof. intros H. rewrite unrealized_is_yes_mark. unfold yes_mark. rewrite H. reflexivity. Qed.

Lemma last_snapshot_record (hist : list MarketRow) (t : Z) (st : State) :
  last_snapshot (record_snapshot hist t st)
  = Some {| snap_timestamp := t;
            snap_portfolio_value :=
              capital st
              + Py.sum (map (fun p => _calculate_unrealized_pnl p hist t)
                            (Dict.values (open_positions st)));
            snap_capital := capital st;
            snap_unrealized_pnl :=
              Py.sum (map (fun p => _calculate_unrealized_pnl p hist t)
                          (Dict.values (open_positions st)));
            snap_open_positions := length (open_positions st) |}.
Proof.
  unfold last_snapshot, record_snapshot. simpl.
  rewrite map_app. simpl. apply last_last.
Qed.

End Unrealized.

(** C10.  The unrealized pnl of an open position is
    [quantity × yes_price − cost_basis], read from the [yes_price] of the
    first market row of its market at the timestamp ([0] without such a
    row); the side of the position plays no part, so a "no" position is
    marked to the yes price; and the snapshot's unrealized pnl is the sum
    of these marks over the open positions. *)
Theorem unrealized_marks_to_yes_price :
  (forall (p : Position) (md : list MarketRow) (t : Z) (row : MarketRow),
      row_for p md t = Some row ->
      _calculate_unrealized_pnl p md t
      = pos_quantity p * mkt_yes_price row - pos_cost_basis p) /\
  (forall (side : string) (p : Position) (md : list MarketRow) (t : Z),
      _calculate_unrealized_pnl (on_side side p) md t
      = _calculate_unrealized_pnl p md t) /\
  (forall (hist : list MarketRow) (t : Z) (st : State),
      exists snap : Snapshot,
        last_snapshot (record_snapshot hist t st) = Some snap /\
        snap_unrealized_pnl snap
        = Py.sum (map (fun p => yes_mark p hist t)
                      (Dict.values (open_positions st)))).
Proof.
  split; [|split].
  - intros p md t row H. rewrite unrealized_is_yes_mark. unfold yes_mark.
    rewrite H. reflexivity.
  - intros side p md t. reflexivity.
  - intros hist t st. eexists. split; [apply last_snapshot_record|].
    simpl. f_equal. apply map_ext. intros p. apply unrealized_is_yes_mark.
Qed.

(** ** Snapshots *)

Section Timeline.

Lemma elem_of_unique_from (seen l : list Z) (x : Z) :
  x ∈ unique_from seen l <-> x ∈ l /\ x ∉ seen.
Proof.
  revert seen. induction l as [|y l IH]; intros seen; simpl.
  - split; [intros H; inversion H | intros [H _]; inversion H].
  - case_bool_decide as Hy.
    + rewrite IH, elem_of_cons. split.
      * intros [H1 H2]. auto.
      * intros [[->|H1] H2]; [contradiction | auto].
    + rewrite !elem_of_cons, IH, elem_of_cons. split.
      * intros [->|[H1 H2]]; [auto|]. split; [auto|].
        intros H. apply H2. auto.
      * intros [[->|H1] H2]; [auto|].
        destruct (decide (x = y)) as [->|Hne]; [auto|].
        right. split; [exact H1|]. intros [H|H]; contradiction.
Qed.

Lemma NoDup_unique_from (seen l : list Z) : NoDup (unique_from seen l).
Proof.
  revert seen. induction l as [|y l IH]; intros seen; simpl.
  - constructor.
  - case_bool_decide as Hy; [apply IH|].
    constructor; [|apply IH].
    rewrite elem_of_unique_from, elem_of_cons. intros [_ H]. apply H. auto.
Qed.

Lemma elem_of_unique (l : list Z) (x : Z) : x ∈ unique l <-> x ∈ l.
Proof.
  unfold unique. rewrite elem_of_unique_from. split; [intros [H _]; exact H|].
  intros H. split; [exact H|]. intros H'. inversion H'.
Qed.

Lemma elem_of_sorted (l : list Z) (x : Z) : x ∈ sorted l <-> x ∈ l.
Proof. unfold sorted. rewrite merge_sort_Permutation. reflexivity. Qed.

Lemma NoDup_sorted (l : list Z) : NoDup l -> NoDup (sorted l).
Proof. unfold sorted. rewrite merge_sort_Permutation. auto. Qed.

Lemma strictly_ascending (l : list Z) :
  StronglySorted Z.le l -> NoDup l -> StronglySorted Z.lt l.
Proof.
  induction 1 as [|x l Hs IH Hall]; intros Hnd; [constructor|].
  apply NoDup_cons in Hnd as [Hx Hnd].
  constructor; [apply IH; exact Hnd|].
  rewrite Forall_forall in *. intros y Hy.
  specialize (Hall y Hy).
  assert (x <> y) by (intros ->; contradiction).
  lia.
Qed.

Lemma timeline_ascending (hist : list MarketRow) : StronglySorted Z.lt (timeline hist).
Proof.
  unfold timeline. apply strictly_ascending.
  - unfold sorted. apply StronglySorted_merge_sort; apply _.
  - apply NoDup_sorted, NoDup_unique_from.
Qed.

Lemma elem_of_timeline (hist : list MarketRow) (t : Z) :
  t ∈ timeline hist <-> exists r, r ∈ hist /\ mkt_timestamp r = t.
Proof.
  unfold timeline. rewrite elem_of_sorted, elem_of_unique.
  change (map mkt_timestamp hist) with (mkt_timestamp <$> hist).
  rewrite list_elem_of_fmap. split; intros (r & H1 & H2); exists r; auto.
Qed.

Variable kelly_rule : Q -> Q -> Q.
Variable config : BacktestConfig.
Variable hist : list MarketRow.
Variable sigs : list Signal.

Lemma after_phases_history (st : State) (t : Z) :
  portfolio_value_history (after_phases kelly_rule config hist sigs st t)
  = portfolio_value_history st.
Proof.
  unfold after_phases, update_phase. rewrite update_fold_history.
  apply (entry_phase_cash kelly_rule config sigs t st).
Qed.

Lemma step_history (st : State) (t : Z) :
  portfolio_value_history (step kelly_rule config hist sigs st t)
  = portfolio_value_history st
    ++ [expected_snapshot hist t (after_phases kelly_rule config hist sigs st t)].
Proof.
  unfold step. fold (after_phases kelly_rule config hist sigs st t).
  unfold record_snapshot. simpl. rewrite after_phases_history. reflexivity.
Qed.

Lemma steps_history (ts : list Z) (st : State) :
  portfolio_value_history (fold_left (step kelly_rule config hist sigs) ts st)
  = portfolio_value_history st ++ snapshots_from kelly_rule config hist sigs ts st.
Proof.
  revert st. induction ts as [|t ts IH]; intros st; simpl.
  - rewrite app_nil_r. reflexivity.
  - rewrite IH, step_history, <- app_assoc. reflexivity.
Qed.

Lemma snapshots_from_timestamps (ts : list Z) (st : State) :
  map snap_timestamp (snapshots_from kelly_rule config hist sigs ts st) = ts.
Proof.
  revert st. induction ts as [|t ts IH]; intros st; simpl; [reflexivity|].
  rewrite IH. reflexivity.
Qed.

Lemma snapshots_from_balanced (ts : list Z) (st : State) :
  Forall (fun s => snap_portfolio_value s = snap_capital s + snap_unrealized_pnl s)
         (snapshots_from kelly_rule config hist sigs ts st).
Proof.
  revert st. induction ts as [|t ts IH]; intros st; simpl; constructor.
  - reflexivity.
  - apply IH.
Qed.

Lemma snapshot_at_position (pre post : list Z) (t : Z) (st : State) :
  portfolio_value_history st = [] ->
  portfolio_value_history
    (fold_left (step kelly_rule config hist sigs) (pre ++ t :: post) st)
    !! length pre
  = Some (expected_snapshot hist t
            (after_phases kelly_rule config hist sigs
               (fold_left (step kelly_rule config hist sigs) pre st) t)).
Proof.
  intros Hempty.
  rewrite fold_left_app. simpl. rewrite steps_history, step_history.
  rewrite (steps_history pre st), Hempty. simpl.
  assert (Hlen : length (snapshots_from kelly_rule config hist sigs pre st) = length pre).
  { rewrite <- (length_map snap_timestamp), snapshots_from_timestamps. reflexivity. }
  rewrite <- app_assoc. rewrite lookup_app_r by lia.
  rewrite Hlen, Nat.sub_diag. reflexivity.
Qed.

End Timeline.

(** C7.  A run leaves exactly one snapshot per distinct timestamp of the
    market table the loop reads (the table after the optional date
    filter), in strictly ascending order of timestamp, whatever the
    signals, the sizing rule and the trading activity; the snapshot at
    each timestamp carries capital plus the summed unrealized pnl of the
    positions open once that timestamp's entries and closes are done; and
    a position with no market row at the timestamp contributes [0]. *)
Theorem one_snapshot_per_timestamp
    (kelly_rule : Q -> Q -> Q) (config : BacktestConfig)
    (hist : list MarketRow) (sigs : list Signal) (start_date end_date : option Z) :
  let table := filter_dates mkt_timestamp start_date end_date hist in
  let signals := filter_dates sig_timestamp start_date end_date sigs in
  let history :=
    portfolio_value_history
      (simulate kelly_rule config hist sigs start_date end_date) in
  map snap_timestamp history = timeline table /\
  StronglySorted Z.lt (map snap_timestamp history) /\
  (forall t : Z,
      t ∈ map snap_timestamp history <->
      exists r : MarketRow, r ∈ table /\ mkt_timestamp r = t) /\
  Forall (fun s => snap_portfolio_value s = snap_capital s + snap_unrealized_pnl s)
         history /\
  (forall (pre post : list Z) (t : Z),
      timeline table = pre ++ t :: post ->
      history !! length pre
      = Some (expected_snapshot table t
                (after_phases kelly_rule config table signals
                   (fold_left (step kelly_rule config table signals) pre
                      (reset config)) t))) /\
  (forall (p : Position) (t : Z),
      row_for p table t = None -> _calculate_unrealized_pnl p table t = 0).
Proof.
  intros table signals history.
  assert (Hh : history = snapshots_from kelly_rule config table signals
                           (timeline table) (reset config)).
  { unfold history, simulate. fold table. fold signals.
    rewrite steps_history. reflexivity. }
  assert (Hts : map snap_timestamp history = timeline table).
  { rewrite Hh. apply snapshots_from_timestamps. }
  split; [exact Hts|].
  split; [rewrite Hts; apply timeline_ascending|].
  split; [intros t; rewrite Hts; apply elem_of_timeline|].
  split; [rewrite Hh; apply snapshots_from_balanced|].
  split.
  - intros pre post t Hsplit. unfold history, simulate. fold table. fold signals.
    rewrite Hsplit. apply snapshot_at_position. reflexivity.
  - intros p t. apply unrealized_without_row.
Qed.

(** ** Sharpe and Sortino on degenerate series *)

Section Statistics.

Import PyFacts.

Lemma len_pos {A : Type} (x : A) (xs : list A) : 0 < len (x :: xs).
Proof.
  unfold len. change 0 with (inject_Z 0). rewrite <- Zlt_Qlt.
  simpl length. lia.
Qed.

Lemma len_cons {A : Type} (x : A) (xs : list A) : len (x :: xs) == 1 + len xs.
Proof.
  unfold len. simpl length. rewrite Nat2Z.inj_succ, <- Z.add_1_l, inject_Z_plus.
  reflexivity.
Qed.

Lemma sum_const (a : Q) (xs : list Q) :
  Forall (fun x => x == a) xs -> Py.sum xs == len xs * a.
Proof.
  induction 1 as [|x xs Hx _ IH].
  - unfold len. simpl. rewrite sum_nil. ring.
  - rewrite sum_cons, len_cons, IH, Hx. ring.
Qed.

Lemma sum_map_zero {A : Type} (f : A -> Q) (xs : list A) :
  Forall (fun x => f x == 0) xs -> Py.sum (map f xs) == 0.
Proof.
  induction 1 as [|x xs Hx _ IH]; simpl.
  - apply sum_nil.
  - rewrite sum_cons, IH, Hx. ring.
Qed.

Lemma sum_nonneg (xs : list Q) : Forall (fun x => 0 <= x) xs -> 0 <= Py.sum xs.
Proof.
  induction 1 as [|x xs Hx _ IH].
  - rewrite sum_nil. lra.
  - rewrite sum_cons. lra.
Qed.

Lemma sum_nonneg_zero (xs : list Q) :
  Forall (fun x => 0 <= x) xs -> Py.sum xs == 0 -> Forall (fun x => x == 0) xs.
Proof.
  induction 1 as [|x xs Hx Hxs IH]; intros Hsum; constructor.
  - rewrite sum_cons in Hsum. pose proof (sum_nonneg xs Hxs). lra.
  - apply IH. rewrite sum_cons in Hsum. pose proof (sum_nonneg xs Hxs). lra.
Qed.

Lemma mean_const (a x : Q) (xs : list Q) :
  Forall (fun y => y == a) (x :: xs) -> np_mean (x :: xs) == a.
Proof.
  intros H. unfold np_mean. rewrite (sum_const a) by exact H.
  pose proof (len_pos x xs). field. lra.
Qed.

(** A series whose elements all agree has variance [0]. *)
Lemma var_const (a : Q) (xs : list Q) :
  Forall (fun y => y == a) xs -> np_var xs == 0.
Proof.
  intros H. destruct xs as [|x xs]; [reflexivity|].
  unfold np_var. cbv zeta.
  pose proof (mean_const a x xs H) as Hm.
  unfold np_mean at 1. rewrite sum_map_zero.
  - unfold Qdiv. ring.
  - eapply Forall_impl; [exact H|]. intros y Hy. simpl in Hy.
    rewrite Hm, Hy. ring.
Qed.

Lemma square_nonneg (x : Q) : 0 <= x * x.
Proof.
  destruct (Qlt_le_dec x 0) as [Hneg|Hpos].
  - assert (H : 0 <= (- x) * (- x)) by (apply Qmult_le_0_compat; lra).
    assert (E : (- x) * (- x) == x * x) by ring.
    rewrite <- E. exact H.
  - apply Qmult_le_0_compat; exact Hpos.
Qed.

Lemma square_zero (x : Q) : x * x == 0 -> x == 0.
Proof.
  intros H. destruct (Qmult_integral _ _ H); assumption.
Qed.

(** Conversely, variance [0] forces every element onto the mean. *)
Lemma var_zero_const (xs : list Q) :
  np_var xs == 0 -> Forall (fun y => y == np_mean xs) xs.
Proof.
  intros H. destruct xs as [|x xs]; [constructor|].
  unfold np_var in H. cbv zeta in H.
  set (m := np_mean (x :: xs)) in *.
  unfold np_mean in H.
  assert (Hlen : 0 < len (map (fun y => (y - m) * (y - m)) (x :: xs))).
  { simpl map. apply len_pos. }
  assert (Hsum : Py.sum (map (fun y => (y - m) * (y - m)) (x :: xs)) == 0).
  { set (S := Py.sum _) in *. set (n := len _) in *.
    assert (E : S == S / n * n) by (field; lra).
    rewrite E, H. ring. }
  assert (Hsq : Forall (fun z => z == 0) (map (fun y => (y - m) * (y - m)) (x :: xs))).
  { apply sum_nonneg_zero; [|exact Hsum].
    apply Forall_forall. intros z Hz.
    apply list_elem_of_In, in_map_iff in Hz. destruct Hz as (y & <- & _).
    apply square_nonneg. }
  apply Forall_forall. intros y Hy.
  rewrite Forall_forall in Hsq.
  assert (Hy0 : (y - m) * (y - m) == 0).
  { apply Hsq. apply list_elem_of_In, in_map_iff. exists y. split; [reflexivity|].
    apply list_elem_of_In. exact Hy. }
  apply square_zero in Hy0. lra.
Qed.

Lemma excess_const (a rf : Q) (xs : list Q) :
  Forall (fun y => y == a) xs ->
  Forall (fun e => e == a - rf / 252) (excess_of rf xs).
Proof.
  intros H. unfold excess_of. induction H as [|x xs Hx _ IH]; simpl; constructor.
  - rewrite Hx. reflexivity.
  - exact IH.
Qed.

Lemma filter_none {A : Type} (f : A -> bool) (xs : list A) :
  Forall (fun x => f x = false) xs -> List.filter f xs = [].
Proof.
  induction 1 as [|x xs Hx _ IH]; simpl; [reflexivity|].
  rewrite Hx. exact IH.
Qed.

Variable sqrtQ : Q -> Q.
Hypothesis sqrtQ_zero : forall x : Q, x == 0 -> sqrtQ x == 0.

Lemma std_zero (xs : list Q) : np_var xs == 0 -> Py.ltb 0 (np_std sqrtQ xs) = false.
Proof.
  intros H. apply ltb_ge. unfold np_std. rewrite (sqrtQ_zero _ H). lra.
Qed.

Lemma sharpe_flat (returns : list Q) (rf : Q) :
  np_var returns == 0 -> _calculate_sharpe sqrtQ returns rf = 0.
Proof.
  intros H. unfold _calculate_sharpe.
  destruct returns as [|r returns]; [reflexivity|].
  cbv zeta. rewrite std_zero by exact H. reflexivity.
Qed.

Lemma sortino_flat (returns : list Q) (rf : Q) :
  np_var returns == 0 -> _calculate_sortino sqrtQ returns rf = 0.
Proof.
  intros H. unfold _calculate_sortino.
  destruct returns as [|r returns]; [reflexivity|].
  cbv zeta.
  set (downside := List.filter _ _).
  assert (Hd : np_var downside == 0).
  { apply (var_const (np_mean (r :: returns) - rf / 252)).
    apply Forall_filter_keep, excess_const, var_zero_const. exact H. }
  destruct downside as [|d downside'] eqn:E; [reflexivity|].
  rewrite std_zero by exact Hd. reflexivity.
Qed.

Lemma sortino_no_downside (returns : list Q) (rf : Q) :
  Forall (fun e => 0 <= e) (excess_of rf returns) ->
  _calculate_sortino sqrtQ returns rf = 0.
Proof.
  intros H. unfold _calculate_sortino.
  destruct returns as [|r returns]; [reflexivity|].
  cbv zeta. rewrite filter_none; [reflexivity|].
  eapply Forall_impl; [exact H|]. intros e He. apply ltb_ge. exact He.
Qed.

Lemma var_single (r : Q) : np_var [r] == 0.
Proof. apply (var_const r). constructor; [reflexivity | constructor]. Qed.

End Statistics.

(** C9.  In binary64 a zero-variance series need not give [0]: for
    three trades that each return [0.1], [np.std(returns)] is [2^-56],
    positive, so the guard of [_calculate_sharpe] passes, while
    [np.std(excess_returns)], the divisor, is exactly [0]: the Sharpe
    ratio is an infinity.  For three trades that each return [0.0001]
    the deviation of the downside series is [2^-67], positive, and the
    Sortino ratio is about [-1.4e17]. *)
Theorem ratios_of_a_constant_series_in_binary64 :
  Binary64.np_std Binary64Inputs.constant_returns = Binary64Inputs.rounding_residue /\
  PrimFloat.ltb PrimFloat.zero (Binary64.np_std Binary64Inputs.constant_returns) = true /\
  Binary64.np_std
    (Binary64.excess_of Binary64.risk_free_rate_default
       Binary64Inputs.constant_returns) = PrimFloat.zero /\
  Binary64._calculate_sharpe Binary64Inputs.constant_returns
    Binary64.risk_free_rate_default = PrimFloat.infinity /\
  Binary64.np_std
    (Binary64.excess_of Binary64.risk_free_rate_default
       Binary64Inputs.small_constant_returns) = Binary64Inputs.downside_residue /\
  Binary64._calculate_sortino Binary64Inputs.small_constant_returns
    Binary64.risk_free_rate_default = Binary64Inputs.runaway_sortino.
Proof. repeat split; vm_compute; reflexivity. Qed.

(** X14.  For an empty return series and for a series of a single
    return, [_calculate_sharpe] and [_calculate_sortino] are exactly
    [0]; [_calculate_sortino] is also [0] whenever no excess return is
    negative.  [sqrtQ] is any square root that maps [0] to [0]. *)
Theorem ratios_of_short_series
    (sqrtQ : Q -> Q) (sqrtQ_zero : forall x : Q, x == 0 -> sqrtQ x == 0)
    (returns : list Q) (rf : Q) :
  (returns = [] \/ (exists r : Q, returns = [r]) ->
   _calculate_sharpe sqrtQ returns rf = 0 /\
   _calculate_sortino sqrtQ returns rf = 0) /\
  (Forall (fun e => 0 <= e) (excess_of rf returns) ->
   _calculate_sortino sqrtQ returns rf = 0).
Proof.
  split.
  - intros [->|[r ->]].
    + split; reflexivity.
    + split; [apply sharpe_flat | apply sortino_flat];
        try exact sqrtQ_zero; apply var_single.
  - apply sortino_no_downside.
Qed.

Lemma sqrt_approx_zero (x : Q) : x == 0 -> sqrt_approx x == 0.
Proof.
  intros H. unfold sqrt_approx.
  assert (E : Qnum x = 0%Z).
  { unfold Qeq in H. simpl in H. lia. }
  rewrite E. reflexivity.
Qed.

(** A single trade, and two trades that both beat the risk-free rate. *)
Lemma ratios_of_short_series_witness :
  (_calculate_sharpe sqrt_approx [5] 0.04 = 0 /\
   _calculate_sortino sqrt_approx [5] 0.04 = 0) /\
  _calculate_sortino sqrt_approx [1; 3] 0.04 = 0.
Proof.
  split.
  - apply (proj1 (ratios_of_short_series sqrt_approx sqrt_approx_zero [5] 0.04)).
    right. exists 5. reflexivity.
  - apply (proj2 (ratios_of_short_series sqrt_approx sqrt_approx_zero [1; 3] 0.04)).
    repeat constructor; vm_compute; intros; discriminate.
Defined.

(** ** Metrics of an empty trade list *)

(** C8, as the claim states it, fails: with no trades the metrics map is
    the empty dict, so none of the metric fields is defined in it (a
    lookup of [total_trades] or [final_capital] finds nothing, not [0]). *)
Lemma empty_metrics_have_no_fields :
  trades (reset default_config) = [] /\
  _calculate_metrics sqrt_approx pow_trunc days_apart default_config
    (reset default_config) !! "total_trades" = None /\
  _calculate_metrics sqrt_approx pow_trunc days_apart default_config
    (reset default_config) !! "final_capital" = None.
Proof. repeat split. Qed.

(** C8, amended.  With an empty trade list [_calculate_metrics] returns
    the empty dict: a defined result, with no field in it, and nothing is
    raised. *)
Theorem empty_trades_empty_metrics
    (sqrtQ : Q -> Q) (powQ : Q -> Q -> Q) (elapsed_days : Z -> Z -> Z)
    (config : BacktestConfig) (st : State) :
  trades st = [] ->
  _calculate_metrics sqrtQ powQ elapsed_days config st = ∅ /\
  (forall key : string,
      _calculate_metrics sqrtQ powQ elapsed_days config st !! key = None).
Proof.
  intros H. unfold _calculate_metrics. rewrite H.
  split; [reflexivity|]. intros key. apply lookup_empty.
Qed.

Lemma empty_trades_empty_metrics_witness :
  _calculate_metrics sqrt_approx pow_trunc days_apart default_config
    (reset default_config) = ∅ /\
  (forall key : string,
      _calculate_metrics sqrt_approx pow_trunc days_apart default_config
        (reset default_config) !! key = None).
Proof.
  apply (empty_trades_empty_metrics sqrt_approx pow_trunc days_apart
           default_config (reset default_config)).
  reflexivity.
Defined.

(** ** The end-to-end scenario on the code *)

(** C4.  On the scenario of the specification the signal passes
    [_can_enter_trade], but [_calculate_kelly 0.1 0.6] is [0], the
    notional is [0], [_enter_position] returns [None], and the run ends
    with no trade, two snapshots and the capital still at 50000: the
    single trade the specification expects is not produced. *)
Theorem scenario_produces_no_trade :
  _can_enter_trade default_config 50000 scenario_signal = true /\
  _calculate_kelly (sig_edge_size scenario_signal) (sig_fair_value scenario_signal) = 0 /\
  notional _calculate_kelly default_config 50000 scenario_signal == 0 /\
  BacktestEngine._enter_position default_config 50000 scenario_signal 0 = None /\
  trades (BacktestEngine.simulate default_config scenario_market [scenario_signal]
            None None) = [] /\
  open_positions (BacktestEngine.simulate default_config scenario_market
                    [scenario_signal] None None) = [] /\
  map snap_timestamp
    (portfolio_value_history
       (BacktestEngine.simulate default_config scenario_market [scenario_signal]
          None None)) = [0%Z; 1%Z] /\
  capital (BacktestEngine.simulate default_config scenario_market [scenario_signal]
             None None) = 50000.
Proof. repeat split. Qed.

(** Had the sizing rule returned a positive fraction (here the
    capped quarter), the rest of the engine would produce the trade of
    the scenario: notional 1000, fill price 0.51, exit price 0.98, quantity
    [notional / 0.51], net pnl [quantity × 0.98 − notional − 0.15], and a
    final capital of [50000 + net pnl]. *)
Lemma scenario_under_positive_kelly :
  exists tr : Trade,
    trades (simulate quarter_kelly default_config scenario_market [scenario_signal]
              None None) = [tr] /\
    entry_price tr == 0.51 /\
    exit_price tr == 0.98 /\
    quantity tr == 1000 / 0.51 /\
    pnl tr == quantity tr * 0.98 - 1000 - 0.15 /\
    capital (simulate quarter_kelly default_config scenario_market [scenario_signal]
               None None) == 50000 + pnl tr.
Proof.
  eexists. split; [vm_compute; reflexivity|].
  repeat split; vm_compute; reflexivity.
Qed.

(** ** Instances *)

(** [p = 0] is a degenerate probability and [p = 0.6] a regular one. *)
Lemma kelly_fraction_characterised_witness :
  _calculate_kelly 0.1 0 = 0 /\
  _calculate_kelly 0.1 0.6 == clamp 0 0.25 (kelly_raw 0.6).
Proof.
  split.
  - apply (proj1 (kelly_fraction_characterised 0.1 0)). left. lra.
  - apply (proj1 (proj2 (kelly_fraction_characterised 0.1 0.6))).
    intros [H|[H|H]]; vm_compute in H; apply H; reflexivity.
Defined.

(** A signal whose table has no liquidity column is turned away; a
    position opened under the quarter rule commits 1000, in the rational
    model and in binary64. *)
Lemma entry_eligibility_witness :
  enter_signal quarter_kelly default_config 0 (reset default_config) unlisted_signal
  = reset default_config /\
  (exists p : Position,
    _enter_position quarter_kelly default_config 50000 scenario_signal 0 = Some p /\
    pos_cost_basis p = notional quarter_kelly default_config 50000 scenario_signal /\
    100 <= pos_cost_basis p) /\
  PrimFloat.ltb (Binary64.pos_cost_basis Binary64Inputs.opened_position)
    Binary64Inputs.floor = false.
Proof.
  split; [|split].
  - apply (proj1 (entry_eligibility quarter_kelly default_config)).
    left. exists 0. split; [reflexivity | vm_compute; reflexivity].
  - eexists. split; [vm_compute; reflexivity|].
    apply (proj1 (proj2 (entry_eligibility quarter_kelly default_config))
             50000 scenario_signal 0%Z).
    vm_compute. reflexivity.
  - apply (proj2 (proj2 (proj2 (entry_eligibility quarter_kelly default_config)))
             Binary64.default_config Binary64Inputs.fifty_thousand
             Binary64Inputs.near_certain_signal 0%Z).
    vm_compute. reflexivity.
Defined.

(** The scenario's signal, with the fair value [0.6], is sized [0] over
    the rationals and in binary64: it opens nothing, and the scenario's
    run closes no trade and keeps the starting capital. *)
Lemma zero_kelly_means_no_trade_witness :
  _enter_position _calculate_kelly default_config 50000 scenario_signal 0 = None /\
  Binary64._enter_position Binary64.default_config Binary64Inputs.fifty_thousand
    Binary64Inputs.even_signal 0 = None /\
  trades (simulate _calculate_kelly default_config scenario_market [scenario_signal]
            None None) = [] /\
  capital (simulate _calculate_kelly default_config scenario_market [scenario_signal]
             None None) = starting_capital default_config.
Proof.
  destruct zero_kelly_means_no_trade as (_ & _ & _ & Hnone & Hnone64 & Hrun).
  split; [|split].
  - apply (Hnone _calculate_kelly default_config 50000 scenario_signal 0%Z).
    vm_compute. reflexivity.
  - apply Hnone64; vm_compute; reflexivity.
  - destruct (Hrun sqrt_approx pow_trunc days_apart _calculate_kelly default_config
                scenario_market [scenario_signal] None None)
      as (_ & Ht & _ & Hc).
    + repeat constructor.
    + split; assumption.
Defined.

(** An "invalid" resolution refers to the entry price the position holds. *)
Lemma close_reference_prices_witness :
  exit_reference no_position "invalid" = pos_entry_price no_position.
Proof.
  apply (proj1 (proj2 (close_reference_prices quarter_kelly default_config))).
  - discriminate.
  - discriminate.
Defined.

(** The "no" position is worth [100 × 0.7 − 40], the yes mark. *)
Lemma unrealized_marks_to_yes_price_witness :
  _calculate_unrealized_pnl no_position [quoted_row] 0
  = pos_quantity no_position * mkt_yes_price quoted_row - pos_cost_basis no_position.
Proof.
  apply (proj1 unrealized_marks_to_yes_price). reflexivity.
Defined.

(** ** Further properties of the engine *)

Section Further.

Import PyFacts.

Lemma worth_values (values : list Q) :
  map snap_portfolio_value (map snapshot_worth values) = values.
Proof.
  induction values as [|v values IH]; simpl; [reflexivity|].
  rewrite IH. reflexivity.
Qed.

Lemma drawdown_flat_step (peak v : Q) :
  0 < peak -> peak <= v ->
  exists peak' : Q, drawdown_step (peak, 0) v = (peak', 0) /\ peak' == v.
Proof.
  intros Hpos Hle. unfold drawdown_step.
  case_ltb peak v.
  - exists v. split; [|reflexivity].
    assert (E : (v - v) / v == 0) by (field; lra).
    case_ltb 0 ((v - v) / v); [lra | reflexivity].
  - exists peak. split; [|lra].
    assert (E : (peak - v) / peak == 0).
    { assert (E' : peak - v == 0) by lra. rewrite E'. field. lra. }
    case_ltb 0 ((peak - v) / peak); [lra | reflexivity].
Qed.

Lemma drawdown_flat_fold (values : list Q) (prev peak : Q) :
  0 < prev -> peak == prev -> nondecreasing prev values ->
  snd (fold_left drawdown_step values (peak, 0)) = 0.
Proof.
  revert prev peak. induction values as [|v values IH]; intros prev peak Hpos Hpk Hnd.
  - reflexivity.
  - destruct Hnd as [Hle Hnd].
    change (fold_left drawdown_step (v :: values) (peak, 0))
      with (fold_left drawdown_step values (drawdown_step (peak, 0) v)).
    destruct (drawdown_flat_step peak v) as (peak' & -> & Hpk'); [lra | lra |].
    apply (IH v peak'); [lra | exact Hpk' | exact Hnd].
Qed.

Lemma dict_set_twice {V : Type} (k : string) (v v' : V) (d : list (string * V)) :
  Dict.set k v' (Dict.set k v d) = Dict.set k v' d.
Proof.
  induction d as [|[k0 v0] d IH]; simpl.
  - rewrite String.eqb_refl. reflexivity.
  - destruct (String.eqb k0 k) eqn:E; simpl.
    + rewrite String.eqb_refl. reflexivity.
    + rewrite E, IH. reflexivity.
Qed.

Lemma dict_set_keys {V : Type} (k : string) (v v' : V) (d : list (string * V)) :
  map fst (Dict.set k v' (Dict.set k v d)) = map fst (Dict.set k v d).
Proof.
  induction d as [|[k0 v0] d IH]; simpl.
  - rewrite String.eqb_refl. reflexivity.
  - destruct (String.eqb k0 k) eqn:E; simpl.
    + rewrite String.eqb_refl. reflexivity.
    + rewrite E. simpl. rewrite IH. reflexivity.
Qed.

End Further.

(** X1.  Maximum drawdown: the series 100, 80, 120, 60 yields
    [(120 − 60) / 120 = 0.5], and a positive series that never falls
    yields [0]. *)
Theorem max_drawdown_examples (v : Q) (values : list Q) :
  0 < v -> nondecreasing v values ->
  _calculate_max_drawdown (map snapshot_worth [100; 80; 120; 60]) == 0.5 /\
  _calculate_max_drawdown (map snapshot_worth (v :: values)) = 0.
Proof.
  intros Hpos Hnd. split; [vm_compute; reflexivity|].
  unfold _calculate_max_drawdown. rewrite worth_values. cbv beta iota.
  change (fold_left drawdown_step (v :: values) (v, 0))
    with (fold_left drawdown_step values (drawdown_step (v, 0) v)).
  destruct (drawdown_flat_step v v) as (peak' & -> & Hpk'); [lra | lra |].
  apply (drawdown_flat_fold values v peak'); [exact Hpos | exact Hpk' | exact Hnd].
Qed.

Lemma max_drawdown_examples_witness :
  _calculate_max_drawdown (map snapshot_worth [100; 80; 120; 60]) == 0.5 /\
  _calculate_max_drawdown (map snapshot_worth [100; 100; 120; 150]) = 0.
Proof.
  apply (max_drawdown_examples 100 [100; 120; 150]).
  - reflexivity.
  - simpl. repeat split; discriminate.
Defined.

(** X2.  A position that [_enter_position] opens is filled at
    [entry_price + entry_price × slippage_pct], records that slippage,
    holds [quantity = cost_basis / entry_price], and takes its market and
    side from the signal. *)
Theorem opened_position_shape (kelly_rule : Q -> Q -> Q) (config : BacktestConfig)
    (c : Q) (signal : Signal) (t : Z) (p : Position) :
  _enter_position kelly_rule config c signal t = Some p ->
  pos_entry_price p
    = sig_entry_price signal + sig_entry_price signal * slippage_pct config /\
  pos_slippage p = sig_entry_price signal * slippage_pct config /\
  pos_quantity p = pos_cost_basis p / pos_entry_price p /\
  pos_market_id p = sig_market_id signal /\
  pos_position p = sig_signal_type signal.
Proof.
  intros E.
  destruct (enter_position_opened kelly_rule config c signal t p E)
    as (_ & _ & H1 & H2 & H3 & H4 & H5).
  auto.
Qed.

Lemma opened_position_shape_witness :
  exists p : Position,
    _enter_position quarter_kelly default_config 50000 scenario_signal 0 = Some p /\
    pos_quantity p = pos_cost_basis p / pos_entry_price p.
Proof.
  eexists. split; [vm_compute; reflexivity|].
  apply (opened_position_shape quarter_kelly default_config 50000 scenario_signal 0%Z).
  vm_compute. reflexivity.
Defined.

(** X3.  A run in which every signal is turned away, because
    [_can_enter_trade] refuses it or because its notional at the
    starting capital is below 100, reports no trades and an empty
    metrics dict, and each of its snapshots shows the starting capital
    and no open position. *)
Theorem run_without_entries_is_flat
    (sqrtQ : Q -> Q) (powQ : Q -> Q -> Q) (elapsed_days : Z -> Z -> Z)
    (kelly_rule : Q -> Q -> Q)
    (config : BacktestConfig) (hist : list MarketRow) (sigs : list Signal)
    (start_date end_date : option Z) :
  Forall (turned_away kelly_rule config) sigs ->
  let result :=
    run_backtest_with sqrtQ powQ elapsed_days kelly_rule config hist sigs
      start_date end_date in
  res_trades result = [] /\
  res_metrics result = ∅ /\
  Forall (fun s => snap_capital s = starting_capital config /\
                   snap_open_positions s = 0%nat)
         (res_portfolio_history result).
Proof.
  intros Haway result.
  destruct (simulate_idle kelly_rule config hist sigs start_date end_date Haway)
    as (Ht & Ho & Hc).
  split; [exact Ht|]. split.
  - unfold result, run_backtest_with. simpl.
    unfold _calculate_metrics. rewrite Ht. reflexivity.
  - unfold result, run_backtest_with. simpl.
    unfold simulate. apply steps_idle_history.
    + apply Forall_filter_dates. exact Haway.
    + unfold idle, reset. simpl. auto.
    + constructor.
Qed.

(** Under the quarter rule the scenario's signal would open a position;
    without a liquidity column it is turned away and the run is flat. *)
Lemma run_without_entries_is_flat_witness :
  Forall (turned_away quarter_kelly default_config) [unlisted_signal] /\
  res_trades (run_backtest_with sqrt_approx pow_trunc days_apart quarter_kelly
                default_config scenario_market [unlisted_signal] None None) = [] /\
  res_metrics (run_backtest_with sqrt_approx pow_trunc days_apart quarter_kelly
                 default_config scenario_market [unlisted_signal] None None) = ∅.
Proof.
  assert (H : Forall (turned_away quarter_kelly default_config) [unlisted_signal]).
  { constructor; [|constructor]. left. vm_compute. reflexivity. }
  split; [exact H|].
  destruct (run_without_entries_is_flat sqrt_approx pow_trunc days_apart
              quarter_kelly default_config scenario_market [unlisted_signal]
              None None H) as (Ht & Hm & _).
  split; assumption.
Defined.

(** A second assignment to a market that is already in
    [open_positions] replaces the earlier position and keeps the order
    of the keys. *)
Lemma reentry_overwrites (k : string) (p p' : Position)
    (d : list (string * Position)) :
  Dict.set k p' (Dict.set k p d) = Dict.set k p' d /\
  map fst (Dict.set k p' (Dict.set k p d)) = map fst (Dict.set k p d).
Proof. split; [apply dict_set_twice | apply dict_set_keys]. Qed.

(** ** Sizing bounds and settlement *)

Section Settlement.

Import PyFacts.

Variable kelly_rule : Q -> Q -> Q.
Variable config : BacktestConfig.

Lemma on_side_close (side : string) (c : Q) (p : Position) (resolution : string) (t : Z) :
  pnl (fst (_close_position config c (on_side side p) resolution t))
  = pnl (fst (_close_position config c p resolution t)) /\
  exit_price (fst (_close_position config c (on_side side p) resolution t))
  = exit_price (fst (_close_position config c p resolution t)) /\
  snd (_close_position config c (on_side side p) resolution t)
  = snd (_close_position config c p resolution t).
Proof. repeat split. Qed.

Lemma close_no_loses_stake (c : Q) (p : Position) (t : Z) :
  exit_price (fst (_close_position config c p "no" t)) = 0 /\
  pnl (fst (_close_position config c p "no" t))
  == - pos_cost_basis p - gas_cost_per_trade config.
Proof.
  assert (E : Py.max 0 (0 - 0 * slippage_pct config) = 0).
  { unfold Py.max. case_ltb 0 (0 - 0 * slippage_pct config); [|reflexivity].
    exfalso. lra. }
  change (exit_price (fst (_close_position config c p "no" t)))
    with (Py.max 0 (0 - 0 * slippage_pct config)).
  change (pnl (fst (_close_position config c p "no" t)))
    with (pos_quantity p * Py.max 0 (0 - 0 * slippage_pct config)
          - pos_cost_basis p - gas_cost_per_trade config).
  rewrite E. split; [reflexivity | ring].
Qed.

Lemma close_other_exit (c : Q) (p : Position) (resolution : string) (t : Z) :
  resolution <> "yes" -> resolution <> "no" ->
  0 <= pos_entry_price p -> slippage_pct config <= 1 ->
  exit_price (fst (_close_position config c p resolution t))
  == pos_entry_price p * (1 - slippage_pct config).
Proof.
  intros Hy Hn Hpos Hs.
  rewrite close_position_exit_price, exit_reference_other by assumption.
  rewrite Q.max_r; [ring|].
  assert (H : 0 <= pos_entry_price p * (1 - slippage_pct config)).
  { apply Qmult_le_0_compat; lra. }
  lra.
Qed.

End Settlement.

(** X6.  A position that [_enter_position] opens never commits more
    than the Kelly notional [capital × kelly × kelly_fraction] nor more
    than [max_position_size_pct] percent of the capital. *)
Theorem position_size_is_capped (kelly_rule : Q -> Q -> Q) (config : BacktestConfig)
    (c : Q) (signal : Signal) (t : Z) (p : Position) :
  _enter_position kelly_rule config c signal t = Some p ->
  pos_cost_basis p
    <= c * kelly_rule (sig_edge_size signal) (sig_fair_value signal)
         * kelly_fraction config /\
  pos_cost_basis p <= c * (max_position_size_pct config / 100).
Proof.
  intros E.
  destruct (enter_position_opened kelly_rule config c signal t p E) as (-> & _).
  unfold notional. split; [apply PyFacts.min_le_l | apply PyFacts.min_le_r].
Qed.

Lemma position_size_is_capped_witness :
  exists p : Position,
    _enter_position quarter_kelly default_config 50000 scenario_signal 0 = Some p /\
    pos_cost_basis p <= 50000 * (2 / 100).
Proof.
  eexists. split; [vm_compute; reflexivity|].
  apply (position_size_is_capped quarter_kelly default_config 50000
           scenario_signal 0%Z).
  vm_compute. reflexivity.
Defined.

(** X7.  [_close_position] never looks at the side of the position: on
    a "no" resolution the exit price is [0] and the net pnl is
    [−cost_basis − gas_cost_per_trade], for a "no" position as for a
    "yes" one, and on every resolution pnl, exit price and updated
    capital are the same whatever the side. *)
Theorem close_ignores_side (config : BacktestConfig) (side : string) (c : Q)
    (p : Position) (resolution : string) (t : Z) :
  pnl (fst (_close_position config c (on_side side p) resolution t))
  = pnl (fst (_close_position config c p resolution t)) /\
  exit_price (fst (_close_position config c (on_side side p) resolution t))
  = exit_price (fst (_close_position config c p resolution t)) /\
  snd (_close_position config c (on_side side p) resolution t)
  = snd (_close_position config c p resolution t) /\
  exit_price (fst (_close_position config c (on_side "no" p) "no" t)) = 0 /\
  pnl (fst (_close_position config c (on_side "no" p) "no" t))
  == - pos_cost_basis p - gas_cost_per_trade config.
Proof.
  destruct (on_side_close config side c p resolution t) as (H1 & H2 & H3).
  destruct (close_no_loses_stake config c (on_side "no" p) t) as (H4 & H5).
  repeat split; assumption.
Qed.

(** X8.  A position opened by [_enter_position] at a positive price and
    closed on a resolution other than "yes" and "no" does not break
    even: with [0 <= slippage_pct <= 1] its exit price is the fill price
    less slippage and its net pnl is
    [−(cost_basis × slippage_pct) − gas_cost_per_trade]. *)
Theorem void_resolution_costs_slippage_and_gas
    (kelly_rule : Q -> Q -> Q) (config : BacktestConfig)
    (c c' : Q) (signal : Signal) (t t' : Z) (p : Position) (resolution : string) :
  _enter_position kelly_rule config c signal t = Some p ->
  0 < sig_entry_price signal ->
  0 <= slippage_pct config -> slippage_pct config <= 1 ->
  resolution <> "yes" -> resolution <> "no" ->
  exit_price (fst (_close_position config c' p resolution t'))
  == pos_entry_price p * (1 - slippage_pct config) /\
  pnl (fst (_close_position config c' p resolution t'))
  == - (pos_cost_basis p * slippage_pct config) - gas_cost_per_trade config.
Proof.
  intros E Hprice Hs0 Hs1 Hy Hn.
  destruct (enter_position_opened kelly_rule config c signal t p E)
    as (_ & _ & Hentry & _ & Hqty & _).
  assert (Hpos : 0 < pos_entry_price p).
  { rewrite Hentry.
    assert (0 <= sig_entry_price signal * slippage_pct config)
      by (apply Qmult_le_0_compat; lra).
    lra. }
  assert (Hexit := close_other_exit config c' p resolution t' Hy Hn
                     (Qlt_le_weak _ _ Hpos) Hs1).
  split; [exact Hexit|].
  change (pnl (fst (_close_position config c' p resolution t')))
    with (pos_quantity p * exit_price (fst (_close_position config c' p resolution t'))
          - pos_cost_basis p - gas_cost_per_trade config).
  rewrite Hexit, Hqty. field. lra.
Qed.

Lemma void_resolution_costs_slippage_and_gas_witness :
  exists p : Position,
    _enter_position quarter_kelly default_config 50000 scenario_signal 0 = Some p /\
    pnl (fst (_close_position default_config 50000 p "invalid" 1))
    == - (pos_cost_basis p * slippage_pct default_config)
       - gas_cost_per_trade default_config.
Proof.
  eexists. split; [vm_compute; reflexivity|].
  apply (void_resolution_costs_slippage_and_gas quarter_kelly default_config
           50000 50000 scenario_signal 0%Z 1%Z).
  - vm_compute. reflexivity.
  - reflexivity.
  - discriminate.
  - discriminate.
  - discriminate.
  - discriminate.
Defined.

(** ** The open-position dict during a run *)

Section OpenPositions.

Variable kelly_rule : Q -> Q -> Q.
Variable config : BacktestConfig.

Lemma keys_set (k : string) (p : Position) (d : list (string * Position)) :
  keys (Dict.set k p d) = if bool_decide (k ∈ keys d) then keys d else keys d ++ [k].
Proof.
  unfold keys. induction d as [|[k' p'] d IH].
  - rewrite bool_decide_eq_false_2; [reflexivity|]. intros H. inversion H.
  - cbn [Dict.set]. destruct (String.eqb k' k) eqn:E.
    + apply String.eqb_eq in E. subst k'. cbn [map fst].
      rewrite bool_decide_eq_true_2 by (left). reflexivity.
    + apply String.eqb_neq in E. cbn [map fst]. rewrite IH.
      destruct (decide (k ∈ map fst d)) as [H1|H1].
      * rewrite !bool_decide_eq_true_2; [reflexivity | right; exact H1 | exact H1].
      * rewrite !bool_decide_eq_false_2; [reflexivity | | exact H1].
        intros H2. apply elem_of_cons in H2 as [->|H2]; [congruence | contradiction].
Qed.

Lemma keys_set_NoDup (k : string) (p : Position) (d : list (string * Position)) :
  NoDup (keys d) -> NoDup (keys (Dict.set k p d)).
Proof.
  intros H. rewrite keys_set. case_bool_decide as Hk; [exact H|].
  apply NoDup_app. split; [exact H|]. split.
  - intros x Hx Hx'. apply list_elem_of_singleton in Hx'. subst x. contradiction.
  - apply NoDup_singleton.
Qed.

Lemma keys_del_fresh (k : string) (d : list (string * Position)) :
  k ∉ keys d -> Dict.del k d = d.
Proof.
  unfold keys. induction d as [|[k' p'] d IH]; simpl; intros H; [reflexivity|].
  apply not_elem_of_cons in H as [Hne H].
  destruct (String.eqb k' k) eqn:E.
  - apply String.eqb_eq in E. congruence.
  - rewrite IH by exact H. reflexivity.
Qed.

Lemma del_after_prefix (k : string) (p : Position)
    (kept rest : list (string * Position)) :
  k ∉ keys kept -> Dict.del k (kept ++ (k, p) :: rest) = kept ++ rest.
Proof.
  unfold keys. induction kept as [|[k' p'] kept IH]; simpl; intros H.
  - rewrite String.eqb_refl. reflexivity.
  - apply not_elem_of_cons in H as [Hne H].
    destruct (String.eqb k' k) eqn:E.
    + apply String.eqb_eq in E. congruence.
    + rewrite IH by exact H. reflexivity.
Qed.

Lemma keys_del_NoDup (k : string) (d : list (string * Position)) :
  NoDup (keys d) -> NoDup (keys (Dict.del k d)).
Proof.
  unfold keys. induction d as [|[k' p'] d IH]; simpl; intros H; [exact H|].
  apply NoDup_cons in H as [Hk H].
  destruct (String.eqb k' k); [exact H|].
  simpl. apply NoDup_cons. split; [|apply IH; exact H].
  intros Hin. apply Hk. clear - Hin.
  induction d as [|[k'' p''] d IH]; simpl in *; [inversion Hin|].
  destruct (String.eqb k'' k).
  - right. exact Hin.
  - apply elem_of_cons in Hin as [->|Hin]; [left | right; apply IH; exact Hin].
Qed.

Lemma enter_signal_keys (t : Z) (st : State) (signal : Signal) :
  NoDup (keys (open_positions st)) ->
  NoDup (keys (open_positions (enter_signal kelly_rule config t st signal))).
Proof.
  intros H. unfold enter_signal.
  destruct (_can_enter_trade config (capital st) signal); [|exact H].
  destruct (_enter_position kelly_rule config (capital st) signal t); [|exact H].
  simpl. apply keys_set_NoDup. exact H.
Qed.

Lemma entry_phase_keys (sigs : list Signal) (t : Z) (st : State) :
  NoDup (keys (open_positions st)) ->
  NoDup (keys (open_positions (entry_phase kelly_rule config sigs t st))).
Proof.
  unfold entry_phase. destruct (existsb _ sigs); [|auto].
  generalize (signals_at t sigs). intros l. revert st.
  induction l as [|s l IH]; intros st H; simpl; [exact H|].
  apply IH. apply enter_signal_keys. exact H.
Qed.

Lemma update_position_resolved (md : list MarketRow) (t : Z) (st : State)
    (k : string) (p : Position) (resolution : string) :
  resolution_at md k = Some resolution ->
  update_position config md t st (k, p)
  = {| trades := trades st ++ [closing_trade config p resolution t];
       portfolio_value_history := portfolio_value_history st;
       capital := capital st + pnl (closing_trade config p resolution t);
       open_positions := Dict.del k (open_positions st) |}.
Proof.
  unfold resolution_at, update_position.
  destruct (List.filter _ md) as [|row rest]; [discriminate|].
  intros ->. reflexivity.
Qed.

Lemma update_position_unresolved (md : list MarketRow) (t : Z) (st : State)
    (k : string) (p : Position) :
  resolution_at md k = None -> update_position config md t st (k, p) = st.
Proof.
  unfold resolution_at, update_position.
  destruct (List.filter _ md) as [|row rest]; [reflexivity|].
  intros ->. reflexivity.
Qed.

(** The update loop over the remaining items, with the items already
    visited and kept in front of them. *)
Lemma update_fold_settles (md : list MarketRow) (t : Z)
    (items kept : list (string * Position)) (st : State) :
  open_positions st = kept ++ items ->
  NoDup (keys (kept ++ items)) ->
  open_positions (fold_left (update_position config md t) items st)
  = kept ++ unsettled md items /\
  trades (fold_left (update_position config md t) items st)
  = trades st ++ settlements config md t items.
Proof.
  revert kept st. induction items as [|[k p] items IH]; intros kept st Hopen Hnd.
  - simpl. rewrite app_nil_r in *. rewrite app_nil_r. auto.
  - cbn [fold_left]. unfold unsettled, settlements.
    cbn [List.filter flat_map fst snd].
    fold (unsettled md items). fold (settlements config md t items).
    destruct (resolution_at md k) as [resolution|] eqn:Hres.
    + rewrite (update_position_resolved md t st k p resolution Hres).
      assert (Hk : k ∉ keys kept).
      { unfold keys in *. rewrite map_app in Hnd. apply NoDup_app in Hnd as (_ & Hd & _).
        intros Hin. apply (Hd k Hin). simpl. left. }
      destruct (IH kept
                  {| trades := trades st ++ [closing_trade config p resolution t];
                     portfolio_value_history := portfolio_value_history st;
                     capital := capital st + pnl (closing_trade config p resolution t);
                     open_positions := Dict.del k (open_positions st) |})
        as (Ho & Ht).
      * simpl. rewrite Hopen. apply del_after_prefix. exact Hk.
      * unfold keys in *. rewrite map_app in *. simpl in Hnd.
        apply NoDup_app in Hnd as (H1 & H2 & H3).
        apply NoDup_cons in H3 as [_ H3].
        apply NoDup_app. split; [exact H1|]. split; [|exact H3].
        intros x Hx Hx'. apply (H2 x Hx). right. exact Hx'.
      * split; [exact Ho|]. rewrite Ht. simpl. rewrite <- app_assoc. reflexivity.
    + rewrite (update_position_unresolved md t st k p Hres).
      destruct (IH (kept ++ [(k, p)]) st) as (Ho & Ht).
      * rewrite Hopen, <- app_assoc. reflexivity.
      * rewrite <- app_assoc. exact Hnd.
      * split; [|exact Ht]. rewrite Ho, <- app_assoc. reflexivity.
Qed.

Lemma unsettled_keys_NoDup (md : list MarketRow) (d : list (string * Position)) :
  NoDup (keys d) -> NoDup (keys (unsettled md d)).
Proof.
  unfold keys, unsettled. induction d as [|[k p] d IH]; simpl; intros H; [exact H|].
  apply NoDup_cons in H as [Hk H].
  destruct (resolution_at md k); [apply IH; exact H|].
  simpl. apply NoDup_cons. split; [|apply IH; exact H].
  intros Hin. apply Hk.
  apply list_elem_of_fmap in Hin as (kv & -> & Hkv).
  apply list_elem_of_fmap. exists kv. split; [reflexivity|].
  apply list_elem_of_In. apply list_elem_of_In, filter_In in Hkv. tauto.
Qed.

Lemma update_phase_settles (hist : list MarketRow) (t : Z) (st : State) :
  NoDup (keys (open_positions st)) ->
  open_positions (update_phase config hist t st)
  = unsettled (rows_at t hist) (open_positions st) /\
  trades (update_phase config hist t st)
  = trades st ++ settlements config (rows_at t hist) t (open_positions st).
Proof.
  intros H. unfold update_phase.
  apply (update_fold_settles (rows_at t hist) t (open_positions st) [] st);
    [reflexivity | exact H].
Qed.

Lemma step_keys (hist : list MarketRow) (sigs : list Signal) (st : State) (t : Z) :
  NoDup (keys (open_positions st)) ->
  NoDup (keys (open_positions (step kelly_rule config hist sigs st t))).
Proof.
  intros H. unfold step, record_snapshot. simpl.
  pose proof (entry_phase_keys sigs t st H) as H'.
  destruct (update_phase_settles hist t _ H') as (-> & _).
  apply unsettled_keys_NoDup. exact H'.
Qed.

Lemma steps_keys (hist : list MarketRow) (sigs : list Signal) (ts : list Z)
    (st : State) :
  NoDup (keys (open_positions st)) ->
  NoDup (keys (open_positions (fold_left (step kelly_rule config hist sigs) ts st))).
Proof.
  revert st. induction ts as [|t ts IH]; intros st H; simpl; [exact H|].
  apply IH. apply step_keys. exact H.
Qed.

End OpenPositions.

(** X9.  At every point of a run, under any sizing rule, no two open
    positions share a market: the keys of [open_positions] are distinct
    after any number of iterations of the main loop. *)
Theorem one_open_position_per_market
    (kelly_rule : Q -> Q -> Q) (config : BacktestConfig)
    (hist : list MarketRow) (sigs : list Signal) (ts : list Z) :
  NoDup (keys (open_positions
                 (fold_left (step kelly_rule config hist sigs) ts (reset config)))).
Proof. apply steps_keys. constructor. Qed.

(** X10.  The update phase of a timestamp settles exactly the open
    positions whose market has a row at that timestamp carrying a
    resolution (the first such row decides): their trades are appended
    in dict order, they leave [open_positions], and every other position
    stays open, in its place. *)
Theorem update_phase_closes_resolved_markets
    (config : BacktestConfig) (hist : list MarketRow) (t : Z) (st : State) :
  NoDup (keys (open_positions st)) ->
  open_positions (update_phase config hist t st)
  = unsettled (rows_at t hist) (open_positions st) /\
  trades (update_phase config hist t st)
  = trades st ++ settlements config (rows_at t hist) t (open_positions st) /\
  (forall (k : string) (p : Position),
      (k, p) ∈ open_positions (update_phase config hist t st) ->
      resolution_at (rows_at t hist) k = None).
Proof.
  intros H. destruct (update_phase_settles config hist t st H) as (Ho & Ht).
  split; [exact Ho|]. split; [exact Ht|].
  intros k p Hin. rewrite Ho in Hin. unfold unsettled in Hin.
  apply list_elem_of_In, filter_In in Hin. destruct Hin as [_ Hin]. simpl in Hin.
  destruct (resolution_at (rows_at t hist) k); [discriminate | reflexivity].
Qed.

Lemma update_phase_closes_resolved_markets_witness :
  open_positions
    (update_phase default_config scenario_market 1
       {| trades := []; portfolio_value_history := []; capital := 50000;
          open_positions := [("m1", no_position)] |}) = [].
Proof.
  apply (proj1 (update_phase_closes_resolved_markets default_config scenario_market
                  1%Z {| trades := []; portfolio_value_history := [];
                         capital := 50000;
                         open_positions := [("m1", no_position)] |}
                  ltac:(repeat constructor; intros H; inversion H))).
Defined.

(** ** Records are appended, in time order *)

Section Times.

Variable kelly_rule : Q -> Q -> Q.
Variable config : BacktestConfig.
Variable hist : list MarketRow.
Variable sigs : list Signal.

Lemma dict_set_Forall (P : string * Position -> Prop) (k : string) (p : Position)
    (d : list (string * Position)) :
  P (k, p) -> Forall P d -> Forall P (Dict.set k p d).
Proof.
  intros Hp Hd. induction Hd as [|[k' p'] d Hx Hd IH]; simpl.
  - constructor; [exact Hp | constructor].
  - destruct (String.eqb k' k); constructor; assumption.
Qed.

Lemma dict_del_Forall (P : string * Position -> Prop) (k : string)
    (d : list (string * Position)) :
  Forall P d -> Forall P (Dict.del k d).
Proof.
  intros Hd. induction Hd as [|[k' p'] d Hx Hd IH]; simpl.
  - constructor.
  - destruct (String.eqb k' k); [exact Hd | constructor; assumption].
Qed.

Lemma update_position_trades_grow (md : list MarketRow) (t : Z) (st : State)
    (item : string * Position) :
  exists new : list Trade,
    trades (update_position config md t st item) = trades st ++ new.
Proof.
  destruct (update_position_cases config md t st item) as [->|(tr & Ht & _)].
  - exists []. rewrite app_nil_r. reflexivity.
  - exists [tr]. exact Ht.
Qed.

Lemma update_fold_trades_grow (md : list MarketRow) (t : Z)
    (items : list (string * Position)) (st : State) :
  exists new : list Trade,
    trades (fold_left (update_position config md t) items st) = trades st ++ new.
Proof.
  revert st. induction items as [|item items IH]; intros st; simpl.
  - exists []. rewrite app_nil_r. reflexivity.
  - destruct (IH (update_position config md t st item)) as (new & ->).
    destruct (update_position_trades_grow md t st item) as (new' & ->).
    exists (new' ++ new). rewrite app_assoc. reflexivity.
Qed.

Lemma step_trades_grow (st : State) (t : Z) :
  exists new : list Trade,
    trades (step kelly_rule config hist sigs st t) = trades st ++ new.
Proof.
  unfold step, record_snapshot, update_phase. simpl.
  destruct (update_fold_trades_grow (rows_at t hist) t
              (open_positions (entry_phase kelly_rule config sigs t st))
              (entry_phase kelly_rule config sigs t st)) as (new & ->).
  destruct (entry_phase_cash kelly_rule config sigs t st) as (_ & -> & _).
  exists new. reflexivity.
Qed.

Lemma steps_trades_grow (ts : list Z) (st : State) :
  exists new : list Trade,
    trades (fold_left (step kelly_rule config hist sigs) ts st) = trades st ++ new.
Proof.
  revert st. induction ts as [|t ts IH]; intros st; simpl.
  - exists []. rewrite app_nil_r. reflexivity.
  - destruct (IH (step kelly_rule config hist sigs st t)) as (new & ->).
    destruct (step_trades_grow st t) as (new' & ->).
    exists (new' ++ new). rewrite app_assoc. reflexivity.
Qed.

Lemma entered_by_later (visited : list Z) (b t : Z) (d : list (string * Position)) :
  (b <= t)%Z -> Forall (entered_by visited b) d -> Forall (entered_by visited t) d.
Proof.
  intros Hbt H. eapply Forall_impl; [exact H|].
  intros kv [H1 H2]. split; [lia | exact H2].
Qed.

Lemma enter_signal_entered (visited : list Z) (t : Z) (st : State) (signal : Signal) :
  t ∈ visited ->
  Forall (entered_by visited t) (open_positions st) ->
  Forall (entered_by visited t)
         (open_positions (enter_signal kelly_rule config t st signal)) /\
  trades (enter_signal kelly_rule config t st signal) = trades st.
Proof.
  intros Ht H. unfold enter_signal.
  destruct (_can_enter_trade config (capital st) signal); [|auto].
  destruct (_enter_position kelly_rule config (capital st) signal t) as [p|] eqn:E;
    [|auto].
  simpl. split; [|reflexivity].
  apply dict_set_Forall; [|exact H].
  unfold _enter_position in E. cbv zeta in E.
  destruct (Py.ltb _ 100); [discriminate|]. injection E as <-.
  split; simpl; [lia | exact Ht].
Qed.

Lemma entry_phase_entered (visited : list Z) (t : Z) (st : State) :
  t ∈ visited ->
  Forall (entered_by visited t) (open_positions st) ->
  Forall (entered_by visited t)
         (open_positions (entry_phase kelly_rule config sigs t st)).
Proof.
  intros Ht. unfold entry_phase. destruct (existsb _ sigs); [|auto].
  generalize (signals_at t sigs). intros l. revert st.
  induction l as [|s l IH]; intros st H; simpl; [exact H|].
  apply IH. apply (enter_signal_entered visited t st s Ht H).
Qed.

Lemma update_position_timed (visited : list Z) (md : list MarketRow) (t : Z)
    (st : State) (item : string * Position) :
  t ∈ visited -> entered_by visited t item ->
  Forall (entered_by visited t) (open_positions st) ->
  Forall (well_timed visited) (trades st) ->
  Forall (entered_by visited t)
         (open_positions (update_position config md t st item)) /\
  Forall (well_timed visited) (trades (update_position config md t st item)).
Proof.
  intros Ht [Hle Hin] Hopen Htr. destruct item as [k p]. unfold update_position.
  destruct (List.filter _ md) as [|row rest]; [auto|].
  destruct (mkt_resolution row) as [resolution|]; [|auto].
  simpl. split; [apply dict_del_Forall; exact Hopen|].
  apply Forall_app. split; [exact Htr|].
  constructor; [|constructor]. repeat split; simpl; assumption.
Qed.

Lemma update_fold_timed (visited : list Z) (md : list MarketRow) (t : Z)
    (items : list (string * Position)) (st : State) :
  t ∈ visited -> Forall (entered_by visited t) items ->
  Forall (entered_by visited t) (open_positions st) ->
  Forall (well_timed visited) (trades st) ->
  Forall (entered_by visited t)
         (open_positions (fold_left (update_position config md t) items st)) /\
  Forall (well_timed visited)
         (trades (fold_left (update_position config md t) items st)).
Proof.
  intros Ht Hitems. revert st.
  induction Hitems as [|item items Hitem Hitems IH]; intros st Hopen Htr; simpl;
    [auto|].
  destruct (update_position_timed visited md t st item Ht Hitem Hopen Htr) as (H1 & H2).
  apply IH; assumption.
Qed.

Lemma step_timed (visited : list Z) (b t : Z) (st : State) :
  t ∈ visited -> (b <= t)%Z ->
  Forall (entered_by visited b) (open_positions st) ->
  Forall (well_timed visited) (trades st) ->
  Forall (entered_by visited t)
         (open_positions (step kelly_rule config hist sigs st t)) /\
  Forall (well_timed visited) (trades (step kelly_rule config hist sigs st t)).
Proof.
  intros Ht Hbt Hopen Htr.
  pose proof (entry_phase_entered visited t st Ht
                (entered_by_later visited b t _ Hbt Hopen)) as Hopen'.
  unfold step, record_snapshot, update_phase. simpl.
  apply update_fold_timed; try assumption.
  destruct (entry_phase_cash kelly_rule config sigs t st) as (_ & -> & _).
  exact Htr.
Qed.

Lemma steps_timed (visited ts : list Z) (b : Z) (st : State) :
  StronglySorted Z.lt ts -> Forall (fun t => (b <= t)%Z /\ t ∈ visited) ts ->
  Forall (entered_by visited b) (open_positions st) ->
  Forall (well_timed visited) (trades st) ->
  Forall (well_timed visited)
         (trades (fold_left (step kelly_rule config hist sigs) ts st)).
Proof.
  intros Hsorted. revert b st.
  induction Hsorted as [|t ts Hs IH Hall]; intros b st Hts Hopen Htr; simpl;
    [exact Htr|].
  apply Forall_cons in Hts as [[Hbt Ht] Hts].
  destruct (step_timed visited b t st Ht Hbt Hopen Htr) as (H1 & H2).
  apply (IH t); [|exact H1 | exact H2].
  rewrite Forall_forall in *. intros x Hx.
  split; [specialize (Hall x Hx); lia | apply (Hts x Hx)].
Qed.

End Times.

(** X11.  The main loop only appends: from any engine state, after any
    number of iterations the trade list and the snapshot list each
    start with what they held before, and one snapshot was added per
    iteration. *)
Theorem records_are_append_only
    (kelly_rule : Q -> Q -> Q) (config : BacktestConfig)
    (hist : list MarketRow) (sigs : list Signal) (ts : list Z) (st : State) :
  exists (new_trades : list Trade) (new_snapshots : list Snapshot),
    trades (fold_left (step kelly_rule config hist sigs) ts st)
    = trades st ++ new_trades /\
    portfolio_value_history (fold_left (step kelly_rule config hist sigs) ts st)
    = portfolio_value_history st ++ new_snapshots /\
    length new_snapshots = length ts.
Proof.
  destruct (steps_trades_grow kelly_rule config hist sigs ts st) as (new & Hnew).
  exists new, (snapshots_from kelly_rule config hist sigs ts st).
  split; [exact Hnew|]. split; [apply steps_history|].
  rewrite <- (length_map snap_timestamp), snapshots_from_timestamps. reflexivity.
Qed.

Lemma simulate_well_timed
    (kelly_rule : Q -> Q -> Q) (config : BacktestConfig)
    (hist : list MarketRow) (sigs : list Signal) (start_date end_date : option Z) :
  Forall (well_timed (timeline (filter_dates mkt_timestamp start_date end_date hist)))
         (trades (simulate kelly_rule config hist sigs start_date end_date)).
Proof.
  unfold simulate.
  set (table := filter_dates mkt_timestamp start_date end_date hist).
  destruct (timeline table) as [|t0 ts] eqn:E; [constructor|].
  apply (steps_timed kelly_rule config _ _ (t0 :: ts) (t0 :: ts) t0).
  - rewrite <- E. apply timeline_ascending.
  - pose proof (timeline_ascending table) as Hs. rewrite E in Hs.
    apply StronglySorted_inv in Hs as [_ Hs].
    constructor; [split; [lia | left]|].
    rewrite Forall_forall in *. intros x Hx. split; [specialize (Hs x Hx); lia|].
    right. exact Hx.
  - constructor.
  - constructor.
Qed.

Lemma simulate_timestamps
    (kelly_rule : Q -> Q -> Q) (config : BacktestConfig)
    (hist : list MarketRow) (sigs : list Signal) (start_date end_date : option Z) :
  map snap_timestamp
    (portfolio_value_history
       (simulate kelly_rule config hist sigs start_date end_date))
  = timeline (filter_dates mkt_timestamp start_date end_date hist).
Proof.
  unfold simulate. rewrite steps_history. apply snapshots_from_timestamps.
Qed.

(** X12.  In every run, under any sizing rule, each trade enters and
    exits at timestamps of the market table the loop reads, and never
    exits before it enters (it may exit in the very iteration in which
    it was opened). *)
Theorem trades_are_well_timed
    (kelly_rule : Q -> Q -> Q) (config : BacktestConfig)
    (hist : list MarketRow) (sigs : list Signal) (start_date end_date : option Z) :
  Forall (well_timed (timeline (filter_dates mkt_timestamp start_date end_date hist)))
         (trades (simulate kelly_rule config hist sigs start_date end_date)).
Proof. apply simulate_well_timed. Qed.

(** ** The date range *)

Section Dates.

Lemma filter_dates_spec {A : Type} (ts : A -> Z) (start_date end_date : option Z)
    (df : list A) (r : A) :
  r ∈ filter_dates ts start_date end_date df <->
  r ∈ df /\ within_dates start_date end_date (ts r).
Proof.
  unfold filter_dates, within_dates.
  destruct start_date as [s|], end_date as [e|];
    rewrite ?list_elem_of_In, ?filter_In, ?Z.leb_le.
  - split.
    + intros [[H1 H2] H3]. split; [exact H1|].
      split; intros x [= <-]; assumption.
    + intros [H1 [H2 H3]]. repeat split; auto.
  - split.
    + intros [H1 H2]. split; [exact H1|].
      split; [intros x [= <-]; assumption | intros x [=]].
    + intros [H1 [H2 _]]. split; auto.
  - split.
    + intros [H1 H2]. split; [exact H1|].
      split; [intros x [=] | intros x [= <-]; assumption].
    + intros [H1 [_ H3]]. split; auto.
  - split; [|tauto]. intros H. split; [exact H|].
    split; intros x [=].
Qed.

Lemma timeline_within (hist : list MarketRow) (start_date end_date : option Z) (t : Z) :
  t ∈ timeline (filter_dates mkt_timestamp start_date end_date hist) <->
  within_dates start_date end_date t /\
  exists r : MarketRow, r ∈ hist /\ mkt_timestamp r = t.
Proof.
  rewrite elem_of_timeline. split.
  - intros (r & Hr & <-). apply filter_dates_spec in Hr as [H1 H2].
    split; [exact H2 | exists r; auto].
  - intros (Hw & r & Hr & <-). exists r. split; [|reflexivity].
    apply filter_dates_spec. auto.
Qed.

End Dates.

(** X13.  With date bounds, a run leaves a snapshot exactly at the
    timestamps of the market table that lie inside the inclusive
    bounds, and every trade enters and exits inside them; a bound that
    is absent excludes nothing. *)
Theorem date_bounds_are_respected
    (kelly_rule : Q -> Q -> Q) (config : BacktestConfig)
    (hist : list MarketRow) (sigs : list Signal) (start_date end_date : option Z) :
  (forall t : Z,
      t ∈ map snap_timestamp
            (portfolio_value_history
               (simulate kelly_rule config hist sigs start_date end_date)) <->
      within_dates start_date end_date t /\
      exists r : MarketRow, r ∈ hist /\ mkt_timestamp r = t) /\
  Forall (fun tr => within_dates start_date end_date (entry_time tr) /\
                    within_dates start_date end_date (exit_time tr))
         (trades (simulate kelly_rule config hist sigs start_date end_date)).
Proof.
  split.
  - intros t. rewrite simulate_timestamps. apply timeline_within.
  - eapply Forall_impl;
      [apply (simulate_well_timed kelly_rule config hist sigs start_date end_date)|].
    intros tr (_ & H1 & H2).
    apply timeline_within in H1 as [H1 _]. apply timeline_within in H2 as [H2 _].
    auto.
Qed.

(** ** Sums of mapped lists *)

Section Shift.

Import PyFacts.

Lemma sum_map_Qeq {A : Type} (f g : A -> Q) (xs : list A) :
  Forall (fun x => f x == g x) xs -> Py.sum (map f xs) == Py.sum (map g xs).
Proof.
  induction 1 as [|x xs Hx _ IH]; simpl; [reflexivity|].
  rewrite !sum_cons, IH, Hx. reflexivity.
Qed.

Lemma len_map {A B : Type} (f : A -> B) (xs : list A) : len (map f xs) = len xs.
Proof. unfold len. rewrite length_map. reflexivity. Qed.

End Shift.

(** ** Maximum drawdown *)

Section Drawdown.

Import PyFacts.

Lemma decline_mono (a b v : Q) :
  0 < a -> a <= b -> 0 <= v -> (a - v) / a <= (b - v) / b.
Proof.
  intros Ha Hab Hv.
  assert (E : (b - v) / b - (a - v) / a == (v * (b - a)) * / (a * b))
    by (field; lra).
  assert (H : 0 <= (v * (b - a)) * / (a * b)).
  { apply Qmult_le_0_compat.
    - apply Qmult_le_0_compat; lra.
    - apply Qinv_le_0_compat. apply Qmult_le_0_compat; lra. }
  lra.
Qed.

Lemma decline_lt_1 (a v : Q) : 0 < a -> 0 < v -> (a - v) / a < 1.
Proof. intros Ha Hv. apply Qlt_shift_div_r; lra. Qed.

Lemma decline_nonneg (a v : Q) : 0 < a -> v <= a -> 0 <= (a - v) / a.
Proof. intros Ha Hv. apply Qle_shift_div_l; lra. Qed.

Lemma drawdown_step_spec (P D v : Q) :
  0 < P -> 0 < v ->
  exists P1 D1 : Q,
    drawdown_step (P, D) v = (P1, D1) /\
    0 < P1 /\ P <= P1 /\ v <= P1 /\
    D <= D1 /\ (P1 - v) / P1 <= D1 /\
    (D < 1 -> D1 < 1).
Proof.
  intros HP Hv. unfold drawdown_step.
  case_ltb P v.
  - case_ltb D ((v - v) / v).
    + eexists _, _. split; [reflexivity|].
      repeat split; try lra. intros _. apply decline_lt_1; lra.
    + eexists _, _. split; [reflexivity|]. repeat split; lra.
  - case_ltb D ((P - v) / P).
    + eexists _, _. split; [reflexivity|].
      repeat split; try lra. intros _. apply decline_lt_1; lra.
    + eexists _, _. split; [reflexivity|]. repeat split; lra.
Qed.

Lemma drawdown_fold_spec (values : list Q) (P D : Q) :
  0 < P -> Forall (fun v => 0 < v) values ->
  D <= snd (fold_left drawdown_step values (P, D)) /\
  (D < 1 -> snd (fold_left drawdown_step values (P, D)) < 1) /\
  (forall v : Q, v ∈ values ->
     (P - v) / P <= snd (fold_left drawdown_step values (P, D))).
Proof.
  intros HP Hpos. revert P D HP.
  induction Hpos as [|v values Hv Hpos IH]; intros P D HP.
  - simpl. split; [lra|]. split; [auto|]. intros v Hin. inversion Hin.
  - cbn [fold_left].
    destruct (drawdown_step_spec P D v HP Hv)
      as (P1 & D1 & -> & HP1 & HPP1 & HvP1 & HDD1 & Hdd & Hlt).
    destruct (IH P1 D1 HP1) as (H1 & H2 & H3).
    split; [lra|]. split; [auto|].
    intros x Hx. apply elem_of_cons in Hx as [->|Hx].
    + pose proof (decline_mono P P1 v HP HPP1 (Qlt_le_weak _ _ Hv)). lra.
    + assert (Hx0 : 0 < x).
      { rewrite Forall_forall in Hpos. apply Hpos. exact Hx. }
      pose proof (decline_mono P P1 x HP HPP1 (Qlt_le_weak _ _ Hx0)).
      specialize (H3 x Hx). lra.
Qed.

Lemma drawdown_fold_pairs (values : list Q) (P D : Q) :
  0 < P -> Forall (fun v => 0 < v) values ->
  forall (l1 l2 l3 : list Q) (a b : Q),
    values = l1 ++ a :: l2 ++ b :: l3 ->
    (a - b) / a <= snd (fold_left drawdown_step values (P, D)).
Proof.
  intros HP Hpos. revert P D HP.
  induction Hpos as [|v values Hv Hpos IH]; intros P D HP l1 l2 l3 a b Hsplit.
  - destruct l1; discriminate.
  - cbn [fold_left].
    destruct (drawdown_step_spec P D v HP Hv)
      as (P1 & D1 & -> & HP1 & HPP1 & HvP1 & HDD1 & Hdd & Hlt).
    destruct l1 as [|x l1]; simpl in Hsplit; injection Hsplit as -> ->.
    + assert (Hb : b ∈ l2 ++ b :: l3).
      { apply elem_of_app. right. left. }
      assert (Hb0 : 0 < b).
      { rewrite Forall_forall in Hpos. apply Hpos. exact Hb. }
      destruct (drawdown_fold_spec (l2 ++ b :: l3) P1 D1 HP1 Hpos) as (_ & _ & H3).
      specialize (H3 b Hb).
      pose proof (decline_mono a P1 b Hv HvP1 (Qlt_le_weak _ _ Hb0)). lra.
    + apply (IH P1 D1 HP1 l1 l2 l3 a b). reflexivity.
Qed.

Lemma max_drawdown_unfold (v : Q) (values : list Q) :
  _calculate_max_drawdown (map snapshot_worth (v :: values))
  = snd (fold_left drawdown_step (v :: values) (v, 0)).
Proof.
  unfold _calculate_max_drawdown. rewrite worth_values. reflexivity.
Qed.

End Drawdown.

(** X15.  On a series of positive portfolio values the maximum drawdown
    lies in [[0, 1)] and is at least the relative decline
    [(a − b) / a] from any value [a] to any later value [b]. *)
Theorem max_drawdown_dominates_declines (values : list Q) :
  Forall (fun v => 0 < v) values ->
  0 <= _calculate_max_drawdown (map snapshot_worth values) /\
  _calculate_max_drawdown (map snapshot_worth values) < 1 /\
  (forall (l1 l2 l3 : list Q) (a b : Q),
      values = l1 ++ a :: l2 ++ b :: l3 ->
      (a - b) / a <= _calculate_max_drawdown (map snapshot_worth values)).
Proof.
  intros Hpos. destruct values as [|v values].
  - split; [discriminate|]. split; [reflexivity|].
    intros l1 l2 l3 a b H. destruct l1; discriminate.
  - rewrite max_drawdown_unfold.
    assert (Hv : 0 < v) by (apply Forall_cons in Hpos as [H _]; exact H).
    destruct (drawdown_fold_spec (v :: values) v 0 Hv Hpos) as (H1 & H2 & _).
    split; [exact H1|]. split; [apply H2; reflexivity|].
    apply drawdown_fold_pairs; assumption.
Qed.

Lemma max_drawdown_dominates_declines_witness :
  (120 - 60) / 120 <= _calculate_max_drawdown (map snapshot_worth [100; 80; 120; 60]).
Proof.
  apply (proj2 (proj2 (max_drawdown_dominates_declines [100; 80; 120; 60]
                         ltac:(repeat constructor)))
           [100; 80] [] [] 120 60).
  reflexivity.
Defined.

(** ** The metrics of a non-empty trade list *)

Section Report.

Import PyFacts.

Variable sqrtQ : Q -> Q.
Variable powQ : Q -> Q -> Q.
Variable elapsed_days : Z -> Z -> Z.

Lemma report_lookup (v1 v2 v3 v4 v5 v6 v7 v8 v9 v10 v11 v12 v13 v14 v15 v16 : Q) :
  let m : gmap string Q :=
    list_to_map
      [ ("total_trades", v1); ("winning_trades", v2); ("losing_trades", v3);
        ("win_rate", v4); ("total_pnl", v5); ("total_return_pct", v6);
        ("annualized_return_pct", v7); ("sharpe_ratio", v8); ("sortino_ratio", v9);
        ("max_drawdown_pct", v10); ("profit_factor", v11); ("avg_win", v12);
        ("avg_loss", v13); ("total_gas_costs", v14); ("gas_pct_of_pnl", v15);
        ("final_capital", v16) ] in
  m !! "total_trades" = Some v1 /\ m !! "winning_trades" = Some v2 /\
  m !! "losing_trades" = Some v3 /\ m !! "profit_factor" = Some v11 /\
  m !! "final_capital" = Some v16 /\
  (forall key : string, is_Some (m !! key) <-> key ∈ metric_keys).
Proof.
  intros m. repeat (split; [reflexivity|]).
  intros key. rewrite <- elem_of_dom. unfold m.
  rewrite dom_list_to_map_L, elem_of_list_to_set. reflexivity.
Qed.

Lemma partition_by_sign (ts : list Trade) :
  (length (winners_of ts) + length (losers_of ts) + length (flat_of ts))%nat
  = length ts.
Proof.
  unfold winners_of, losers_of, flat_of.
  induction ts as [|t ts IH]; simpl; [reflexivity|].
  pose proof (Qeq_bool_iff (pnl t) 0) as HE.
  case_ltb 0 (pnl t); case_ltb (pnl t) 0; destruct (Qeq_bool (pnl t) 0);
    try (exfalso; lra);
    try (assert (pnl t == 0) by (apply HE; reflexivity); exfalso; lra);
    try (exfalso; assert (Hz : pnl t == 0) by lra; apply HE in Hz; discriminate);
    simpl; lia.
Qed.

Lemma sum_negative (xs : list Q) :
  xs <> [] -> Forall (fun x => x < 0) xs -> Py.sum xs < 0.
Proof.
  intros Hne H. induction H as [|x xs Hx Hxs IH]; [congruence|].
  rewrite sum_cons. destruct xs as [|y xs].
  - rewrite sum_nil. lra.
  - assert (Py.sum (y :: xs) < 0) by (apply IH; discriminate). lra.
Qed.

Lemma losers_negative (ts : list Trade) :
  Forall (fun x => x < 0) (map pnl (losers_of ts)).
Proof.
  unfold losers_of. induction ts as [|t ts IH]; simpl; [constructor|].
  case_ltb (pnl t) 0; [simpl; constructor; assumption | exact IH].
Qed.

Lemma len_nonempty_ltb {A : Type} (x : A) (xs : list A) : Py.ltb 0 (len (x :: xs)) = true.
Proof. apply ltb_lt. apply len_pos. Qed.

Lemma len_map_pnl (ts : list Trade) : len (map pnl ts) = len ts.
Proof. unfold len. rewrite length_map. reflexivity. Qed.

(** The profit factor before rounding, as [_calculate_metrics] computes
    it from a trade list. *)
Lemma profit_factor_value (ts : list Trade) :
  let winners := winners_of ts in
  let losers := losers_of ts in
  let avg_win := if Py.ltb 0 (len winners) then np_mean (map pnl winners) else 0 in
  let avg_loss := if Py.ltb 0 (len losers) then np_mean (map pnl losers) else 0 in
  let pf :=
    if Py.ltb 0 (len losers) && negb (Qeq_bool avg_loss 0)
    then Py.abs (avg_win * len winners / (avg_loss * len losers)) else 0 in
  (losers = [] -> pf = 0) /\
  (losers <> [] ->
   pf == Qabs (Py.sum (map pnl winners) / Py.sum (map pnl losers))).
Proof.
  intros winners losers avg_win avg_loss pf. split.
  - intros E. unfold pf. rewrite E. reflexivity.
  - intros Hne. unfold pf, avg_loss, avg_win.
    destruct losers as [|l0 ls] eqn:El; [congruence|].
    rewrite len_nonempty_ltb.
    assert (Hsum : Py.sum (map pnl (l0 :: ls)) < 0).
    { apply sum_negative; [discriminate|]. rewrite <- El. apply losers_negative. }
    pose proof (len_pos l0 ls) as Hlen.
    assert (Hmean : np_mean (map pnl (l0 :: ls)) < 0).
    { unfold np_mean. rewrite len_map_pnl.
      assert (E : Py.sum (map pnl (l0 :: ls)) / len (l0 :: ls)
                  == - ((- Py.sum (map pnl (l0 :: ls))) / len (l0 :: ls)))
        by (field; lra).
      assert (0 < (- Py.sum (map pnl (l0 :: ls))) / len (l0 :: ls))
        by (apply Qlt_shift_div_l; lra).
      lra. }
    assert (Hneq : Qeq_bool (np_mean (map pnl (l0 :: ls))) 0 = false).
    { apply not_true_iff_false. intros H. apply Qeq_bool_iff in H. lra. }
    rewrite Hneq. cbn [negb andb]. unfold Py.abs.
    apply Qabs_wd. unfold np_mean in *. rewrite !len_map_pnl.
    destruct winners as [|w0 ws] eqn:Ew.
    + change (Py.ltb 0 (len [])) with false. cbv iota.
      change (Py.sum (map pnl [])) with 0. field. split; lra.
    + rewrite len_nonempty_ltb. pose proof (len_pos w0 ws). field.
      repeat split; lra.
Qed.

End Report.

(** X16.  From a non-empty trade list [_calculate_metrics] returns a
    dict with exactly the sixteen metric keys; [total_trades],
    [winning_trades] and [losing_trades] are the numbers of trades, of
    trades with positive pnl and of trades with negative pnl, and
    together with the trades of zero pnl (counted in neither) they
    account for every trade. *)
Theorem metrics_report_shape
    (sqrtQ : Q -> Q) (powQ : Q -> Q -> Q) (elapsed_days : Z -> Z -> Z)
    (config : BacktestConfig) (st : State) :
  trades st <> [] ->
  let m := _calculate_metrics sqrtQ powQ elapsed_days config st in
  (forall key : string, is_Some (m !! key) <-> key ∈ metric_keys) /\
  m !! "total_trades" = Some (len (trades st)) /\
  m !! "winning_trades" = Some (len (winners_of (trades st))) /\
  m !! "losing_trades" = Some (len (losers_of (trades st))) /\
  m !! "final_capital" = Some (Py.round2 (capital st)) /\
  (length (winners_of (trades st)) + length (losers_of (trades st))
   + length (flat_of (trades st)))%nat = length (trades st).
Proof.
  intros Hne m. unfold m, _calculate_metrics.
  pose proof (partition_by_sign (trades st)) as Hpart.
  destruct (trades st) as [|t l] eqn:E; [congruence|]. cbv zeta.
  match goal with
  | |- context [list_to_map [("total_trades", ?v1); (_, ?v2); (_, ?v3); (_, ?v4);
                             (_, ?v5); (_, ?v6); (_, ?v7); (_, ?v8); (_, ?v9);
                             (_, ?v10); (_, ?v11); (_, ?v12); (_, ?v13); (_, ?v14);
                             (_, ?v15); (_, ?v16)]] =>
      destruct (report_lookup v1 v2 v3 v4 v5 v6 v7 v8 v9 v10 v11 v12 v13 v14 v15 v16)
        as (H1 & H2 & H3 & _ & H16 & Hdom)
  end.
  repeat split; try assumption; apply Hdom.
Qed.

Lemma metrics_report_shape_witness :
  _calculate_metrics sqrt_approx pow_trunc days_apart default_config
    (simulate quarter_kelly default_config scenario_market [scenario_signal]
       None None) !! "total_trades"
  = Some (len (trades (simulate quarter_kelly default_config scenario_market
                         [scenario_signal] None None))).
Proof.
  apply (metrics_report_shape sqrt_approx pow_trunc days_apart default_config
           (simulate quarter_kelly default_config scenario_market [scenario_signal]
              None None)).
  vm_compute. discriminate.
Defined.

(** X17.  For a non-empty trade list the reported [profit_factor] is
    the rounding of: [0] when no trade has a negative pnl, and otherwise
    the absolute ratio of the summed pnl of the winning trades to the
    summed pnl of the losing trades (the guard on [avg_loss] never fails
    when there is a losing trade). *)
Theorem profit_factor_is_gross_ratio
    (sqrtQ : Q -> Q) (powQ : Q -> Q -> Q) (elapsed_days : Z -> Z -> Z)
    (config : BacktestConfig) (st : State) :
  trades st <> [] ->
  exists pf : Q,
    _calculate_metrics sqrtQ powQ elapsed_days config st !! "profit_factor"
    = Some (Py.round2 pf) /\
    (losers_of (trades st) = [] -> pf = 0) /\
    (losers_of (trades st) <> [] ->
     pf == Qabs (Py.sum (map pnl (winners_of (trades st)))
                 / Py.sum (map pnl (losers_of (trades st))))).
Proof.
  intros Hne. unfold _calculate_metrics.
  pose proof (profit_factor_value (trades st)) as Hpf.
  destruct (trades st) as [|t l] eqn:E; [congruence|]. cbv zeta in *.
  match goal with
  | |- context [list_to_map [("total_trades", ?v1); (_, ?v2); (_, ?v3); (_, ?v4);
                             (_, ?v5); (_, ?v6); (_, ?v7); (_, ?v8); (_, ?v9);
                             (_, ?v10); (_, Py.round2 ?pf); (_, ?v12); (_, ?v13);
                             (_, ?v14); (_, ?v15); (_, ?v16)]] =>
      destruct (report_lookup v1 v2 v3 v4 v5 v6 v7 v8 v9 v10 (Py.round2 pf)
                  v12 v13 v14 v15 v16) as (_ & _ & _ & H11 & _);
      exists pf
  end.
  split; [exact H11|]. exact Hpf.
Qed.

Lemma profit_factor_is_gross_ratio_witness :
  exists pf : Q,
    _calculate_metrics sqrt_approx pow_trunc days_apart default_config
      {| trades := [closing_trade default_config no_position "no" 1;
                    closing_trade default_config no_position "yes" 1];
         portfolio_value_history := []; capital := 50000; open_positions := [] |}
      !! "profit_factor" = Some (Py.round2 pf).
Proof.
  destruct (profit_factor_is_gross_ratio sqrt_approx pow_trunc days_apart
              default_config
              {| trades := [closing_trade default_config no_position "no" 1;
                            closing_trade default_config no_position "yes" 1];
                 portfolio_value_history := []; capital := 50000;
                 open_positions := [] |}
              ltac:(discriminate)) as (pf & H & _).
  exists pf. exact H.
Defined.

(** ** Sentiment-implied probability *)

Section Probability.

Import PyFacts.

Lemma probability_range (s b : Q) :
  0.05 <= sentiment_to_probability s b /\ sentiment_to_probability s b <= 0.95.
Proof.
  unfold sentiment_to_probability, Py.max, Py.min. cbv zeta.
  case_ltb (b + s * 0.2) 0.95.
  - case_ltb 0.05 (b + s * 0.2); lra.
  - case_ltb 0.05 0.95; lra.
Qed.

Lemma probability_clamp (s b : Q) :
  sentiment_to_probability s b == clamp 0.05 0.95 (b + s * 0.2).
Proof.
  unfold sentiment_to_probability, clamp. cbv zeta. rewrite max_spec.
  apply Q.max_compat; [reflexivity | apply min_spec].
Qed.

Lemma probability_unclamped (s b : Q) :
  0.05 <= b + s * 0.2 -> b + s * 0.2 <= 0.95 ->
  sentiment_to_probability s b == b + s * 0.2.
Proof.
  intros H1 H2. unfold sentiment_to_probability, Py.max, Py.min. cbv zeta.
  case_ltb (b + s * 0.2) 0.95.
  - case_ltb 0.05 (b + s * 0.2); lra.
  - case_ltb 0.05 0.95; lra.
Qed.

Lemma probability_monotone (s s' b b' : Q) :
  s <= s' -> b <= b' ->
  sentiment_to_probability s b <= sentiment_to_probability s' b'.
Proof.
  intros Hs Hb. rewrite !probability_clamp. unfold clamp.
  apply Q.max_le_compat_l. apply Q.min_le_compat_l. lra.
Qed.

End Probability.

(** X18.  [sentiment_to_probability] always returns a probability in
    [[0.05, 0.95]]; it never decreases when the sentiment score or the
    baseline increases; it is [baseline + 0.2 × score] whenever that
    lies in [[0.05, 0.95]], which is the case for the default baseline
    and any score in [[−1, 1]] (result in [[0.3, 0.7]]). *)
Theorem implied_probability_is_clamped_and_monotone (s s' b b' : Q) :
  0.05 <= sentiment_to_probability s b /\
  sentiment_to_probability s b <= 0.95 /\
  (s <= s' -> b <= b' ->
   sentiment_to_probability s b <= sentiment_to_probability s' b') /\
  (0.05 <= b + s * 0.2 -> b + s * 0.2 <= 0.95 ->
   sentiment_to_probability s b == b + s * 0.2) /\
  (-1 <= s -> s <= 1 ->
   sentiment_to_probability s baseline_prob_default == 0.5 + s * 0.2 /\
   0.3 <= sentiment_to_probability s baseline_prob_default /\
   sentiment_to_probability s baseline_prob_default <= 0.7).
Proof.
  destruct (probability_range s b) as [H1 H2].
  split; [exact H1|]. split; [exact H2|].
  split; [apply probability_monotone|].
  split; [apply probability_unclamped|].
  intros Hlo Hhi.
  assert (E : sentiment_to_probability s baseline_prob_default == 0.5 + s * 0.2).
  { apply probability_unclamped; unfold baseline_prob_default; lra. }
  split; [exact E|]. rewrite E. split; lra.
Qed.

Lemma implied_probability_is_clamped_and_monotone_witness :
  sentiment_to_probability (-0.5) baseline_prob_default
  <= sentiment_to_probability 0.5 baseline_prob_default /\
  sentiment_to_probability 0.5 baseline_prob_default == 0.5 + 0.5 * 0.2.
Proof.
  split.
  - apply (proj1 (proj2 (proj2 (implied_probability_is_clamped_and_monotone
                                  (-0.5) 0.5 baseline_prob_default
                                  baseline_prob_default)))).
    + discriminate.
    + discriminate.
  - apply (proj1 (proj2 (proj2 (proj2
             (implied_probability_is_clamped_and_monotone
                0.5 0.5 baseline_prob_default baseline_prob_default))))).
    + discriminate.
    + discriminate.
Defined.

(** X19.  A probability produced by [sentiment_to_probability] lies
    strictly between 0 and 1 with positive implied odds, so none of the
    zero-returning guards of [_calculate_kelly] fires on it: the fraction
    is the clamped Kelly formula, and still [0]. *)
Theorem implied_probability_passes_kelly_guards (edge s b : Q) :
  ~ kelly_degenerate (sentiment_to_probability s b) /\
  _calculate_kelly edge (sentiment_to_probability s b)
  == clamp 0 0.25 (kelly_raw (sentiment_to_probability s b)) /\
  _calculate_kelly edge (sentiment_to_probability s b) = 0.
Proof.
  destruct (probability_range s b) as [H1 H2].
  set (p := sentiment_to_probability s b) in *.
  assert (Hreg : ~ kelly_degenerate p).
  { intros [H|[H|H]]; [lra | lra |].
    assert (E : 1 / p - 1 == (1 - p) / p) by (field; lra).
    assert (0 < (1 - p) / p) by (apply Qlt_shift_div_l; lra).
    lra. }
  split; [exact Hreg|].
  split; [apply kelly_regular_clamped; exact Hreg | apply kelly_always_zero].
Qed.

(** ** [analyze_text], [_std_dev] and [aggregate_sentiment] *)

Section Analyzer.

Import PyFacts.

Variable polarity_scores : string -> VaderScores.
Variable bert : option (string -> Q * Q * Q).
Variable _clean_text : string -> string.
Variable sqrtQ : Q -> Q.

Lemma analyze_text_net (text : string) :
  net_sentiment (analyze_text polarity_scores bert _clean_text text)
  = combined_positive (analyze_text polarity_scores bert _clean_text text)
    - combined_negative (analyze_text polarity_scores bert _clean_text text).
Proof.
  unfold analyze_text. cbv zeta. destruct bert as [model|]; [|reflexivity].
  destruct (model (_clean_text text)) as [[bn bu] bp]. reflexivity.
Qed.

Lemma analyze_text_unit (text : string) :
  unit_vader polarity_scores -> unit_bert bert ->
  unit_score (combined_positive (analyze_text polarity_scores bert _clean_text text)) /\
  unit_score (combined_negative (analyze_text polarity_scores bert _clean_text text)).
Proof.
  intros Hv Hb. destruct (Hv (_clean_text text)) as [[Hp0 Hp1] [Hn0 Hn1]].
  unfold analyze_text. cbv zeta. destruct bert as [model|] eqn:E.
  - destruct (Hb model (_clean_text text) eq_refl) as ([Ha0 Ha1] & _ & [Hc0 Hc1]).
    destruct (model (_clean_text text)) as [[bn bu] bp]. simpl in *.
    unfold unit_score. repeat split; lra.
  - simpl. unfold unit_score. repeat split; assumption.
Qed.

Lemma std_dev_is_np_std (values : list Q) :
  (2 <= length values)%nat -> _std_dev sqrtQ values = np_std sqrtQ values.
Proof.
  intros H. unfold _std_dev, np_std, np_var, np_mean.
  destruct (length values <=? 1)%nat eqn:E; [apply Nat.leb_le in E; lia|].
  cbv zeta. unfold len. rewrite length_map. reflexivity.
Qed.

Lemma std_dev_short (values : list Q) :
  (length values <= 1)%nat -> _std_dev sqrtQ values = 0.
Proof.
  intros H. unfold _std_dev. apply Nat.leb_le in H. rewrite H. reflexivity.
Qed.

Lemma sum_repeat_one (n : nat) : Py.sum (repeat 1 n) == inject_Z (Z.of_nat n).
Proof.
  induction n as [|n IH].
  - reflexivity.
  - simpl repeat. rewrite sum_cons, IH, Nat2Z.inj_succ, <- Z.add_1_l, inject_Z_plus.
    reflexivity.
Qed.

Lemma sum_unit_weights {A : Type} (f : A -> Q) (xs : list A) :
  Py.sum (map (fun sw => f (fst sw) * snd sw) (combine xs (repeat 1 (length xs))))
  == Py.sum (map f xs).
Proof.
  induction xs as [|x xs IH]; [reflexivity|].
  simpl. rewrite !sum_cons, IH. ring.
Qed.

Lemma sum_map_minus {A : Type} (f g : A -> Q) (xs : list A) :
  Py.sum (map (fun x => f x - g x) xs) == Py.sum (map f xs) - Py.sum (map g xs).
Proof.
  induction xs as [|x xs IH]; simpl.
  - rewrite !sum_nil. ring.
  - rewrite !sum_cons, IH. ring.
Qed.

Lemma aggregate_lookup (v1 v2 v3 v4 v5 : Q) :
  let m : gmap string Q :=
    list_to_map
      [ ("avg_positive", v1); ("avg_negative", v2); ("net_sentiment", v3);
        ("confidence", v4); ("sample_size", v5) ] in
  m !! "avg_positive" = Some v1 /\ m !! "avg_negative" = Some v2 /\
  m !! "net_sentiment" = Some v3 /\ m !! "confidence" = Some v4 /\
  m !! "sample_size" = Some v5.
Proof. intros m. repeat split. Qed.

Lemma aggregate_nonempty (text : string) (texts : list string)
    (weights : option (list Q)) :
  let all := text :: texts in
  let ws := match weights with
            | None => repeat 1 (length all)
            | Some ws => ws
            end in
  let sentiments := analyze_batch polarity_scores bert _clean_text all in
  aggregate_sentiment polarity_scores bert _clean_text sqrtQ all weights
  = if Qeq_bool (Py.sum ws) 0 then Raised ZeroDivisionError
    else
      Returned
        (list_to_map
           [ ("avg_positive",
              Py.sum (map (fun sw => combined_positive (fst sw) * snd sw)
                          (combine sentiments ws)) / Py.sum ws);
             ("avg_negative",
              Py.sum (map (fun sw => combined_negative (fst sw) * snd sw)
                          (combine sentiments ws)) / Py.sum ws);
             ("net_sentiment",
              Py.sum (map (fun sw => combined_positive (fst sw) * snd sw)
                          (combine sentiments ws)) / Py.sum ws
              - Py.sum (map (fun sw => combined_negative (fst sw) * snd sw)
                            (combine sentiments ws)) / Py.sum ws);
             ("confidence",
              Py.max 0 (1 - _std_dev sqrtQ (map net_sentiment sentiments)));
             ("sample_size", len all) ]).
Proof. reflexivity. Qed.

End Analyzer.

(** X20.  [analyze_text] always reports
    [net_sentiment = combined_positive − combined_negative]; without BERT
    the combined scores are VADER's; and when the library scores are
    proportions in [[0, 1]] the combined scores are too, the net
    sentiment lies in [[−1, 1]], and its implied probability at the
    default baseline is [0.5 + 0.2 × net], never clamped. *)
Theorem analyze_text_scores
    (polarity_scores : string -> VaderScores) (bert : option (string -> Q * Q * Q))
    (_clean_text : string -> string) (text : string) :
  let r := analyze_text polarity_scores bert _clean_text text in
  net_sentiment r = combined_positive r - combined_negative r /\
  (bert = None ->
   combined_positive r = pos (polarity_scores (_clean_text text)) /\
   combined_negative r = neg (polarity_scores (_clean_text text))) /\
  (unit_vader polarity_scores -> unit_bert bert ->
   unit_score (combined_positive r) /\ unit_score (combined_negative r) /\
   -1 <= net_sentiment r /\ net_sentiment r <= 1 /\
   sentiment_to_probability (net_sentiment r) baseline_prob_default
   == 0.5 + net_sentiment r * 0.2).
Proof.
  intros r. split; [apply analyze_text_net|]. split.
  - intros ->. split; reflexivity.
  - intros Hv Hb.
    destruct (analyze_text_unit polarity_scores bert _clean_text text Hv Hb)
      as ([Hp0 Hp1] & [Hn0 Hn1]).
    fold r in Hp0, Hp1, Hn0, Hn1.
    assert (Hnet : net_sentiment r = combined_positive r - combined_negative r)
      by apply analyze_text_net.
    unfold unit_score. rewrite Hnet.
    repeat split; try lra.
    apply probability_unclamped; unfold baseline_prob_default; lra.
Qed.

Lemma analyze_text_scores_witness :
  -1 <= net_sentiment (analyze_text vader_fixed (Some bert_fixed) text_id "go") /\
  net_sentiment (analyze_text vader_fixed (Some bert_fixed) text_id "go") <= 1.
Proof.
  destruct (proj2 (proj2 (analyze_text_scores vader_fixed (Some bert_fixed)
                            text_id "go")))
    as (_ & _ & H1 & H2 & _).
  - intros text. unfold unit_score. simpl. lra.
  - intros model text [= <-]. unfold unit_score. simpl. lra.
  - split; [exact H1 | exact H2].
Defined.

(** X21.  [_std_dev] returns [0] for a list of at most one value, and
    for longer lists it is the population standard deviation, the same
    statistic as [np.std] in the metrics of the engine. *)
Theorem std_dev_is_population_deviation (sqrtQ : Q -> Q) (values : list Q) :
  ((length values <= 1)%nat -> _std_dev sqrtQ values = 0) /\
  ((2 <= length values)%nat -> _std_dev sqrtQ values = np_std sqrtQ values).
Proof. split; [apply std_dev_short | apply std_dev_is_np_std]. Qed.

Lemma std_dev_is_population_deviation_witness :
  _std_dev sqrt_approx [7] = 0 /\
  _std_dev sqrt_approx [1; 2; 4] = np_std sqrt_approx [1; 2; 4].
Proof.
  split.
  - apply (proj1 (std_dev_is_population_deviation sqrt_approx [7])). simpl. lia.
  - apply (proj2 (std_dev_is_population_deviation sqrt_approx [1; 2; 4])).
    simpl. lia.
Defined.

(** X22.  [aggregate_sentiment] returns the two-key neutral dict for an
    empty list of texts whatever the weights; for a non-empty list it
    raises [ZeroDivisionError] exactly when the given weights sum to zero
    (in particular for an empty weight list), and never with the default
    weights. *)
Theorem aggregate_sentiment_errors
    (polarity_scores : string -> VaderScores) (bert : option (string -> Q * Q * Q))
    (_clean_text : string -> string) (sqrtQ : Q -> Q)
    (text : string) (texts : list string) (weights : option (list Q)) (ws : list Q) :
  aggregate_sentiment polarity_scores bert _clean_text sqrtQ [] weights
  = Returned (list_to_map [("net_sentiment", 0); ("confidence", 0)]) /\
  (aggregate_sentiment polarity_scores bert _clean_text sqrtQ (text :: texts) (Some ws)
   = Raised ZeroDivisionError <-> Py.sum ws == 0) /\
  aggregate_sentiment polarity_scores bert _clean_text sqrtQ (text :: texts) (Some [])
  = Raised ZeroDivisionError /\
  (exists m : gmap string Q,
      aggregate_sentiment polarity_scores bert _clean_text sqrtQ (text :: texts) None
      = Returned m).
Proof.
  split; [reflexivity|]. split; [|split; [reflexivity|]].
  - rewrite aggregate_nonempty. cbv zeta.
    destruct (Qeq_bool (Py.sum ws) 0) eqn:E.
    + apply Qeq_bool_iff in E. tauto.
    + split; [discriminate|]. intros H. apply Qeq_bool_iff in H. congruence.
  - rewrite aggregate_nonempty. cbv zeta.
    destruct (Qeq_bool (Py.sum (repeat 1 (length (text :: texts)))) 0) eqn:E.
    + exfalso. apply Qeq_bool_iff in E. rewrite sum_repeat_one in E.
      pose proof (len_pos text texts) as H. unfold len in H. lra.
    + eexists. reflexivity.
Qed.

(** X23.  With the default weights [aggregate_sentiment] reports the
    plain means of the combined positive and negative scores, a net
    sentiment equal to the mean of the per-text net sentiments, and the
    number of texts as [sample_size]. *)
Theorem aggregate_sentiment_default_weights
    (polarity_scores : string -> VaderScores) (bert : option (string -> Q * Q * Q))
    (_clean_text : string -> string) (sqrtQ : Q -> Q)
    (text : string) (texts : list string) :
  let sentiments := analyze_batch polarity_scores bert _clean_text (text :: texts) in
  exists (m : gmap string Q) (ap an net : Q),
    aggregate_sentiment polarity_scores bert _clean_text sqrtQ (text :: texts) None
    = Returned m /\
    m !! "avg_positive" = Some ap /\ ap == np_mean (map combined_positive sentiments) /\
    m !! "avg_negative" = Some an /\ an == np_mean (map combined_negative sentiments) /\
    m !! "net_sentiment" = Some net /\ net == np_mean (map net_sentiment sentiments) /\
    m !! "sample_size" = Some (len (text :: texts)).
Proof.
  intros sentiments.
  assert (Hlen : length sentiments = length (text :: texts)).
  { unfold sentiments, analyze_batch. apply length_map. }
  assert (Hsum : Py.sum (repeat 1 (length (text :: texts))) == len sentiments).
  { rewrite sum_repeat_one. unfold len. rewrite Hlen. reflexivity. }
  assert (Hpos : 0 < len sentiments).
  { unfold len. rewrite Hlen. apply (len_pos text texts). }
  rewrite aggregate_nonempty. cbv zeta. fold sentiments.
  destruct (Qeq_bool (Py.sum (repeat 1 (length (text :: texts)))) 0) eqn:E.
  { exfalso. apply Qeq_bool_iff in E. lra. }
  match goal with
  | |- context [list_to_map [(_, ?v1); (_, ?v2); (_, ?v3); (_, ?v4); (_, ?v5)]] =>
      destruct (aggregate_lookup v1 v2 v3 v4 v5) as (H1 & H2 & H3 & _ & H5);
      exists (list_to_map [("avg_positive", v1); ("avg_negative", v2);
                           ("net_sentiment", v3); ("confidence", v4);
                           ("sample_size", v5)]), v1, v2, v3
  end.
  assert (Ep : Py.sum (map (fun sw => combined_positive (fst sw) * snd sw)
                          (combine sentiments (repeat 1 (length (text :: texts)))))
               == Py.sum (map combined_positive sentiments)).
  { rewrite <- Hlen. apply sum_unit_weights. }
  assert (En : Py.sum (map (fun sw => combined_negative (fst sw) * snd sw)
                          (combine sentiments (repeat 1 (length (text :: texts)))))
               == Py.sum (map combined_negative sentiments)).
  { rewrite <- Hlen. apply sum_unit_weights. }
  assert (Enet : Py.sum (map net_sentiment sentiments)
                 == Py.sum (map combined_positive sentiments)
                    - Py.sum (map combined_negative sentiments)).
  { rewrite <- sum_map_minus. apply sum_map_Qeq. apply Forall_forall.
    intros x Hx. unfold sentiments, analyze_batch in Hx.
    apply list_elem_of_In, in_map_iff in Hx. destruct Hx as (tx & <- & _).
    rewrite analyze_text_net. reflexivity. }
  unfold np_mean. rewrite !len_map.
  split; [reflexivity|].
  split; [exact H1|]. split; [rewrite Ep, Hsum; reflexivity|].
  split; [exact H2|]. split; [rewrite En, Hsum; reflexivity|].
  split; [exact H3|]. split; [|exact H5].
  rewrite Ep, En, Enet, Hsum. field. lra.
Qed.

(** X24.  When [aggregate_sentiment] returns for a non-empty list of
    texts, the reported confidence lies in [[0, 1]] for any square root
    that is never negative, and it is exactly [1] for a single text. *)
Theorem aggregate_confidence_range
    (polarity_scores : string -> VaderScores) (bert : option (string -> Q * Q * Q))
    (_clean_text : string -> string) (sqrtQ : Q -> Q)
    (text : string) (texts : list string) (weights : option (list Q))
    (m : gmap string Q) :
  (forall x : Q, 0 <= sqrtQ x) ->
  aggregate_sentiment polarity_scores bert _clean_text sqrtQ (text :: texts) weights
  = Returned m ->
  exists c : Q,
    m !! "confidence" = Some c /\ 0 <= c /\ c <= 1 /\ (texts = [] -> c == 1).
Proof.
  intros Hsqrt. rewrite aggregate_nonempty. cbv zeta.
  destruct (Qeq_bool _ 0); [discriminate|].
  match goal with
  | |- Returned ?d = Returned m -> _ =>
      set (report := d); intros H;
      assert (Hm : m = report) by congruence; subst m; unfold report; clear H report
  end.
  match goal with
  | |- context [list_to_map [(_, ?v1); (_, ?v2); (_, ?v3); (_, ?v4); (_, ?v5)]] =>
      destruct (aggregate_lookup v1 v2 v3 v4 v5) as (_ & _ & _ & H4 & _);
      exists v4
  end.
  split; [exact H4|].
  set (sd := _std_dev sqrtQ _).
  assert (Hsd : 0 <= sd).
  { unfold sd, _std_dev. destruct (_ <=? 1)%nat; [lra | apply Hsqrt]. }
  unfold Py.max. PyFacts.case_ltb 0 (1 - sd).
  - repeat split; try lra. intros ->. unfold sd.
    rewrite std_dev_short by (simpl; lia). lra.
  - repeat split; try lra. intros ->. exfalso. unfold sd in Hcmp.
    rewrite std_dev_short in Hcmp by (simpl; lia). lra.
Qed.

Lemma sqrt_approx_nonneg (x : Q) : 0 <= sqrt_approx x.
Proof.
  unfold sqrt_approx. apply Qle_shift_div_l; [reflexivity|].
  rewrite Qmult_0_l. change 0 with (inject_Z 0). rewrite <- Zle_Qle.
  apply Z.sqrt_nonneg.
Qed.

Lemma aggregate_confidence_range_witness :
  exists (m : gmap string Q) (c : Q),
    aggregate_sentiment vader_fixed None text_id sqrt_approx ["up"; "down"] None
    = Returned m /\
    m !! "confidence" = Some c /\ 0 <= c /\ c <= 1.
Proof.
  eexists.
  destruct (aggregate_confidence_range vader_fixed None text_id sqrt_approx
              "up" ["down"] None _ sqrt_approx_nonneg eq_refl)
    as (c & H1 & H2 & H3 & _).
  exists c. split; [reflexivity|]. split; [exact H1|]. split; [exact H2 | exact H3].
Defined.

(** ** News classification *)

Section Classifier.

Import PyFacts.

Lemma prefix_append (kw text : string) :
  String.prefix kw text = true <-> exists after, text = String.append kw after.
Proof.
  revert text. induction kw as [|a kw IH]; intros text.
  - destruct text; simpl; split; eauto.
  - destruct text as [|b text]; simpl.
    + split; [discriminate | intros [after H]; discriminate].
    + destruct (Ascii.ascii_dec a b) as [->|Hne].
      * rewrite IH. split; intros [after H]; exists after.
        -- rewrite H. reflexivity.
        -- injection H as H. exact H.
      * split; [discriminate|]. intros [after H].
        injection H as H1 H2. congruence.
Qed.

Lemma prefix_contains (kw text : string) :
  String.prefix kw text = true -> contains kw text = true.
Proof.
  intros H. destruct text; cbn [contains]; [exact H|]. rewrite H. reflexivity.
Qed.

Lemma contains_mentions (kw text : string) :
  contains kw text = true <-> mentions kw text.
Proof.
  unfold mentions. split.
  - induction text as [|c text IH]; cbn [contains].
    + intros H. apply prefix_append in H as [after H]. exists EmptyString, after. exact H.
    + intros H. apply orb_true_iff in H as [H|H].
      * apply prefix_append in H as [after H]. exists EmptyString, after. exact H.
      * destruct (IH H) as (before & after & ->).
        exists (String c before), after. reflexivity.
  - intros (before & after & ->). induction before as [|c before IH].
    + apply prefix_contains. apply prefix_append. exists after. reflexivity.
    + change (contains kw (String c (String.append before (String.append kw after)))
              = true).
      cbn [contains]. rewrite IH. apply orb_true_r.
Qed.

Lemma any_keyword_mentions (keywords : list string) (text : string) :
  existsb (fun kw => contains kw text) keywords = true <-> mentions_any keywords text.
Proof.
  unfold mentions_any. rewrite existsb_exists.
  split; intros (kw & H1 & H2); exists kw; (split; [exact H1|]);
    apply contains_mentions; exact H2.
Qed.

Lemma any_keyword_absent (keywords : list string) (text : string) :
  existsb (fun kw => contains kw text) keywords = false <->
  ~ mentions_any keywords text.
Proof.
  rewrite <- any_keyword_mentions. symmetry. apply not_true_iff_false.
Qed.

Lemma importance_multiplier_cases (tier : string) :
  importance_multiplier tier = 3 \/ importance_multiplier tier = 2 \/
  importance_multiplier tier = 1 \/ importance_multiplier tier = 0.3.
Proof.
  unfold importance_multiplier.
  destruct (String.eqb tier "star"); [auto|].
  destruct (String.eqb tier "starter"); [auto|].
  destruct (String.eqb tier "rotation"); [auto|].
  destruct (String.eqb tier "bench"); auto.
Qed.

Lemma detect_category_cases (text : string) :
  detect_category KEYWORDS text = "injury" \/
  detect_category KEYWORDS text = "lineup" \/
  detect_category KEYWORDS text = "performance" \/
  detect_category KEYWORDS text = "roster" \/
  detect_category KEYWORDS text = "other".
Proof.
  unfold KEYWORDS. cbn [detect_category].
  repeat match goal with
         | |- context [existsb ?f ?l] => destruct (existsb f l); [auto 6|]
         end.
  auto 6.
Qed.

Lemma impact_cases (text tier : string) :
  let impact :=
    category_impact (detect_category KEYWORDS text) * importance_multiplier tier in
  0.06 <= impact /\ impact <= 2.4.
Proof.
  intros impact. unfold impact.
  destruct (detect_category_cases text) as [->|[->|[->|[->| ->]]]];
    destruct (importance_multiplier_cases tier) as [->|[->|[->| ->]]];
    split; vm_compute; discriminate.
Qed.

End Classifier.

(** X25.  [classify_news_importance] takes the first category of
    [KEYWORDS] (injury, lineup, performance, roster) one of whose
    keywords occurs anywhere in the lower-cased text, as a substring and
    not as a word, and "other" when none does; urgency is "high" for
    injury and lineup and "medium" otherwise.  A text that merely
    contains "out" inside another word is an injury. *)
Theorem news_category_priority
    (polarity_scores : string -> VaderScores) (_clean_text str_lower : string -> string)
    (news_text : string) (player_name : option string) (tier : string) :
  let r := classify_news_importance polarity_scores _clean_text str_lower
             news_text player_name tier in
  let text := str_lower news_text in
  (mentions_any (keywords_of "injury") text ->
   cls_category r = "injury" /\ cls_urgency r = "high") /\
  (~ mentions_any (keywords_of "injury") text ->
   mentions_any (keywords_of "lineup") text ->
   cls_category r = "lineup" /\ cls_urgency r = "high") /\
  (~ mentions_any (keywords_of "injury") text ->
   ~ mentions_any (keywords_of "lineup") text ->
   mentions_any (keywords_of "performance") text ->
   cls_category r = "performance" /\ cls_urgency r = "medium") /\
  (~ mentions_any (keywords_of "injury") text ->
   ~ mentions_any (keywords_of "lineup") text ->
   ~ mentions_any (keywords_of "performance") text ->
   mentions_any (keywords_of "roster") text ->
   cls_category r = "roster" /\ cls_urgency r = "medium") /\
  (~ mentions_any (keywords_of "injury") text ->
   ~ mentions_any (keywords_of "lineup") text ->
   ~ mentions_any (keywords_of "performance") text ->
   ~ mentions_any (keywords_of "roster") text ->
   cls_category r = "other" /\ cls_urgency r = "medium") /\
  (mentions "out" text -> cls_category r = "injury").
Proof.
  intros r text.
  assert (Hinj : mentions_any (keywords_of "injury") text ->
                 cls_category r = "injury" /\ cls_urgency r = "high").
  { intros H. apply any_keyword_mentions in H.
    unfold r, classify_news_importance. cbv zeta. fold text.
    unfold KEYWORDS. cbn [detect_category cls_category cls_urgency].
    change (keywords_of "injury") with
      ["injured"; "injury"; "hurt"; "questionable"; "doubtful"; "out"] in H.
    rewrite H. split; reflexivity. }
  split; [exact Hinj|].
  split.
  { intros H1 H2. apply any_keyword_absent in H1. apply any_keyword_mentions in H2.
    unfold r, classify_news_importance. cbv zeta. fold text.
    unfold KEYWORDS. cbn [detect_category cls_category cls_urgency].
    change (keywords_of "injury") with
      ["injured"; "injury"; "hurt"; "questionable"; "doubtful"; "out"] in H1.
    change (keywords_of "lineup") with
      ["starting"; "lineup"; "benched"; "scratched"] in H2.
    rewrite H1, H2. split; reflexivity. }
  split.
  { intros H1 H2 H3. apply any_keyword_absent in H1. apply any_keyword_absent in H2.
    apply any_keyword_mentions in H3.
    unfold r, classify_news_importance. cbv zeta. fold text.
    unfold KEYWORDS. cbn [detect_category cls_category cls_urgency].
    change (keywords_of "injury") with
      ["injured"; "injury"; "hurt"; "questionable"; "doubtful"; "out"] in H1.
    change (keywords_of "lineup") with
      ["starting"; "lineup"; "benched"; "scratched"] in H2.
    change (keywords_of "performance") with
      ["mvp"; "career-high"; "record"; "milestone"] in H3.
    rewrite H1, H2, H3. split; reflexivity. }
  split.
  { intros H1 H2 H3 H4. apply any_keyword_absent in H1. apply any_keyword_absent in H2.
    apply any_keyword_absent in H3. apply any_keyword_mentions in H4.
    unfold r, classify_news_importance. cbv zeta. fold text.
    unfold KEYWORDS. cbn [detect_category cls_category cls_urgency].
    change (keywords_of "injury") with
      ["injured"; "injury"; "hurt"; "questionable"; "doubtful"; "out"] in H1.
    change (keywords_of "lineup") with
      ["starting"; "lineup"; "benched"; "scratched"] in H2.
    change (keywords_of "performance") with
      ["mvp"; "career-high"; "record"; "milestone"] in H3.
    change (keywords_of "roster") with
      ["traded"; "signed"; "released"; "waived"] in H4.
    rewrite H1, H2, H3, H4. split; reflexivity. }
  split.
  { intros H1 H2 H3 H4. apply any_keyword_absent in H1. apply any_keyword_absent in H2.
    apply any_keyword_absent in H3. apply any_keyword_absent in H4.
    unfold r, classify_news_importance. cbv zeta. fold text.
    unfold KEYWORDS. cbn [detect_category cls_category cls_urgency].
    change (keywords_of "injury") with
      ["injured"; "injury"; "hurt"; "questionable"; "doubtful"; "out"] in H1.
    change (keywords_of "lineup") with
      ["starting"; "lineup"; "benched"; "scratched"] in H2.
    change (keywords_of "performance") with
      ["mvp"; "career-high"; "record"; "milestone"] in H3.
    change (keywords_of "roster") with
      ["traded"; "signed"; "released"; "waived"] in H4.
    rewrite H1, H2, H3, H4. split; reflexivity. }
  intros Hout. apply Hinj. exists "out". split; [|exact Hout].
  simpl. tauto.
Qed.

Lemma news_category_priority_witness :
  cls_category
    (classify_news_importance vader_fixed text_id text_id
       "a record night, all about the mvp" None "star") = "injury".
Proof.
  apply (proj2 (proj2 (proj2 (proj2 (proj2
           (news_category_priority vader_fixed text_id text_id
              "a record night, all about the mvp" None "star")))))).
  exists "a record night, all ab", " the mvp". reflexivity.
Defined.

(** X26.  For every text and player tier the impact score of
    [classify_news_importance] is [min(1, base × multiplier)] and lies in
    [[0.06, 1]], while the expected price impact is a tenth of the
    uncapped product and lies in [[0.006, 0.24]], so it is never below a
    tenth of the impact score; a tier other than star, starter, rotation
    and bench is scored as rotation; and the sentiment reported is
    VADER's positive less negative score of the cleaned text. *)
Theorem news_impact_bounds
    (polarity_scores : string -> VaderScores) (_clean_text str_lower : string -> string)
    (news_text : string) (player_name : option string) (tier : string) :
  let r := classify_news_importance polarity_scores _clean_text str_lower
             news_text player_name tier in
  let rotation := classify_news_importance polarity_scores _clean_text str_lower
                    news_text player_name "rotation" in
  cls_impact_score r
  == Qmin 1 (category_impact (cls_category r) * importance_multiplier tier) /\
  0.06 <= cls_impact_score r /\ cls_impact_score r <= 1 /\
  cls_expected_price_impact r
  = category_impact (cls_category r) * importance_multiplier tier * 0.1 /\
  0.006 <= cls_expected_price_impact r /\ cls_expected_price_impact r <= 0.24 /\
  cls_impact_score r * 0.1 <= cls_expected_price_impact r /\
  (tier <> "star" -> tier <> "starter" -> tier <> "rotation" -> tier <> "bench" ->
   cls_impact_score r = cls_impact_score rotation /\
   cls_expected_price_impact r = cls_expected_price_impact rotation) /\
  cls_sentiment r
  = pos (polarity_scores (_clean_text news_text))
    - neg (polarity_scores (_clean_text news_text)).
Proof.
  intros r rotation.
  destruct (impact_cases (str_lower news_text) tier) as [Hlo Hhi].
  change (cls_category r) with (detect_category KEYWORDS (str_lower news_text)).
  set (impact := category_impact (detect_category KEYWORDS (str_lower news_text))
                 * importance_multiplier tier) in *.
  change (cls_impact_score r) with (Py.min 1 impact).
  change (cls_expected_price_impact r) with (impact * 0.1).
  pose proof (PyFacts.min_le_l 1 impact) as Hl.
  pose proof (PyFacts.min_le_r 1 impact) as Hr.
  split; [apply PyFacts.min_spec|].
  split; [unfold Py.min in *; PyFacts.case_ltb impact 1; lra|].
  split; [exact Hl|]. split; [reflexivity|].
  split; [lra|]. split; [lra|]. split; [lra|].
  split; [|reflexivity].
  intros H1 H2 H3 H4.
  assert (E : importance_multiplier tier = importance_multiplier "rotation").
  { unfold importance_multiplier.
    apply String.eqb_neq in H1. apply String.eqb_neq in H2.
    apply String.eqb_neq in H3. apply String.eqb_neq in H4.
    rewrite H1, H2, H3, H4. reflexivity. }
  unfold rotation, classify_news_importance. cbv zeta.
  cbn [cls_impact_score cls_expected_price_impact].
  unfold impact. rewrite E. split; reflexivity.
Qed.

Lemma news_impact_bounds_witness :
  cls_impact_score
    (classify_news_importance vader_fixed text_id text_id
       "mahomes ruled out for sunday" None "legend")
  = cls_impact_score
      (classify_news_importance vader_fixed text_id text_id
         "mahomes ruled out for sunday" None "rotation").
Proof.
  destruct (news_impact_bounds vader_fixed text_id text_id
              "mahomes ruled out for sunday" None "legend")
    as (_ & _ & _ & _ & _ & _ & _ & H & _).
  apply H; discriminate.
Defined.

(** ** A second signal for an open market *)

Section Reentry.

Lemma dict_set_member (k : string) (p : Position) (d : list (string * Position)) :
  (k, p) ∈ Dict.set k p d.
Proof.
  induction d as [|[k' p'] d IH]; simpl.
  - left.
  - destruct (String.eqb k' k); [left | right; exact IH].
Qed.

Lemma dict_set_length_known (k : string) (p : Position) (d : list (string * Position)) :
  k ∈ keys d -> length (Dict.set k p d) = length d.
Proof.
  intros H.
  rewrite <- (length_map fst (Dict.set k p d)), <- (length_map fst d).
  change (length (keys (Dict.set k p d)) = length (keys d)).
  rewrite keys_set, bool_decide_eq_true_2 by exact H. reflexivity.
Qed.

End Reentry.

(** X4.  When a signal opens a position for a market that already has
    an open position, the earlier position is dropped without a trade:
    the keys of [open_positions] and their order, the trade list and the
    capital are unchanged, and the market now maps to the new position. *)
Theorem reentry_discards_open_position
    (kelly_rule : Q -> Q -> Q) (config : BacktestConfig)
    (t : Z) (st : State) (signal : Signal) (p : Position) :
  _can_enter_trade config (capital st) signal = true ->
  _enter_position kelly_rule config (capital st) signal t = Some p ->
  sig_market_id signal ∈ keys (open_positions st) ->
  let st' := enter_signal kelly_rule config t st signal in
  keys (open_positions st') = keys (open_positions st) /\
  length (open_positions st') = length (open_positions st) /\
  (sig_market_id signal, p) ∈ open_positions st' /\
  trades st' = trades st /\
  capital st' = capital st.
Proof.
  intros Hcan Hopen Hkey st'. unfold st', enter_signal. rewrite Hcan, Hopen.
  cbn [open_positions trades capital].
  split; [rewrite keys_set, bool_decide_eq_true_2 by exact Hkey; reflexivity|].
  split; [apply dict_set_length_known; exact Hkey|].
  split; [apply dict_set_member|]. split; reflexivity.
Qed.

Lemma reentry_discards_open_position_witness :
  exists p : Position,
    (sig_market_id scenario_signal, p)
    ∈ open_positions
        (enter_signal quarter_kelly default_config 0
           {| trades := []; portfolio_value_history := []; capital := 50000;
              open_positions := [("m1", no_position)] |} scenario_signal) /\
    length (open_positions
              (enter_signal quarter_kelly default_config 0
                 {| trades := []; portfolio_value_history := []; capital := 50000;
                    open_positions := [("m1", no_position)] |} scenario_signal))
    = 1%nat.
Proof.
  eexists.
  destruct (reentry_discards_open_position quarter_kelly default_config 0%Z
              {| trades := []; portfolio_value_history := []; capital := 50000;
                 open_positions := [("m1", no_position)] |} scenario_signal _
              eq_refl eq_refl ltac:(left)) as (_ & H2 & H3 & _).
  split; [exact H3 | exact H2].
Defined.

(** ** Sortino against Sharpe *)

Section Downside.

Import PyFacts.

Lemma filter_all {A : Type} (f : A -> bool) (xs : list A) :
  Forall (fun x => f x = true) xs -> List.filter f xs = xs.
Proof.
  induction 1 as [|x xs Hx _ IH]; simpl; [reflexivity|].
  rewrite Hx, IH. reflexivity.
Qed.

End Downside.

(** X5.  When every excess return is negative, the downside series of
    [_calculate_sortino] is the whole excess series: the Sortino ratio
    is the quotient of the Sharpe ratio, mean over deviation of the
    excess returns times [sqrt 252], guarded on that deviation itself,
    and it is the Sharpe ratio whenever the guard of the latter, on the
    deviation of the returns, decides the same way. *)
Theorem sortino_on_all_negative_excess
    (sqrtQ : Q -> Q) (returns : list Q) (rf : Q) :
  returns <> [] ->
  Forall (fun e => e < 0) (excess_of rf returns) ->
  _calculate_sortino sqrtQ returns rf
  = (if Py.ltb 0 (np_std sqrtQ (excess_of rf returns))
     then np_mean (excess_of rf returns) / np_std sqrtQ (excess_of rf returns)
          * sqrtQ 252
     else 0) /\
  (Py.ltb 0 (np_std sqrtQ returns)
   = Py.ltb 0 (np_std sqrtQ (excess_of rf returns)) ->
   _calculate_sortino sqrtQ returns rf = _calculate_sharpe sqrtQ returns rf).
Proof.
  intros Hne Hneg.
  assert (E : _calculate_sortino sqrtQ returns rf
              = if Py.ltb 0 (np_std sqrtQ (excess_of rf returns))
                then np_mean (excess_of rf returns)
                     / np_std sqrtQ (excess_of rf returns) * sqrtQ 252
                else 0).
  { unfold _calculate_sortino.
    destruct returns as [|r returns]; [congruence|]. cbv zeta.
    rewrite filter_all
      by (eapply Forall_impl; [exact Hneg|]; intros e He;
          apply PyFacts.ltb_lt; exact He).
    reflexivity. }
  split; [exact E|].
  intros Hg. rewrite E. unfold _calculate_sharpe.
  destruct returns as [|r returns]; [congruence|]. cbv zeta.
  rewrite Hg. reflexivity.
Qed.

Lemma sortino_on_all_negative_excess_witness :
  _calculate_sortino sqrt_approx [-1; -3] 0.04
  = _calculate_sharpe sqrt_approx [-1; -3] 0.04.
Proof.
  apply (sortino_on_all_negative_excess sqrt_approx [-1; -3] 0.04).
  - discriminate.
  - repeat constructor.
  - vm_compute. reflexivity.
Defined.
